(** * GitLens cloud drafts: a shallow embedding of [draftsService.ts] and
      [issue.ts], and the properties of their specification.

    Layout: the data model and the operations, translated from the
    TypeScript sources, come first; the theorems follow.

    Conventions of the embedding.
    - A TypeScript [T | undefined] (or an optional property) is [option T];
      [??] and [!= null] do not tell [null] from [undefined], so one [None]
      stands for both.
    - An [async] function is a computation in [Async]: it settles to a
      value or to a thrown error and leaves the list of calls it made to its
      collaborators (git provider, repository registry, server connection).
      The collaborators are fields of the [Container] and [ServerConnection]
      records; they answer a request with a settled result, the same for
      the same request, so that the outcome of concurrent work does not
      depend on how it interleaves: the calls of the branches of a
      [Promise.allSettled] are listed branch by branch.
    - Logging ([@log], [Logger.error], [debugger]) has no effect on results
      and is left out; a [try { ... } catch (ex) { Logger.error(ex); throw ex }]
      block is its body. *)

From Stdlib Require Import ZArith.
From stdpp Require Import base option list strings pretty gmap.

Open Scope string_scope.
Open Scope list_scope.

(** ** Errors, settled promises and the [Async] computation *)

(** JavaScript error values: [new Error(message)], the [TypeError] raised by
    a property access on [undefined], and [new AggregateError(errors, message)]. *)
#[warnings="-register-all"] Inductive JsError : Type :=
| Error (message : string)
| TypeError (message : string)
| AggregateError (errors : list JsError) (message : string).

(** [PromiseSettledResult<A>]. *)
Inductive settled (A : Type) : Type :=
| Fulfilled (value : A)
| Rejected (reason : JsError).
Arguments Fulfilled {A} value.
Arguments Rejected {A} reason.

(** src/system/promise: [getSettledValue], at a result type [A | undefined]
    (where [undefined] for a rejected promise and an [undefined] value
    coincide). *)
Definition getSettledValue {A} (r : settled (option A)) : option A :=
  match r with
  | Fulfilled v => v
  | Rejected _ => None
  end.

(** [getSettledValue] at a result type without [undefined]. *)
Definition getSettledValue1 {A} (r : settled A) : option A :=
  match r with
  | Fulfilled v => Some v
  | Rejected _ => None
  end.

(** [`${reason}`] for an error value. *)
Definition JsError_toString (e : JsError) : string :=
  match e with
  | Error message => "Error: " +:+ message
  | TypeError message => "TypeError: " +:+ message
  | AggregateError _ message => "AggregateError: " +:+ message
  end.

Definition isRejected {A} (r : settled A) : bool :=
  match r with Fulfilled _ => false | Rejected _ => true end.

(** JavaScript truthiness of a string. *)
Definition truthy (s : string) : bool :=
  match s with EmptyString => false | _ => true end.

(** [new Date(value)] for a wire timestamp; the parse itself is the
    runtime's and stays symbolic. *)
Inductive Date : Type := new_Date (value : string).

(** ** src/git/models/issue.ts *)

Module ProviderReference.
Record t : Type := mk {
  id : string;
  name : string;
  domain : string;
  icon : string;
}.
End ProviderReference.

Inductive IssueOrPullRequestType : Type := Type_issue | Type_pullrequest.
Inductive IssueOrPullRequestState : Type := State_opened | State_closed | State_merged.

Inductive RepositoryAccessLevel : Type :=
| Admin | Maintain | Write | Triage | Read | NoAccess.

Definition RepositoryAccessLevel_value (l : RepositoryAccessLevel) : Z :=
  match l with
  | Admin => 100 | Maintain => 40 | Write => 30 | Triage => 20 | Read => 10
  | NoAccess => 0
  end%Z.

Module IssueOrPullRequest.
Record t : Type := mk {
  type : IssueOrPullRequestType;
  provider : ProviderReference.t;
  id : string;
  nodeId : option string;
  title : string;
  url : string;
  createdDate : Date;
  updatedDate : Date;
  closedDate : option Date;
  closed : bool;
  state : IssueOrPullRequestState;
  commentsCount : option Z;
  thumbsUpCount : option Z;
}.
End IssueOrPullRequest.

Module IssueLabel.
Record t : Type := mk { color : option string; name : string }.
End IssueLabel.

Module IssueMember.
Record t : Type := mk {
  id : string;
  name : string;
  avatarUrl : option string;
  url : option string;
}.
End IssueMember.

Module IssueRepository.
Record t : Type := mk {
  owner : string;
  repo : string;
  accessLevel : option RepositoryAccessLevel;
  url : option string;
}.
End IssueRepository.

(** [IssueShape extends IssueOrPullRequest]: the inherited properties first. *)
Module IssueShape.
Record t : Type := mk {
  type : IssueOrPullRequestType;
  provider : ProviderReference.t;
  id : string;
  nodeId : option string;
  title : string;
  url : string;
  createdDate : Date;
  updatedDate : Date;
  closedDate : option Date;
  closed : bool;
  state : IssueOrPullRequestState;
  commentsCount : option Z;
  thumbsUpCount : option Z;
  author : IssueMember.t;
  assignees : list IssueMember.t;
  repository : option IssueRepository.t;
  labels : option (list IssueLabel.t);
  body : option string;
}.
End IssueShape.

Definition serializeProvider (p : ProviderReference.t) : ProviderReference.t :=
  {| ProviderReference.id := ProviderReference.id p;
     ProviderReference.name := ProviderReference.name p;
     ProviderReference.domain := ProviderReference.domain p;
     ProviderReference.icon := ProviderReference.icon p |}.

(** The object literal of [serializeIssueOrPullRequest] lists neither
    [commentsCount] nor [thumbsUpCount]: they are absent from the result. *)
Definition serializeIssueOrPullRequest (value : IssueOrPullRequest.t) : IssueOrPullRequest.t :=
  {| IssueOrPullRequest.type := IssueOrPullRequest.type value;
     IssueOrPullRequest.provider := serializeProvider (IssueOrPullRequest.provider value);
     IssueOrPullRequest.id := IssueOrPullRequest.id value;
     IssueOrPullRequest.nodeId := IssueOrPullRequest.nodeId value;
     IssueOrPullRequest.title := IssueOrPullRequest.title value;
     IssueOrPullRequest.url := IssueOrPullRequest.url value;
     IssueOrPullRequest.createdDate := IssueOrPullRequest.createdDate value;
     IssueOrPullRequest.updatedDate := IssueOrPullRequest.updatedDate value;
     IssueOrPullRequest.closedDate := IssueOrPullRequest.closedDate value;
     IssueOrPullRequest.closed := IssueOrPullRequest.closed value;
     IssueOrPullRequest.state := IssueOrPullRequest.state value;
     IssueOrPullRequest.commentsCount := None;
     IssueOrPullRequest.thumbsUpCount := None |}.

Definition serializeMember (m : IssueMember.t) : IssueMember.t :=
  {| IssueMember.id := IssueMember.id m;
     IssueMember.name := IssueMember.name m;
     IssueMember.avatarUrl := IssueMember.avatarUrl m;
     IssueMember.url := IssueMember.url m |}.

Definition serializeLabel (l : IssueLabel.t) : IssueLabel.t :=
  {| IssueLabel.color := IssueLabel.color l; IssueLabel.name := IssueLabel.name l |}.

(** The [repository] literal copies [owner], [repo] and [url] only. *)
Definition serializeRepository (r : IssueRepository.t) : IssueRepository.t :=
  {| IssueRepository.owner := IssueRepository.owner r;
     IssueRepository.repo := IssueRepository.repo r;
     IssueRepository.accessLevel := None;
     IssueRepository.url := IssueRepository.url r |}.

Definition serializeIssue (value : IssueShape.t) : IssueShape.t :=
  {| IssueShape.type := IssueShape.type value;
     IssueShape.provider := serializeProvider (IssueShape.provider value);
     IssueShape.id := IssueShape.id value;
     IssueShape.nodeId := IssueShape.nodeId value;
     IssueShape.title := IssueShape.title value;
     IssueShape.url := IssueShape.url value;
     IssueShape.createdDate := IssueShape.createdDate value;
     IssueShape.updatedDate := IssueShape.updatedDate value;
     IssueShape.closedDate := IssueShape.closedDate value;
     IssueShape.closed := IssueShape.closed value;
     IssueShape.state := IssueShape.state value;
     IssueShape.author := serializeMember (IssueShape.author value);
     IssueShape.repository :=
       match IssueShape.repository value with
       | None => None
       | Some r => Some (serializeRepository r)
       end;
     IssueShape.assignees := map serializeMember (IssueShape.assignees value);
     IssueShape.labels :=
       match IssueShape.labels value with
       | None => None
       | Some ls => Some (map serializeLabel ls)
       end;
     IssueShape.commentsCount := IssueShape.commentsCount value;
     IssueShape.thumbsUpCount := IssueShape.thumbsUpCount value;
     IssueShape.body := IssueShape.body value |}.

(** ** Data model of the drafts service
    (the interfaces of [gk/models/drafts] and [gk/models/repositoryIdentities]
    as [draftsService.ts] reads and builds them) *)

Definition headers_t : Type := gmap string string.

(** [vscode.Uri], by its components. *)
Module Uri.
Record t : Type := mk {
  scheme : string;
  authority : string;
  path : string;
  query : string;
  fragment : string;
}.
End Uri.

(** [uri.with({ scheme, authority, path })]. *)
Definition Uri_with (u : Uri.t) (scheme authority path : string) : Uri.t :=
  {| Uri.scheme := scheme; Uri.authority := authority; Uri.path := path;
     Uri.query := Uri.query u; Uri.fragment := Uri.fragment u |}.

(** Options of [repositoryIdentity.getRepository]. *)
Module GetRepositoryOptions.
Record t : Type := mk {
  openIfNeeded : option bool;
  keepOpen : option bool;
  prompt : option bool;
  skipRefValidation : option bool;
}.
End GetRepositoryOptions.

(** The [Repository] class, by the properties the services read. *)
Module Repository.
Record t : Type := mk {
  id : string;
  name : string;
  path : string;
  uri : string;
}.
End Repository.

Module GitUser.
Record t : Type := mk { name : option string; email : option string }.
End GitUser.

Module GitBranch.
Record t : Type := mk { name : string }.
End GitBranch.

Module GitCommit.
Record t : Type := mk { sha : string }.
End GitCommit.

Module GitDiff.
Record t : Type := mk { contents : string }.
End GitDiff.

Module RemoteProvider.
Record t : Type := mk {
  gkProviderId : option string;
  owner : option string;
  repoName : option string;
}.
End RemoteProvider.

Module GitRemote.
Record t : Type := mk {
  url : string;
  domain : string;
  path : string;
  provider : RemoteProvider.t;
}.
End GitRemote.

Module GitFileChange.
Record t : Type := mk {
  repoPath : string;
  path : string;
  status : string;
  originalPath : option string;
}.
End GitFileChange.

Module GitDiffFiles.
Record t : Type := mk { files : list GitFileChange.t }.
End GitDiffFiles.

(** [{ ...f, gkRepositoryId }]. *)
Module DraftPatchFileChange.
Record t : Type := mk {
  file : GitFileChange.t;
  gkRepositoryId : string;
}.
End DraftPatchFileChange.

Module RemoteDescriptor.
Record t : Type := mk {
  url : option string;
  domain : option string;
  path : option string;
}.
End RemoteDescriptor.

Module ProviderDescriptor.
Record t : Type := mk {
  id : option string;
  domain : option string;
  repoDomain : option string;
  repoName : option string;
  repoOwnerDomain : option string;
}.
End ProviderDescriptor.

Module RepositoryIdentityDescriptor.
Record t : Type := mk {
  name : string;
  initialCommitSha : option string;
  remote : option RemoteDescriptor.t;
  provider : option ProviderDescriptor.t;
}.
End RepositoryIdentityDescriptor.

Module RepositoryIdentityRequest.
Record t : Type := mk {
  initialCommitSha : option string;
  remote : option RemoteDescriptor.t;
  provider : option ProviderDescriptor.t;
}.
End RepositoryIdentityRequest.

Module RepositoryIdentityResponse.
Record t : Type := mk {
  id : string;
  createdAt : string;
  updatedAt : string;
  name : option string;
  initialCommitSha : option string;
  remote : option RemoteDescriptor.t;
  provider : option ProviderDescriptor.t;
}.
End RepositoryIdentityResponse.

Module RepositoryIdentity.
Record t : Type := mk {
  id : string;
  createdAt : Date;
  updatedAt : Date;
  name : string;
  initialCommitSha : option string;
  remote : option RemoteDescriptor.t;
  provider : option ProviderDescriptor.t;
}.
End RepositoryIdentity.

(** A [RepositoryIdentity] passed where a [RepositoryIdentityDescriptor] is
    expected (structural subtyping). *)
Definition RepositoryIdentity_descriptor (i : RepositoryIdentity.t) : RepositoryIdentityDescriptor.t :=
  {| RepositoryIdentityDescriptor.name := RepositoryIdentity.name i;
     RepositoryIdentityDescriptor.initialCommitSha := RepositoryIdentity.initialCommitSha i;
     RepositoryIdentityDescriptor.remote := RepositoryIdentity.remote i;
     RepositoryIdentityDescriptor.provider := RepositoryIdentity.provider i |}.

Module CreateDraftChange.
Record t : Type := mk {
  revision_to : string;
  revision_from : string;
  contents : option string;
  repository : Repository.t;
  prEntityId : option string;
}.
End CreateDraftChange.

Module CreateDraftPatchRequest.
Record t : Type := mk {
  baseCommitSha : string;
  baseBranchName : string;
  gitRepoData : RepositoryIdentityRequest.t;
  prEntityId : option string;
}.
End CreateDraftPatchRequest.

Module CreateDraftPatchRequestFromChange.
Record t : Type := mk {
  patch : CreateDraftPatchRequest.t;
  contents : string;
  repository : Repository.t;
  user : option GitUser.t;
}.
End CreateDraftPatchRequestFromChange.

Module CreateDraftOptions.
Record t : Type := mk {
  description : option string;
  visibility : option string;
  prEntityId : option string;
}.
End CreateDraftOptions.

Module ProviderAuth.
Record t : Type := mk { provider : string; token : string }.
End ProviderAuth.

Module SubscriptionAccount.
Record t : Type := mk { id : string; name : string; email : option string }.
End SubscriptionAccount.

Module Subscription.
Record t : Type := mk { account : option SubscriptionAccount.t }.
End Subscription.

Module Integration.
Record t : Type := mk {
  id : string;
  authProvider_id : string;
  authProviderDescriptor : string;
}.
End Integration.

Module Session.
Record t : Type := mk { accessToken : string }.
End Session.

(** [secureUploadData] / [secureDownloadData]. *)
Module SecureLink.
Record t : Type := mk {
  url : string;
  method : string;
  headers : headers_t;
}.
End SecureLink.

Module CreateDraftResponse.
Record t : Type := mk { id : string }.
End CreateDraftResponse.

(** An entry of [DraftChangesetCreateResponse.patches]. *)
Module DraftPatchCreateResponse.
Record t : Type := mk {
  id : string;
  createdAt : string;
  updatedAt : option string;
  draftId : string;
  changesetId : string;
  userId : string;
  baseBranchName : string;
  baseCommitSha : string;
  gitRepositoryId : string;
  secureUploadData : SecureLink.t;
}.
End DraftPatchCreateResponse.

(** [secureDownloadData] is optional here because [createDraft] passes
    [secureDownloadData: undefined!] to [formatPatch]. *)
Module DraftPatchResponse.
Record t : Type := mk {
  id : string;
  createdAt : string;
  updatedAt : option string;
  draftId : string;
  changesetId : string;
  userId : string;
  baseBranchName : string;
  baseCommitSha : string;
  gitRepositoryId : string;
  secureDownloadData : option SecureLink.t;
}.
End DraftPatchResponse.

Module DraftChangesetCreateResponse.
Record t : Type := mk {
  id : string;
  createdAt : string;
  updatedAt : option string;
  draftId : string;
  parentChangesetId : option string;
  userId : string;
  gitUserName : option string;
  gitUserEmail : option string;
  deepLink : option string;
  patches : list DraftPatchCreateResponse.t;
}.
End DraftChangesetCreateResponse.

Module DraftChangesetResponse.
Record t : Type := mk {
  id : string;
  createdAt : string;
  updatedAt : option string;
  draftId : string;
  parentChangesetId : option string;
  userId : string;
  gitUserName : option string;
  gitUserEmail : option string;
  deepLink : option string;
  patches : list DraftPatchResponse.t;
}.
End DraftChangesetResponse.

Module DraftResponse.
Record t : Type := mk {
  type : string;
  id : string;
  createdAt : string;
  updatedAt : option string;
  createdBy : string;
  organizationId : option string;
  role : string;
  isPublished : bool;
  title : string;
  description : option string;
  deepLink : string;
  visibility : string;
  isArchived : bool;
  archivedBy : option string;
  archivedReason : option string;
  archivedAt : option string;
  latestChangesetId : string;
}.
End DraftResponse.

(** The sum type [Repository | RepositoryIdentity]. *)
Inductive RepositoryOrIdentity : Type :=
| IsRepository (repository : Repository.t)
| IsIdentity (identity : RepositoryIdentity.t).

Module DraftPatch.
Record t : Type := mk {
  type : string;
  id : string;
  createdAt : Date;
  updatedAt : Date;
  draftId : string;
  changesetId : string;
  userId : string;
  baseBranchName : string;
  baseRef : string;
  gkRepositoryId : string;
  secureLink : option SecureLink.t;
  commit : option GitCommit.t;
  contents : option string;
  files : option (list DraftPatchFileChange.t);
  repository : option RepositoryOrIdentity;
}.
End DraftPatch.

Module DraftPatchDetails.
Record t : Type := mk {
  id : string;
  contents : option string;
  files : list DraftPatchFileChange.t;
  repository : option RepositoryOrIdentity;
}.
End DraftPatchDetails.

Module DraftChangeset.
Record t : Type := mk {
  id : string;
  createdAt : Date;
  updatedAt : Date;
  draftId : string;
  parentChangesetId : option string;
  userId : string;
  gitUserName : option string;
  gitUserEmail : option string;
  deepLinkUrl : option string;
  patches : list DraftPatch.t;
}.
End DraftChangeset.

Module DraftAuthor.
Record t : Type := mk {
  id : string;
  name : option string;
  email : option string;
}.
End DraftAuthor.

Module Draft.
Record t : Type := mk {
  draftType : string;
  type : string;
  id : string;
  createdAt : Date;
  updatedAt : Date;
  author : DraftAuthor.t;
  isMine : bool;
  organizationId : option string;
  role : string;
  isPublished : bool;
  title : string;
  description : option string;
  deepLinkUrl : string;
  visibility : string;
  isArchived : bool;
  archivedBy : option string;
  archivedReason : option string;
  archivedAt : option Date;
  latestChangesetId : string;
  changesets : option (list DraftChangeset.t);
}.
End Draft.

Module DraftUser.
Record t : Type := mk { id : string; userId : string; role : string }.
End DraftUser.

Module DraftPendingUser.
Record t : Type := mk { userId : string; role : string }.
End DraftPendingUser.

Module FormatDraftOptions.
Record t : Type := mk {
  account : option SubscriptionAccount.t;
  fallbackAuthorName : option string;
  fromPrEntityId : option bool;
}.
End FormatDraftOptions.

Module FormatPatchOptions.
Record t : Type := mk {
  commit : option GitCommit.t;
  contents : option string;
  files : option (list DraftPatchFileChange.t);
  repository : option RepositoryOrIdentity;
}.
End FormatPatchOptions.

(** ** Requests, responses and the calls to collaborators *)

(** The body of a request to the drafts API; the source sends
    [JSON.stringify] of these objects. *)
Inductive RequestBody : Type :=
| Body_createDraft (type title : string) (description : option string) (visibility : string)
| Body_createChangeset (gitUserName gitUserEmail : option string)
    (patches : list CreateDraftPatchRequest.t)
| Body_prEntityId (prEntityId : string)
| Body_archiveReason (archiveReason : string)
| Body_visibility (visibility : string)
| Body_users (id : string) (users : list DraftPendingUser.t).

(** The arguments of [connection.fetchGkDevApi(path, init, options)]. *)
Module Request.
Record t : Type := mk {
  path : string;
  method : string;
  body : option RequestBody;
  headers : option headers_t;
  query : option string;
}.
End Request.

(** The arguments of [connection.fetch(url, init)]. *)
Module RawRequest.
Record t : Type := mk {
  url : string;
  method : string;
  headers : headers_t;
  body : option string;
}.
End RawRequest.

(** The [error] property of a failure body: a string or [{ message? }]. *)
Inductive ErrorField : Type :=
| ErrorString (error : string)
| ErrorObject (message : option string).

(** A decoded JSON body, read under the cast [as { data: A }] or as the
    failure shape [{ error }]. *)
Module Payload.
Record t (A : Type) : Type := mk {
  data : option A;
  error : option ErrorField;
}.
Arguments mk {A}.
Arguments data {A}.
Arguments error {A}.
End Payload.

(** A response: [ok], [status], [statusText], and how [json()] and [text()]
    settle. *)
Module Response.
Record t (A : Type) : Type := mk {
  ok : bool;
  status : Z;
  statusText : string;
  json : settled (Payload.t A);
  text : settled string;
}.
Arguments mk {A}.
Arguments ok {A}.
Arguments status {A}.
Arguments statusText {A}.
Arguments json {A}.
Arguments text {A}.
End Response.

(** The casts [as { data: ... }] under which the service reads a body. *)
Inductive Shape : Type :=
| AsCreateDraftResponse
| AsDraftChangesetCreateResponse
| AsDraftResponse
| AsDraftResponses
| AsDraftChangesetResponses
| AsDraftPatchResponse
| AsRepositoryIdentityResponse
| AsDraft
| AsDraftUsers
| AsNothing.

Definition dataOf (s : Shape) : Type :=
  match s with
  | AsCreateDraftResponse => CreateDraftResponse.t
  | AsDraftChangesetCreateResponse => DraftChangesetCreateResponse.t
  | AsDraftResponse => DraftResponse.t
  | AsDraftResponses => list DraftResponse.t
  | AsDraftChangesetResponses => list DraftChangesetResponse.t
  | AsDraftPatchResponse => DraftPatchResponse.t
  | AsRepositoryIdentityResponse => RepositoryIdentityResponse.t
  | AsDraft => Draft.t
  | AsDraftUsers => list DraftUser.t
  | AsNothing => unit
  end.

(** One call to a collaborator. *)
Inductive Event : Type :=
| Git_getBranch (uri : string)
| Git_getCommitBranches (uri : string) (refs : list string)
| Git_getDiff (path to from : string)
| Git_getFirstCommitSha (uri : string)
| Git_getBestRemoteWithProvider (uri : string)
| Git_getCurrentUser (uri : string)
| Git_getCommit (uri ref : string)
| Git_getDiffFiles (path : string) (contents : option string)
| Git_getOrOpenRepository (uri : Uri.t)
| Repository_getBestRemoteWithIntegration (repository : Repository.t)
| Remote_getIntegration (remote : GitRemote.t)
| IntegrationAuthentication_getSession (integrationId descriptor : string)
| RepositoryIdentity_getRepository (identity : RepositoryIdentityDescriptor.t)
    (options : option GetRepositoryOptions.t)
| Subscription_getSubscription
| FetchGkDevApi (request : Request.t)
| Fetch (request : RawRequest.t)
| Response_json
| Response_text.

(** The calls that reach the remote drafts service or its blob storage. *)
Definition isRemoteCall (e : Event) : bool :=
  match e with
  | FetchGkDevApi _ | Fetch _ => true
  | _ => false
  end.

(** An asynchronous computation: how it settles, and the calls it made. *)
Definition Async (A : Type) : Type := (settled A * list Event)%type.

Definition outcome {A} (m : Async A) : settled A := fst m.
Definition calls {A} (m : Async A) : list Event := snd m.

#[global] Instance Async_ret : MRet Async := λ A a, (Fulfilled a, []).

#[global] Instance Async_bind : MBind Async := λ A B f m,
  match m with
  | (Fulfilled a, w) => let '(r, w') := f a in (r, w ++ w')
  | (Rejected e, w) => (Rejected e, w)
  end.

(** [throw e]. *)
Definition throw {A} (e : JsError) : Async A := (Rejected e, []).

(** [await] of a call [ev] to a collaborator that settles as [r]. *)
Definition await {A} (ev : Event) (r : settled A) : Async A := (r, [ev]).

(** One branch of [Promise.allSettled]: the computation runs to its end and
    its outcome becomes a value. *)
Definition settle {A} (m : Async A) : Async (settled A) :=
  (Fulfilled (fst m), snd m).

(** [Promise.allSettled(ps)]. *)
Fixpoint allSettled {A} (ps : list (Async A)) : Async (list (settled A)) :=
  match ps with
  | [] => mret []
  | p :: ps' => r ← settle p; rs ← allSettled ps'; mret (r :: rs)
  end.

(** [try { x = await m } catch {}]: [None] when [m] throws. *)
Definition tryCatch {A} (m : Async A) : Async (option A) :=
  match m with
  | (Fulfilled a, w) => (Fulfilled (Some a), w)
  | (Rejected _, w) => (Fulfilled None, w)
  end.

(** [for (const x of xs) { body }] over a loop state. *)
Fixpoint forOf {A S} (body : S → A → Async S) (xs : list A) (s : S) : Async S :=
  match xs with
  | [] => mret s
  | x :: xs' => s' ← body s x; forOf body xs' s'
  end.

(** The git provider service, [container.git]. *)
Module Git.
Record t : Type := mk {
  getBranch : string → settled (option GitBranch.t);
  getCommitBranches : string → list string → settled (list string);
  getDiff : string → string → string → settled (option GitDiff.t);
  getFirstCommitSha : string → settled (option string);
  getBestRemoteWithProvider : string → settled (option GitRemote.t);
  getCurrentUser : string → settled (option GitUser.t);
  getCommit : string → string → settled (option GitCommit.t);
  (* declared over [contents: string]; [getPatchDetails] can pass [undefined] *)
  getDiffFiles : string → option string → settled (option GitDiffFiles.t);
  getOrOpenRepository : Uri.t → settled (option Repository.t);
}.
End Git.

(** The [Container]: git, the repository registry, the subscription and the
    integration sessions, with the two methods the service calls on a
    [Repository] and on a [GitRemote]. *)
Module Container.
Record t : Type := mk {
  git : Git.t;
  repositoryIdentity_getRepository :
    RepositoryIdentityDescriptor.t → option GetRepositoryOptions.t →
    settled (option Repository.t);
  subscription_getSubscription : settled Subscription.t;
  integrationAuthentication_getSession : string → string → settled (option Session.t);
  repository_getBestRemoteWithIntegration : Repository.t → settled (option GitRemote.t);
  remote_getIntegration : GitRemote.t → settled (option Integration.t);
}.
End Container.

(** The [ServerConnection]. *)
Module ServerConnection.
Record t : Type := mk {
  fetchGkDevApi : ∀ s : Shape, Request.t → settled (Response.t (dataOf s));
  fetch : RawRequest.t → settled (Response.t unit);
}.
End ServerConnection.

(** Functions and constants the two files import from modules that are not
    part of the sources at hand. *)
Module Imports.
Record t : Type := mk {
  isSha : string → bool;
  isUncommitted : string → bool;
  shortenRevision : string → string;
  getRemoteProviderMatcher : string → string → string → option RemoteProvider.t;
  (* [Buffer.from(JSON.stringify(providerAuth)).toString('base64')] *)
  encodeProviderAuth : ProviderAuth.t → string;
  encodeURIComponent : string → string;
  Uri_parse : string → Uri.t;
  Schemes_Virtual : string;
}.
End Imports.

(** [class DraftService], with the imports it runs against. *)
Module DraftService.
Record t : Type := mk {
  imports : Imports.t;
  container : Container.t;
  connection : ServerConnection.t;
}.
End DraftService.

(** ** src/git/models/issue.ts: repository resolution *)

Definition getRepositoryIdentityForIssue (issue : IssueShape.t)
  : Async RepositoryIdentityDescriptor.t :=
  match IssueShape.repository issue with
  | None => throw (Error "Missing repository")
  | Some repository =>
      let provider := IssueShape.provider issue in
      mret {|
        RepositoryIdentityDescriptor.remote := Some {|
          RemoteDescriptor.url := IssueRepository.url repository;
          RemoteDescriptor.domain := Some (ProviderReference.domain provider);
          RemoteDescriptor.path := None |};
        RepositoryIdentityDescriptor.name :=
          IssueRepository.owner repository +:+ "/" +:+ IssueRepository.repo repository;
        RepositoryIdentityDescriptor.initialCommitSha := None;
        RepositoryIdentityDescriptor.provider := Some {|
          ProviderDescriptor.id := Some (ProviderReference.id provider);
          ProviderDescriptor.domain := Some (ProviderReference.domain provider);
          ProviderDescriptor.repoDomain := Some (IssueRepository.owner repository);
          ProviderDescriptor.repoName := Some (IssueRepository.repo repository);
          ProviderDescriptor.repoOwnerDomain := Some (IssueRepository.owner repository) |}
      |}
  end.

Definition getVirtualUriForIssue (imports : Imports.t) (issue : IssueShape.t)
  : Async (option Uri.t) :=
  match IssueShape.repository issue with
  | None => throw (Error "Missing repository")
  | Some repository =>
      if negb (String.eqb (ProviderReference.id (IssueShape.provider issue)) "github")
      then mret None
      else
        let uri := Imports.Uri_parse imports
                     (default (IssueShape.url issue) (IssueRepository.url repository)) in
        mret (Some (Uri_with uri (Imports.Schemes_Virtual imports) "github" (Uri.path uri)))
  end.

Module IssueRepositoryOptions.
Record t : Type := mk {
  promptIfNeeded : option bool;
  skipVirtual : option bool;
}.
End IssueRepositoryOptions.

(** [options?.flag] read as a condition: absent counts as false. *)
Definition flag {O} (options : option O) (get : O → option bool) : bool :=
  match options with
  | Some o => default false (get o)
  | None => false
  end.

Definition lookupOptions (prompt : bool) : option GetRepositoryOptions.t :=
  Some {| GetRepositoryOptions.openIfNeeded := Some true;
          GetRepositoryOptions.keepOpen := Some false;
          GetRepositoryOptions.prompt := Some prompt;
          GetRepositoryOptions.skipRefValidation := None |}.

Definition getOrOpenIssueRepository (imports : Imports.t) (container : Container.t)
    (issue : IssueShape.t) (options : option IssueRepositoryOptions.t)
  : Async (option Repository.t) :=
  identity ← getRepositoryIdentityForIssue issue;
  repo ← await (RepositoryIdentity_getRepository identity (lookupOptions false))
            (Container.repositoryIdentity_getRepository container identity (lookupOptions false));
  repo ← (if bool_decide (repo = None) && negb (flag options IssueRepositoryOptions.skipVirtual)
          then
            virtualUri ← getVirtualUriForIssue imports issue;
            match virtualUri with
            | Some virtualUri =>
                await (Git_getOrOpenRepository virtualUri)
                  (Git.getOrOpenRepository (Container.git container) virtualUri)
            | None => mret repo
            end
          else mret repo);
  repo ← (if bool_decide (repo = None) && flag options IssueRepositoryOptions.promptIfNeeded
          then
            await (RepositoryIdentity_getRepository identity (lookupOptions true))
              (Container.repositoryIdentity_getRepository container identity (lookupOptions true))
          else mret repo);
  mret repo.

(** ** src/plus/drafts/draftsService.ts: response normalization *)

(** [options?.p] for an optional options object. *)
Definition opt {O A} (options : option O) (get : O → option A) : option A :=
  match options with
  | Some o => get o
  | None => None
  end.

Definition formatPatch (patchResponse : DraftPatchResponse.t)
    (options : option FormatPatchOptions.t) : DraftPatch.t :=
  {| DraftPatch.type := "cloud";
     DraftPatch.id := DraftPatchResponse.id patchResponse;
     DraftPatch.createdAt := new_Date (DraftPatchResponse.createdAt patchResponse);
     DraftPatch.updatedAt :=
       new_Date (default (DraftPatchResponse.createdAt patchResponse)
                   (DraftPatchResponse.updatedAt patchResponse));
     DraftPatch.draftId := DraftPatchResponse.draftId patchResponse;
     DraftPatch.changesetId := DraftPatchResponse.changesetId patchResponse;
     DraftPatch.userId := DraftPatchResponse.userId patchResponse;
     DraftPatch.baseBranchName := DraftPatchResponse.baseBranchName patchResponse;
     DraftPatch.baseRef := DraftPatchResponse.baseCommitSha patchResponse;
     DraftPatch.gkRepositoryId := DraftPatchResponse.gitRepositoryId patchResponse;
     DraftPatch.secureLink := DraftPatchResponse.secureDownloadData patchResponse;
     DraftPatch.commit := opt options FormatPatchOptions.commit;
     DraftPatch.contents := opt options FormatPatchOptions.contents;
     DraftPatch.files := opt options FormatPatchOptions.files;
     DraftPatch.repository := opt options FormatPatchOptions.repository |}.

Definition formatChangeset (changesetResponse : DraftChangesetResponse.t) : DraftChangeset.t :=
  {| DraftChangeset.id := DraftChangesetResponse.id changesetResponse;
     DraftChangeset.createdAt := new_Date (DraftChangesetResponse.createdAt changesetResponse);
     DraftChangeset.updatedAt :=
       new_Date (default (DraftChangesetResponse.createdAt changesetResponse)
                   (DraftChangesetResponse.updatedAt changesetResponse));
     DraftChangeset.draftId := DraftChangesetResponse.draftId changesetResponse;
     DraftChangeset.parentChangesetId := DraftChangesetResponse.parentChangesetId changesetResponse;
     DraftChangeset.userId := DraftChangesetResponse.userId changesetResponse;
     DraftChangeset.gitUserName := DraftChangesetResponse.gitUserName changesetResponse;
     DraftChangeset.gitUserEmail := DraftChangesetResponse.gitUserEmail changesetResponse;
     DraftChangeset.deepLinkUrl := DraftChangesetResponse.deepLink changesetResponse;
     DraftChangeset.patches :=
       map (λ patch, formatPatch patch None) (DraftChangesetResponse.patches changesetResponse) |}.

(** [draftResponse.createdBy === options?.account?.id]. *)
Definition createdByAccount (draftResponse : DraftResponse.t)
    (options : option FormatDraftOptions.t) : option SubscriptionAccount.t :=
  match opt options FormatDraftOptions.account with
  | Some account =>
      if String.eqb (DraftResponse.createdBy draftResponse) (SubscriptionAccount.id account)
      then Some account else None
  | None => None
  end.

Definition formatDraft (draftResponse : DraftResponse.t)
    (options : option FormatDraftOptions.t) : Draft.t :=
  let isMine := false in
  let author := {| DraftAuthor.id := DraftResponse.createdBy draftResponse;
                   DraftAuthor.name := opt options FormatDraftOptions.fallbackAuthorName;
                   DraftAuthor.email := None |} in
  let '(isMine, author) :=
    match createdByAccount draftResponse options with
    | Some account =>
        (true,
         {| DraftAuthor.id := DraftAuthor.id author;
            DraftAuthor.name := Some (SubscriptionAccount.name account +:+ " (you)");
            DraftAuthor.email := SubscriptionAccount.email account |})
    | None => (isMine, author)
    end in
  let role := DraftResponse.role draftResponse in
  let role :=
    if String.eqb role "" then
      if bool_decide (opt options FormatDraftOptions.fromPrEntityId = Some true)
      then "editor" else "viewer"
    else role in
  {| Draft.draftType := "cloud";
     Draft.type := DraftResponse.type draftResponse;
     Draft.id := DraftResponse.id draftResponse;
     Draft.createdAt := new_Date (DraftResponse.createdAt draftResponse);
     Draft.updatedAt :=
       new_Date (default (DraftResponse.createdAt draftResponse)
                   (DraftResponse.updatedAt draftResponse));
     Draft.author := author;
     Draft.isMine := isMine;
     Draft.organizationId :=
       match DraftResponse.organizationId draftResponse with
       | Some o => if truthy o then Some o else None
       | None => None
       end;
     Draft.role := role;
     Draft.isPublished := DraftResponse.isPublished draftResponse;
     Draft.title := DraftResponse.title draftResponse;
     Draft.description := DraftResponse.description draftResponse;
     Draft.deepLinkUrl := DraftResponse.deepLink draftResponse;
     Draft.visibility := DraftResponse.visibility draftResponse;
     Draft.isArchived := DraftResponse.isArchived draftResponse;
     Draft.archivedBy := DraftResponse.archivedBy draftResponse;
     Draft.archivedReason := DraftResponse.archivedReason draftResponse;
     Draft.archivedAt :=
       match DraftResponse.archivedAt draftResponse with
       | Some archivedAt => Some (new_Date archivedAt)
       | None => None
       end;
     Draft.latestChangesetId := DraftResponse.latestChangesetId draftResponse;
     Draft.changesets := None |}.

(** [newDraft.changesets = changesets]. *)
Definition Draft_setChangesets (draft : Draft.t) (changesets : list DraftChangeset.t) : Draft.t :=
  {| Draft.draftType := Draft.draftType draft;
     Draft.type := Draft.type draft;
     Draft.id := Draft.id draft;
     Draft.createdAt := Draft.createdAt draft;
     Draft.updatedAt := Draft.updatedAt draft;
     Draft.author := Draft.author draft;
     Draft.isMine := Draft.isMine draft;
     Draft.organizationId := Draft.organizationId draft;
     Draft.role := Draft.role draft;
     Draft.isPublished := Draft.isPublished draft;
     Draft.title := Draft.title draft;
     Draft.description := Draft.description draft;
     Draft.deepLinkUrl := Draft.deepLinkUrl draft;
     Draft.visibility := Draft.visibility draft;
     Draft.isArchived := Draft.isArchived draft;
     Draft.archivedBy := Draft.archivedBy draft;
     Draft.archivedReason := Draft.archivedReason draft;
     Draft.archivedAt := Draft.archivedAt draft;
     Draft.latestChangesetId := Draft.latestChangesetId draft;
     Draft.changesets := Some changesets |}.

(** [{ ...changeset, patches }]. *)
Definition DraftChangeset_setPatches (changeset : DraftChangeset.t) (patches : list DraftPatch.t)
  : DraftChangeset.t :=
  {| DraftChangeset.id := DraftChangeset.id changeset;
     DraftChangeset.createdAt := DraftChangeset.createdAt changeset;
     DraftChangeset.updatedAt := DraftChangeset.updatedAt changeset;
     DraftChangeset.draftId := DraftChangeset.draftId changeset;
     DraftChangeset.parentChangesetId := DraftChangeset.parentChangesetId changeset;
     DraftChangeset.userId := DraftChangeset.userId changeset;
     DraftChangeset.gitUserName := DraftChangeset.gitUserName changeset;
     DraftChangeset.gitUserEmail := DraftChangeset.gitUserEmail changeset;
     DraftChangeset.deepLinkUrl := DraftChangeset.deepLinkUrl changeset;
     DraftChangeset.patches := patches |}.

(** [{ ...createChangeset, patches: [] }], read as a [DraftChangesetResponse]. *)
Definition withoutPatches (c : DraftChangesetCreateResponse.t) : DraftChangesetResponse.t :=
  {| DraftChangesetResponse.id := DraftChangesetCreateResponse.id c;
     DraftChangesetResponse.createdAt := DraftChangesetCreateResponse.createdAt c;
     DraftChangesetResponse.updatedAt := DraftChangesetCreateResponse.updatedAt c;
     DraftChangesetResponse.draftId := DraftChangesetCreateResponse.draftId c;
     DraftChangesetResponse.parentChangesetId := DraftChangesetCreateResponse.parentChangesetId c;
     DraftChangesetResponse.userId := DraftChangesetCreateResponse.userId c;
     DraftChangesetResponse.gitUserName := DraftChangesetCreateResponse.gitUserName c;
     DraftChangesetResponse.gitUserEmail := DraftChangesetCreateResponse.gitUserEmail c;
     DraftChangesetResponse.deepLink := DraftChangesetCreateResponse.deepLink c;
     DraftChangesetResponse.patches := [] |}.

(** [{ ...patch, secureDownloadData: undefined! }], read as a [DraftPatchResponse]. *)
Definition withoutDownloadData (p : DraftPatchCreateResponse.t) : DraftPatchResponse.t :=
  {| DraftPatchResponse.id := DraftPatchCreateResponse.id p;
     DraftPatchResponse.createdAt := DraftPatchCreateResponse.createdAt p;
     DraftPatchResponse.updatedAt := DraftPatchCreateResponse.updatedAt p;
     DraftPatchResponse.draftId := DraftPatchCreateResponse.draftId p;
     DraftPatchResponse.changesetId := DraftPatchCreateResponse.changesetId p;
     DraftPatchResponse.userId := DraftPatchCreateResponse.userId p;
     DraftPatchResponse.baseBranchName := DraftPatchCreateResponse.baseBranchName p;
     DraftPatchResponse.baseCommitSha := DraftPatchCreateResponse.baseCommitSha p;
     DraftPatchResponse.gitRepositoryId := DraftPatchCreateResponse.gitRepositoryId p;
     DraftPatchResponse.secureDownloadData := None |}.

(** [diffFiles?.files.map(f => ({ ...f, gkRepositoryId })) ?? []]. *)
Definition toFileChanges (diffFiles : option GitDiffFiles.t) (gkRepositoryId : string)
  : list DraftPatchFileChange.t :=
  match diffFiles with
  | Some d =>
      map (λ f, {| DraftPatchFileChange.file := f;
                   DraftPatchFileChange.gkRepositoryId := gkRepositoryId |})
          (GitDiffFiles.files d)
  | None => []
  end.

(** ** Remote failures *)

(** [handleBadDraftResponse]: reads the failure body if it can, and always
    throws. *)
Definition handleBadDraftResponse {A B} (message : string) (rsp : option (Response.t A))
  : Async B :=
  json ← tryCatch (match rsp with
                   | Some rsp => j ← await Response_json (Response.json rsp); mret (Some j)
                   | None => mret None
                   end);
  let json := mjoin json in
  let rspErrorMessage : option string :=
    match opt json Payload.error with
    | Some (ErrorString error) => Some error
    | Some (ErrorObject (Some message)) => Some message
    | _ => Response.statusText <$> rsp
    end in
  let errorMessage :=
    match rsp with
    | Some rsp =>
        message +:+ ": (" +:+ pretty (Response.status rsp) +:+ ") "
          +:+ default "undefined" rspErrorMessage
    | None => message
    end in
  throw (Error errorMessage).

(** [if (!rsp.ok) await handleBadDraftResponse(message, rsp, scope)]. *)
Definition checkOk {A} (message : string) (rsp : Response.t A) : Async unit :=
  if negb (Response.ok rsp) then handleBadDraftResponse message (Some rsp) else mret ().

(** [((await rsp.json()) as { data: A }).data]. *)
Definition readData {A} (rsp : Response.t A) : Async (option A) :=
  payload ← await Response_json (Response.json rsp);
  mret (Payload.data payload).

(** A property read on [data]: a [TypeError] when [data] is [undefined]. *)
Definition defined {A} (what : string) (x : option A) : Async A :=
  match x with
  | Some a => mret a
  | None => throw (TypeError ("Cannot read properties of undefined (reading '" +:+ what +:+ "')"))
  end.

(** The [Provider-Auth] header. *)
Definition providerAuthHeaders (imports : Imports.t) (providerAuth : ProviderAuth.t) : headers_t :=
  {[ "Provider-Auth" := Imports.encodeProviderAuth imports providerAuth ]}.

(** ** Provider authentication *)

Definition getProviderAuthFromRepository (this : DraftService.t) (repository : Repository.t)
  : Async (option ProviderAuth.t) :=
  let container := DraftService.container this in
  remoteProvider ← await (Repository_getBestRemoteWithIntegration repository)
                      (Container.repository_getBestRemoteWithIntegration container repository);
  match remoteProvider with
  | None => mret None
  | Some remoteProvider =>
      integration ← await (Remote_getIntegration remoteProvider)
                       (Container.remote_getIntegration container remoteProvider);
      match integration with
      | None => mret None
      | Some integration =>
          session ← await (IntegrationAuthentication_getSession (Integration.id integration)
                             (Integration.authProviderDescriptor integration))
                      (Container.integrationAuthentication_getSession container
                         (Integration.id integration)
                         (Integration.authProviderDescriptor integration));
          match session with
          | None => mret None
          | Some session =>
              mret (Some {| ProviderAuth.provider := Integration.authProvider_id integration;
                            ProviderAuth.token := Session.accessToken session |})
          end
      end
  end.

(** ** Building the patch request of one change *)

Definition getCreateDraftPatchRequestFromChange (this : DraftService.t)
    (change : CreateDraftChange.t) : Async CreateDraftPatchRequestFromChange.t :=
  let imports := DraftService.imports this in
  let git := Container.git (DraftService.container this) in
  let repository := CreateDraftChange.repository change in
  let uri := Repository.uri repository in
  let to := CreateDraftChange.revision_to change in
  let from := CreateDraftChange.revision_from change in
  let isWIP := Imports.isUncommitted imports to in
  branchNamesResult ←
    settle (if isWIP
            then b ← await (Git_getBranch uri) (Git.getBranch git uri);
                 mret (match b with Some b => Some [GitBranch.name b] | None => None end)
            else bs ← await (Git_getCommitBranches uri [to; from])
                        (Git.getCommitBranches git uri [to; from]);
                 mret (Some bs));
  diffResult ←
    settle (match CreateDraftChange.contents change with
            | None => await (Git_getDiff (Repository.path repository) to from)
                        (Git.getDiff git (Repository.path repository) to from)
            | Some _ => mret None
            end);
  firstShaResult ← settle (await (Git_getFirstCommitSha uri) (Git.getFirstCommitSha git uri));
  remoteResult ←
    settle (await (Git_getBestRemoteWithProvider uri) (Git.getBestRemoteWithProvider git uri));
  userResult ← settle (await (Git_getCurrentUser uri) (Git.getCurrentUser git uri));
  let firstSha := getSettledValue firstShaResult in
  let remote := getSettledValue remoteResult in
  repoData ←
    match remote with
    | None =>
        match firstSha with
        | None => throw (Error "No remote or initial commit found")
        | Some firstSha =>
            mret {| RepositoryIdentityRequest.initialCommitSha := Some firstSha;
                    RepositoryIdentityRequest.remote := None;
                    RepositoryIdentityRequest.provider := None |}
        end
    | Some remote =>
        let provider := GitRemote.provider remote in
        mret {| RepositoryIdentityRequest.initialCommitSha := firstSha;
                RepositoryIdentityRequest.remote := Some {|
                  RemoteDescriptor.url := Some (GitRemote.url remote);
                  RemoteDescriptor.domain := Some (GitRemote.domain remote);
                  RemoteDescriptor.path := Some (GitRemote.path remote) |};
                RepositoryIdentityRequest.provider :=
                  match RemoteProvider.gkProviderId provider, RemoteProvider.owner provider,
                        RemoteProvider.repoName provider with
                  | Some id, Some owner, Some repoName =>
                      Some {| ProviderDescriptor.id := Some id;
                              ProviderDescriptor.domain := None;
                              ProviderDescriptor.repoDomain := Some owner;
                              ProviderDescriptor.repoName := Some repoName;
                              ProviderDescriptor.repoOwnerDomain := None |}
                  | _, _, _ => None
                  end |}
    end;
  let diff := getSettledValue diffResult in
  contents ←
    match CreateDraftChange.contents change with
    | Some contents => mret contents
    | None =>
        match diff with
        | Some diff => mret (GitDiff.contents diff)
        | None => throw (Error ("Unable to diff " +:+ from +:+ " and " +:+ to))
        end
    end;
  let user := getSettledValue userResult in
  let branchNames := getSettledValue branchNamesResult in
  let branchName := default "HEAD" (branchNames ≫= head) in
  baseSha ←
    (if negb (Imports.isSha imports from)
     then commit ← await (Git_getCommit uri from) (Git.getCommit git uri from);
          mret (match commit with Some commit => GitCommit.sha commit | None => from end)
     else mret from);
  mret {| CreateDraftPatchRequestFromChange.patch := {|
            CreateDraftPatchRequest.baseCommitSha := baseSha;
            CreateDraftPatchRequest.baseBranchName := branchName;
            CreateDraftPatchRequest.gitRepoData := repoData;
            CreateDraftPatchRequest.prEntityId := CreateDraftChange.prEntityId change |};
          CreateDraftPatchRequestFromChange.contents := contents;
          CreateDraftPatchRequestFromChange.repository := repository;
          CreateDraftPatchRequestFromChange.user := user |}.

(** ** createDraft *)

(** The state of the loop over [results]: [patchRequests], [failed], [user]. *)
Module Collected.
Record t : Type := mk {
  patchRequests : list CreateDraftPatchRequestFromChange.t;
  failed : list JsError;
  user : option GitUser.t;
}.
End Collected.

(** The body of [for (const r of results)]. *)
Definition collectResult (acc : Collected.t)
    (r : settled CreateDraftPatchRequestFromChange.t) : Collected.t :=
  match r with
  | Fulfilled value =>
      if truthy (CreateDraftPatchRequestFromChange.contents value)
      then {| Collected.patchRequests := Collected.patchRequests acc ++ [value];
              Collected.failed := Collected.failed acc;
              Collected.user :=
                match Collected.user acc with
                | None => CreateDraftPatchRequestFromChange.user value
                | Some user => Some user
                end |}
      else acc
  | Rejected reason =>
      {| Collected.patchRequests := Collected.patchRequests acc;
         Collected.failed := Collected.failed acc ++ [reason];
         Collected.user := Collected.user acc |}
  end.

Definition collectResults (results : list (settled CreateDraftPatchRequestFromChange.t))
  : Collected.t :=
  fold_left collectResult results
    {| Collected.patchRequests := []; Collected.failed := []; Collected.user := None |}.

(** The body of [for (const patch of createChangeset.patches)]; the loop
    state is the counter [i] and the [patches] pushed so far.  [contents] of
    a patch request is a string, so the [contents == null] guard of the
    source cannot fire on an entry that exists; an index past the end of
    [patchRequests] makes the destructuring throw. *)
Definition uploadPatch (this : DraftService.t)
    (patchRequests : list CreateDraftPatchRequestFromChange.t)
    (state : nat * list DraftPatch.t) (patch : DraftPatchCreateResponse.t)
  : Async (nat * list DraftPatch.t) :=
  let '(i, patches) := state in
  let link := DraftPatchCreateResponse.secureUploadData patch in
  match patchRequests !! i with
  | None => throw (TypeError "Cannot destructure property 'contents' of undefined")
  | Some request =>
      let contents := CreateDraftPatchRequestFromChange.contents request in
      let repository := CreateDraftPatchRequestFromChange.repository request in
      diffFiles ← await (Git_getDiffFiles (Repository.path repository) (Some contents))
                    (Git.getDiffFiles (Container.git (DraftService.container this))
                       (Repository.path repository) (Some contents));
      let files := toFileChanges diffFiles (DraftPatchCreateResponse.gitRepositoryId patch) in
      let upload := {| RawRequest.url := SecureLink.url link;
                       RawRequest.method := SecureLink.method link;
                       RawRequest.headers :=
                         SecureLink.headers link ∪ {[ "Content-Type" := "text/plain" ]};
                       RawRequest.body := Some contents |} in
      _ ← await (Fetch upload) (ServerConnection.fetch (DraftService.connection this) upload);
      let newPatch :=
        formatPatch (withoutDownloadData patch)
          (Some {| FormatPatchOptions.commit := None;
                   FormatPatchOptions.contents := Some contents;
                   FormatPatchOptions.files := Some files;
                   FormatPatchOptions.repository := Some (IsRepository repository) |}) in
      mret (S i, patches ++ [newPatch])
  end.

(** The block [if (type === 'suggested_pr_change') { ... }] of [createDraft]:
    it yields [providerAuthHeader] and [prEntityIdBody]. *)
Definition providerLinkage (this : DraftService.t) (type : string)
    (options : option CreateDraftOptions.t)
    (patchRequests : list CreateDraftPatchRequestFromChange.t)
  : Async (option headers_t * option RequestBody) :=
  if String.eqb type "suggested_pr_change" then
    match opt options CreateDraftOptions.prEntityId with
    | None => throw (Error "No pull request info provided")
    | Some prEntityId =>
        first ← defined "repository" (patchRequests !! 0);
        let repo := CreateDraftPatchRequestFromChange.repository first in
        providerAuth ← getProviderAuthFromRepository this repo;
        match providerAuth with
        | None => throw (Error "No provider integration found")
        | Some providerAuth =>
            mret (Some (providerAuthHeaders (DraftService.imports this) providerAuth),
                  Some (Body_prEntityId prEntityId))
        end
    end
  else mret (None, None).

(** [createDraft] from line 100 on: the provider linkage and the remote
    protocol, for the [patchRequests] and the [user] the loop has left. *)
Definition createDraftFromPatchRequests (this : DraftService.t) (type title : string)
    (options : option CreateDraftOptions.t)
    (patchRequests : list CreateDraftPatchRequestFromChange.t) (user : option GitUser.t)
  : Async Draft.t :=
  let connection := DraftService.connection this in
  '(providerAuthHeader, prEntityIdBody) ← providerLinkage this type options patchRequests;
  (* POST v1/drafts *)
  let request := {| Request.path := "v1/drafts";
                    Request.method := "POST";
                    Request.body :=
                      Some (Body_createDraft type title
                              (opt options CreateDraftOptions.description)
                              (default "public" (opt options CreateDraftOptions.visibility)));
                    Request.headers := None;
                    Request.query := None |} in
  createDraftRsp ← await (FetchGkDevApi request)
                     (ServerConnection.fetchGkDevApi connection AsCreateDraftResponse request);
  _ ← checkOk "Unable to create draft" createDraftRsp;
  data ← readData createDraftRsp;
  createDraft ← defined "id" data;
  let draftId := CreateDraftResponse.id createDraft in
  (* POST /v1/drafts/:draftId/changesets *)
  let request := {| Request.path := "v1/drafts/" +:+ draftId +:+ "/changesets";
                    Request.method := "POST";
                    Request.body :=
                      Some (Body_createChangeset
                              (user ≫= GitUser.name) (user ≫= GitUser.email)
                              (map CreateDraftPatchRequestFromChange.patch patchRequests));
                    Request.headers := providerAuthHeader;
                    Request.query := None |} in
  createChangesetRsp ← await (FetchGkDevApi request)
                         (ServerConnection.fetchGkDevApi connection
                            AsDraftChangesetCreateResponse request);
  _ ← checkOk ("Unable to create changeset for draft '" +:+ draftId +:+ "'") createChangesetRsp;
  data ← readData createChangesetRsp;
  createChangeset ← defined "patches" data;
  '(_, patches) ← forOf (uploadPatch this patchRequests)
                    (DraftChangesetCreateResponse.patches createChangeset) (0, []);
  (* POST /v1/drafts/:draftId/publish *)
  let request := {| Request.path := "v1/drafts/" +:+ draftId +:+ "/publish";
                    Request.method := "POST";
                    Request.body := prEntityIdBody;
                    Request.headers := providerAuthHeader;
                    Request.query := None |} in
  publishRsp ← await (FetchGkDevApi request)
                 (ServerConnection.fetchGkDevApi connection AsNothing request);
  _ ← checkOk ("Failed to publish draft '" +:+ draftId +:+ "'") publishRsp;
  let request := {| Request.path := "v1/drafts/" +:+ draftId;
                    Request.method := "GET";
                    Request.body := None;
                    Request.headers := providerAuthHeader;
                    Request.query := None |} in
  draftRsp ← await (FetchGkDevApi request)
               (ServerConnection.fetchGkDevApi connection AsDraftResponse request);
  _ ← checkOk ("Unable to open draft '" +:+ draftId +:+ "'") draftRsp;
  data ← readData draftRsp;
  subscription ← await Subscription_getSubscription
                   (Container.subscription_getSubscription (DraftService.container this));
  draft ← defined "createdBy" data;
  let newDraft :=
    formatDraft draft
      (Some {| FormatDraftOptions.account := Subscription.account subscription;
               FormatDraftOptions.fallbackAuthorName := None;
               FormatDraftOptions.fromPrEntityId := None |}) in
  mret (Draft_setChangesets newDraft
          [DraftChangeset_setPatches (formatChangeset (withoutPatches createChangeset)) patches]).

Definition createDraft (this : DraftService.t) (type title : string)
    (changes : list CreateDraftChange.t) (options : option CreateDraftOptions.t)
  : Async Draft.t :=
  results ← allSettled (map (getCreateDraftPatchRequestFromChange this) changes);
  if bool_decide (length results = 0) then throw (Error "No changes found") else
  let collected := collectResults results in
  let patchRequests := Collected.patchRequests collected in
  let failed := Collected.failed collected in
  let user := Collected.user collected in
  if negb (bool_decide (length failed = 0))
  then throw (AggregateError failed "Unable to create draft") else
  createDraftFromPatchRequests this type title options patchRequests user.

(** ** Repository identity *)

(** The [name] of [getRepositoryIdentity]. *)
Definition resolveName (imports : Imports.t) (data : RepositoryIdentityResponse.t) : string :=
  let remote := RepositoryIdentityResponse.remote data in
  match RepositoryIdentityResponse.name data with
  | Some name => name
  | None =>
      match RepositoryIdentityResponse.provider data ≫= ProviderDescriptor.repoName with
      | Some repoName => repoName
      | None =>
          match remote ≫= RemoteDescriptor.url, remote ≫= RemoteDescriptor.domain,
                remote ≫= RemoteDescriptor.path with
          | Some url, Some domain, Some path =>
              let provider := Imports.getRemoteProviderMatcher imports url domain path in
              default path (provider ≫= RemoteProvider.repoName)
          | _, _, _ =>
              match remote ≫= RemoteDescriptor.path with
              | Some path => path
              | None =>
                  "Unknown " +:+
                  match RepositoryIdentityResponse.initialCommitSha data with
                  | Some sha =>
                      if truthy sha
                      then " (" +:+ Imports.shortenRevision imports sha +:+ ")"
                      else ""
                  | None => ""
                  end
              end
          end
      end
  end.

Definition getRepositoryIdentity (this : DraftService.t) (draftId repoId : string)
  : Async RepositoryIdentity.t :=
  let request := {| Request.path := "/v1/drafts/" +:+ draftId +:+ "/git-repositories/" +:+ repoId;
                    Request.method := "GET";
                    Request.body := None;
                    Request.headers := None;
                    Request.query := None |} in
  rsp ← await (FetchGkDevApi request)
          (ServerConnection.fetchGkDevApi (DraftService.connection this)
             AsRepositoryIdentityResponse request);
  data ← readData rsp;
  data ← defined "name" data;
  let name := resolveName (DraftService.imports this) data in
  mret {| RepositoryIdentity.id := RepositoryIdentityResponse.id data;
          RepositoryIdentity.createdAt := new_Date (RepositoryIdentityResponse.createdAt data);
          RepositoryIdentity.updatedAt := new_Date (RepositoryIdentityResponse.updatedAt data);
          RepositoryIdentity.name := name;
          RepositoryIdentity.initialCommitSha := RepositoryIdentityResponse.initialCommitSha data;
          RepositoryIdentity.remote := RepositoryIdentityResponse.remote data;
          RepositoryIdentity.provider := RepositoryIdentityResponse.provider data |}.

Definition getRepositoryOrIdentity (this : DraftService.t) (draftId repoId : string)
    (options : option GetRepositoryOptions.t) : Async RepositoryOrIdentity :=
  identity ← getRepositoryIdentity this draftId repoId;
  repository ← await (RepositoryIdentity_getRepository
                        (RepositoryIdentity_descriptor identity) options)
                 (Container.repositoryIdentity_getRepository (DraftService.container this)
                    (RepositoryIdentity_descriptor identity) options);
  mret (match repository with
        | Some repository => IsRepository repository
        | None => IsIdentity identity
        end).

(** ** Reading patches and changesets *)

Definition getChangesets (this : DraftService.t) (id : string)
  : Async (list DraftChangeset.t) :=
  let request := {| Request.path := "/v1/drafts/" +:+ id +:+ "/changesets";
                    Request.method := "GET";
                    Request.body := None;
                    Request.headers := None;
                    Request.query := None |} in
  rsp ← await (FetchGkDevApi request)
          (ServerConnection.fetchGkDevApi (DraftService.connection this)
             AsDraftChangesetResponses request);
  _ ← checkOk ("Unable to open changesets for draft '" +:+ id +:+ "'") rsp;
  data ← readData rsp;
  changeset ← defined "Symbol(Symbol.iterator)" data;
  forOf (λ changesets c, mret (changesets ++ [formatChangeset c])) changeset [].

Definition getPatchCore (this : DraftService.t) (id : string) : Async DraftPatch.t :=
  let request := {| Request.path := "/v1/patches/" +:+ id;
                    Request.method := "GET";
                    Request.body := None;
                    Request.headers := None;
                    Request.query := None |} in
  rsp ← await (FetchGkDevApi request)
          (ServerConnection.fetchGkDevApi (DraftService.connection this)
             AsDraftPatchResponse request);
  _ ← checkOk ("Unable to open patch '" +:+ id +:+ "'") rsp;
  data ← readData rsp;
  data ← defined "id" data;
  mret (formatPatch data None).

Definition getPatchContentsCore (this : DraftService.t) (secureLink : option SecureLink.t)
  : Async (option string) :=
  link ← defined "url" secureLink;
  let download := {| RawRequest.url := SecureLink.url link;
                     RawRequest.method := SecureLink.method link;
                     RawRequest.headers := SecureLink.headers link ∪ {[ "Accept" := "text/plain" ]};
                     RawRequest.body := None |} in
  contentsRsp ← await (Fetch download)
                  (ServerConnection.fetch (DraftService.connection this) download);
  text ← await Response_text (Response.text contentsRsp);
  mret (Some text).

Definition getPatchDetails (this : DraftService.t) (idOrPatch : string + DraftPatch.t)
  : Async DraftPatchDetails.t :=
  patch ← match idOrPatch with
          | inl id => getPatchCore this id
          | inr patch => mret patch
          end;
  contentsResult ← settle (getPatchContentsCore this (DraftPatch.secureLink patch));
  repositoryResult ←
    settle (getRepositoryOrIdentity this (DraftPatch.draftId patch)
              (DraftPatch.gkRepositoryId patch)
              (Some {| GetRepositoryOptions.openIfNeeded := Some true;
                       GetRepositoryOptions.keepOpen := None;
                       GetRepositoryOptions.prompt := None;
                       GetRepositoryOptions.skipRefValidation := Some true |}));
  let contents := getSettledValue contentsResult in
  let repositoryOrIdentity := getSettledValue1 repositoryResult in
  let repoPath :=
    match repositoryOrIdentity with
    | Some (IsRepository repository) => Repository.path repository
    | _ => ""
    end in
  diffFiles ← await (Git_getDiffFiles repoPath contents)
                (Git.getDiffFiles (Container.git (DraftService.container this))
                   repoPath contents);
  let files := toFileChanges diffFiles (DraftPatch.gkRepositoryId patch) in
  mret {| DraftPatchDetails.id := DraftPatch.id patch;
          DraftPatchDetails.contents := contents;
          DraftPatchDetails.files := files;
          DraftPatchDetails.repository := repositoryOrIdentity |}.

(** [patch.contents = ...; patch.files = ...; patch.repository = ...]. *)
Definition DraftPatch_hydrate (patch : DraftPatch.t) (details : DraftPatchDetails.t)
  : DraftPatch.t :=
  {| DraftPatch.type := DraftPatch.type patch;
     DraftPatch.id := DraftPatch.id patch;
     DraftPatch.createdAt := DraftPatch.createdAt patch;
     DraftPatch.updatedAt := DraftPatch.updatedAt patch;
     DraftPatch.draftId := DraftPatch.draftId patch;
     DraftPatch.changesetId := DraftPatch.changesetId patch;
     DraftPatch.userId := DraftPatch.userId patch;
     DraftPatch.baseBranchName := DraftPatch.baseBranchName patch;
     DraftPatch.baseRef := DraftPatch.baseRef patch;
     DraftPatch.gkRepositoryId := DraftPatch.gkRepositoryId patch;
     DraftPatch.secureLink := DraftPatch.secureLink patch;
     DraftPatch.commit := DraftPatch.commit patch;
     DraftPatch.contents := DraftPatchDetails.contents details;
     DraftPatch.files := Some (DraftPatchDetails.files details);
     DraftPatch.repository := DraftPatchDetails.repository details |}.

Definition getPatch (this : DraftService.t) (id : string) : Async DraftPatch.t :=
  patch ← getPatchCore this id;
  details ← getPatchDetails this (inr patch);
  mret (DraftPatch_hydrate patch details).

(** ** Reading drafts *)

Module GetDraftOptions.
Record t : Type := mk { providerAuth : option ProviderAuth.t }.
End GetDraftOptions.

Definition getDraft (this : DraftService.t) (id : string) (options : option GetDraftOptions.t)
  : Async Draft.t :=
  let headers := providerAuthHeaders (DraftService.imports this)
                   <$> opt options GetDraftOptions.providerAuth in
  let request := {| Request.path := "v1/drafts/" +:+ id;
                    Request.method := "GET";
                    Request.body := None;
                    Request.headers := headers;
                    Request.query := None |} in
  rspResult ← settle (await (FetchGkDevApi request)
                        (ServerConnection.fetchGkDevApi (DraftService.connection this)
                           AsDraftResponse request));
  changesetsResult ← settle (getChangesets this id);
  match rspResult with
  | Rejected reason =>
      throw (Error ("Unable to open draft '" +:+ id +:+ "': " +:+ JsError_toString reason))
  | Fulfilled rsp =>
      match changesetsResult with
      | Rejected reason =>
          throw (Error ("Unable to open changesets for draft '" +:+ id +:+ "': "
                        +:+ JsError_toString reason))
      | Fulfilled changesets =>
          _ ← checkOk ("Unable to open draft '" +:+ id +:+ "'") rsp;
          data ← readData rsp;
          subscription ← await Subscription_getSubscription
                           (Container.subscription_getSubscription
                              (DraftService.container this));
          draft ← defined "createdBy" data;
          let newDraft :=
            formatDraft draft
              (Some {| FormatDraftOptions.account := Subscription.account subscription;
                       FormatDraftOptions.fallbackAuthorName := None;
                       FormatDraftOptions.fromPrEntityId := None |}) in
          mret (Draft_setChangesets newDraft changesets)
      end
  end.

Module GetDraftsOptions.
Record t : Type := mk {
  prEntityId : option string;
  providerAuth : option ProviderAuth.t;
  isArchived : option bool;
}.
End GetDraftsOptions.

(** [queryStrings.join('&')]. *)
Fixpoint join (sep : string) (parts : list string) : string :=
  match parts with
  | [] => ""
  | [part] => part
  | part :: rest => part +:+ sep +:+ join sep rest
  end.

Definition getDraftsCore (this : DraftService.t) (options : option GetDraftsOptions.t)
  : Async (list Draft.t) :=
  let imports := DraftService.imports this in
  '(queryStrings, fromPrEntityId) ←
    match opt options GetDraftsOptions.prEntityId with
    | Some prEntityId =>
        match opt options GetDraftsOptions.providerAuth with
        | None => throw (Error "No provider integration found")
        | Some _ =>
            mret (["prEntityId=" +:+ Imports.encodeURIComponent imports prEntityId], true)
        end
    | None => mret ([], false)
    end;
  let queryStrings :=
    if flag options GetDraftsOptions.isArchived
    then queryStrings ++ ["archived=true"] else queryStrings in
  let headers := providerAuthHeaders imports <$> opt options GetDraftsOptions.providerAuth in
  let request := {| Request.path := "/v1/drafts";
                    Request.method := "GET";
                    Request.body := None;
                    Request.headers := headers;
                    Request.query :=
                      if bool_decide (length queryStrings = 0) then None
                      else Some (join "&" queryStrings) |} in
  rsp ← await (FetchGkDevApi request)
          (ServerConnection.fetchGkDevApi (DraftService.connection this)
             AsDraftResponses request);
  _ ← checkOk "Unable to open drafts" rsp;
  data ← readData rsp;
  subscription ← await Subscription_getSubscription
                   (Container.subscription_getSubscription (DraftService.container this));
  drafts ← defined "map" data;
  mret (map (λ d, formatDraft d
                    (Some {| FormatDraftOptions.account := Subscription.account subscription;
                             FormatDraftOptions.fallbackAuthorName := Some "Unknown";
                             FormatDraftOptions.fromPrEntityId := Some fromPrEntityId |}))
            drafts).

Definition getDrafts (this : DraftService.t) (isArchived : option bool)
  : Async (list Draft.t) :=
  getDraftsCore this
    (if default false isArchived
     then Some {| GetDraftsOptions.prEntityId := None;
                  GetDraftsOptions.providerAuth := None;
                  GetDraftsOptions.isArchived := isArchived |}
     else None).

(** ** Mutations *)

Definition deleteDraft (this : DraftService.t) (id : string) : Async unit :=
  let request := {| Request.path := "v1/drafts/" +:+ id;
                    Request.method := "DELETE";
                    Request.body := None;
                    Request.headers := None;
                    Request.query := None |} in
  _ ← await (FetchGkDevApi request)
        (ServerConnection.fetchGkDevApi (DraftService.connection this) AsNothing request);
  mret ().

(** [changeset.patches?.find(patch => patch.repository ?? patch.gkRepositoryId)]. *)
Definition hasRepositoryReference (patch : DraftPatch.t) : bool :=
  match DraftPatch.repository patch with
  | Some _ => true
  | None => truthy (DraftPatch.gkRepositoryId patch)
  end.

Definition getProviderAuthForDraft (this : DraftService.t) (draft : Draft.t)
  : Async (option ProviderAuth.t) :=
  match Draft.changesets draft with
  | None | Some [] => mret None
  | Some changesets =>
      let patch :=
        fold_left (λ patch changeset,
                     match find hasRepositoryReference (DraftChangeset.patches changeset) with
                     | Some changesetPatch => Some changesetPatch
                     | None => patch
                     end)
                  changesets None in
      match patch with
      | None => mret None
      | Some patch =>
          repo ← match DraftPatch.repository patch with
                 | Some (IsRepository repository) => mret (Some repository)
                 | Some (IsIdentity unresolved) =>
                     await (RepositoryIdentity_getRepository
                              (RepositoryIdentity_descriptor unresolved) None)
                       (Container.repositoryIdentity_getRepository
                          (DraftService.container this)
                          (RepositoryIdentity_descriptor unresolved) None)
                 | None => mret None
                 end;
          match repo with
          | Some repo => getProviderAuthFromRepository this repo
          | None =>
              repositoryOrIdentity ←
                getRepositoryOrIdentity this (Draft.id draft) (DraftPatch.gkRepositoryId patch)
                  None;
              match repositoryOrIdentity with
              | IsRepository repo => getProviderAuthFromRepository this repo
              | IsIdentity _ => mret None
              end
          end
      end
  end.

Module ArchiveDraftOptions.
Record t : Type := mk {
  providerAuth : option ProviderAuth.t;
  archiveReason : option string;
}.
End ArchiveDraftOptions.

Definition archiveDraft (this : DraftService.t) (draft : Draft.t)
    (options : option ArchiveDraftOptions.t) : Async unit :=
  let providerAuth := opt options ArchiveDraftOptions.providerAuth in
  providerAuth ←
    (if String.eqb (Draft.visibility draft) "provider_access"
        && bool_decide (providerAuth = None)
     then
       providerAuth ← getProviderAuthForDraft this draft;
       match providerAuth with
       | None => throw (Error "No provider integration found")
       | Some providerAuth => mret (Some providerAuth)
       end
     else mret providerAuth);
  let request := {| Request.path := "v1/drafts/" +:+ Draft.id draft +:+ "/archive";
                    Request.method := "POST";
                    Request.body :=
                      Body_archiveReason <$> opt options ArchiveDraftOptions.archiveReason;
                    Request.headers :=
                      providerAuthHeaders (DraftService.imports this) <$> providerAuth;
                    Request.query := None |} in
  rsp ← await (FetchGkDevApi request)
          (ServerConnection.fetchGkDevApi (DraftService.connection this) AsNothing request);
  checkOk ("Unable to archive draft '" +:+ Draft.id draft +:+ "'") rsp.

Definition updateDraftVisibility (this : DraftService.t) (id visibility : string)
  : Async (option Draft.t) :=
  let request := {| Request.path := "/v1/drafts/" +:+ id;
                    Request.method := "PATCH";
                    Request.body := Some (Body_visibility visibility);
                    Request.headers := None;
                    Request.query := None |} in
  rsp ← await (FetchGkDevApi request)
          (ServerConnection.fetchGkDevApi (DraftService.connection this) AsDraft request);
  _ ← checkOk ("Unable to update draft '" +:+ id +:+ "'") rsp;
  readData rsp.

Definition getDraftUsers (this : DraftService.t) (id : string)
  : Async (option (list DraftUser.t)) :=
  let request := {| Request.path := "/v1/drafts/" +:+ id +:+ "/users";
                    Request.method := "GET";
                    Request.body := None;
                    Request.headers := None;
                    Request.query := None |} in
  rsp ← await (FetchGkDevApi request)
          (ServerConnection.fetchGkDevApi (DraftService.connection this) AsDraftUsers request);
  _ ← checkOk ("Unable to get users for draft '" +:+ id +:+ "'") rsp;
  readData rsp.

Definition addDraftUsers (this : DraftService.t) (id : string)
    (pendingUsers : list DraftPendingUser.t) : Async (option (list DraftUser.t)) :=
  if bool_decide (length pendingUsers = 0) then throw (Error "No changes found") else
  let request := {| Request.path := "/v1/drafts/" +:+ id +:+ "/users";
                    Request.method := "POST";
                    Request.body := Some (Body_users id pendingUsers);
                    Request.headers := None;
                    Request.query := None |} in
  rsp ← await (FetchGkDevApi request)
          (ServerConnection.fetchGkDevApi (DraftService.connection this) AsDraftUsers request);
  _ ← checkOk ("Unable to add users for draft '" +:+ id +:+ "'") rsp;
  readData rsp.

Definition removeDraftUser (this : DraftService.t) (id userId : string) : Async bool :=
  let request := {| Request.path := "/v1/drafts/" +:+ id +:+ "/users/" +:+ userId;
                    Request.method := "DELETE";
                    Request.body := None;
                    Request.headers := None;
                    Request.query := None |} in
  rsp ← await (FetchGkDevApi request)
          (ServerConnection.fetchGkDevApi (DraftService.connection this) AsNothing request);
  _ ← checkOk ("Unable to update user " +:+ userId +:+ " for draft '" +:+ id +:+ "'") rsp;
  mret true.

(** ** Properties stated over the operations *)

(** The reasons of the rejected results, in order. *)
Definition rejections {A} (results : list (settled A)) : list JsError :=
  omap (λ r, match r with Rejected reason => Some reason | Fulfilled _ => None end) results.

(** The values of the fulfilled results, in order. *)
Definition fulfilments {A} (results : list (settled A)) : list A :=
  omap getSettledValue1 results.

Definition nonEmpty (r : CreateDraftPatchRequestFromChange.t) : bool :=
  truthy (CreateDraftPatchRequestFromChange.contents r).

(** A change whose patch request resolves, to a diff that is not empty. *)
Definition resolvesNonEmpty (this : DraftService.t) (change : CreateDraftChange.t) : bool :=
  match outcome (getCreateDraftPatchRequestFromChange this change) with
  | Fulfilled r => nonEmpty r
  | Rejected _ => false
  end.

(** The patch [p] of a created draft carries the diff of the change [c]. *)
Definition patchOfChange (this : DraftService.t) (p : DraftPatch.t) (c : CreateDraftChange.t)
  : Prop :=
  ∃ r, outcome (getCreateDraftPatchRequestFromChange this c) = Fulfilled r
       ∧ DraftPatch.contents p = Some (CreateDraftPatchRequestFromChange.contents r)
       ∧ CreateDraftPatchRequestFromChange.contents r ≠ ""
       ∧ DraftPatch.repository p = Some (IsRepository (CreateDraftChange.repository c)).

(** None of the calls [w] reaches the remote service. *)
Definition localCalls (w : list Event) : Prop := Forall (λ e, isRemoteCall e = false) w.

(** What the upload loop of [createDraft] makes of a patch request. *)
Definition hydratedFrom (p : DraftPatch.t) (r : CreateDraftPatchRequestFromChange.t) : Prop :=
  DraftPatch.contents p = Some (CreateDraftPatchRequestFromChange.contents r)
  ∧ DraftPatch.repository p
    = Some (IsRepository (CreateDraftPatchRequestFromChange.repository r))
  ∧ is_Some (DraftPatch.files p).

(** The hydration fields of a patch are both present or both absent. *)
Definition hydrationConsistent (p : DraftPatch.t) : Prop :=
  is_Some (DraftPatch.contents p) ↔ is_Some (DraftPatch.files p).

(** The server answers every request read under the cast [s] with a 2xx
    response whose body carries [data]. *)
Definition answersOk (connection : ServerConnection.t) (s : Shape) : Prop :=
  ∀ request, ∃ rsp payload data,
    ServerConnection.fetchGkDevApi connection s request = Fulfilled rsp
    ∧ Response.ok rsp = true
    ∧ Response.json rsp = Fulfilled payload
    ∧ Payload.data payload = Some data.

(** The server answers a changeset creation with a 2xx response that lists
    one patch, with its upload descriptor, per patch of the request. *)
Definition answersChangeset (connection : ServerConnection.t) : Prop :=
  ∀ request, ∃ rsp payload data,
    ServerConnection.fetchGkDevApi connection AsDraftChangesetCreateResponse request
      = Fulfilled rsp
    ∧ Response.ok rsp = true
    ∧ Response.json rsp = Fulfilled payload
    ∧ Payload.data payload = Some data
    ∧ ∀ name email patches,
        Request.body request = Some (Body_createChangeset name email patches) →
        length (DraftChangesetCreateResponse.patches data) = length patches.

(** The remote side and the local collaborators that [createDraft] needs
    after the patch requests are built all answer. *)
Module Healthy.
Record t (this : DraftService.t) : Prop := mk {
  createDraftOk : answersOk (DraftService.connection this) AsCreateDraftResponse;
  createChangesetOk : answersChangeset (DraftService.connection this);
  publishOk : ∀ request, ∃ rsp,
    ServerConnection.fetchGkDevApi (DraftService.connection this) AsNothing request
      = Fulfilled rsp ∧ Response.ok rsp = true;
  getDraftOk : answersOk (DraftService.connection this) AsDraftResponse;
  uploadSettles : ∀ request, ∃ rsp,
    ServerConnection.fetch (DraftService.connection this) request = Fulfilled rsp;
  diffFilesSettle : ∀ path contents, ∃ files,
    Git.getDiffFiles (Container.git (DraftService.container this)) path contents
      = Fulfilled files;
  subscriptionSettles : ∃ subscription,
    Container.subscription_getSubscription (DraftService.container this)
      = Fulfilled subscription;
}.
End Healthy.

(** ** Sample collaborators, for concrete runs *)

Module Sample.

Definition imports : Imports.t :=
  {| Imports.isSha := λ ref, bool_decide (String.length ref = 40);
     Imports.isUncommitted := λ ref, String.eqb ref "0000000000000000000000000000000000000000";
     Imports.shortenRevision := λ ref, String.substring 0 7 ref;
     Imports.getRemoteProviderMatcher := λ _ _ _, None;
     Imports.encodeProviderAuth := λ auth,
       ProviderAuth.provider auth +:+ ":" +:+ ProviderAuth.token auth;
     Imports.encodeURIComponent := λ s, s;
     Imports.Uri_parse := λ s,
       {| Uri.scheme := "https"; Uri.authority := "github.com"; Uri.path := s;
          Uri.query := ""; Uri.fragment := "" |};
     Imports.Schemes_Virtual := "vscode-vfs" |}.

(** A git provider in which the revision [broken] cannot be diffed and a
    range from a revision to itself has an empty diff. *)
Definition git : Git.t :=
  {| Git.getBranch := λ _, Fulfilled (Some {| GitBranch.name := "main" |});
     Git.getCommitBranches := λ _ _, Fulfilled ["main"];
     Git.getDiff := λ _ to from,
       if String.eqb from "broken" then Rejected (Error "bad revision")
       else if String.eqb from to then Fulfilled (Some {| GitDiff.contents := "" |})
       else Fulfilled (Some {| GitDiff.contents := "diff " +:+ from +:+ ".." +:+ to |});
     Git.getFirstCommitSha := λ _, Fulfilled (Some "4b825dc642cb6eb9a060e54bf8d69288fbee4904");
     Git.getBestRemoteWithProvider := λ _, Fulfilled None;
     Git.getCurrentUser := λ _,
       Fulfilled (Some {| GitUser.name := Some "Ada"; GitUser.email := Some "ada@example.com" |});
     Git.getCommit := λ _ ref, Fulfilled (Some {| GitCommit.sha := ref |});
     Git.getDiffFiles := λ _ contents,
       Fulfilled (match contents with
                  | Some _ => Some {| GitDiffFiles.files := [] |}
                  | None => None
                  end);
     Git.getOrOpenRepository := λ _, Fulfilled None |}.

Definition container : Container.t :=
  {| Container.git := git;
     Container.repositoryIdentity_getRepository := λ _ _, Fulfilled None;
     Container.subscription_getSubscription :=
       Fulfilled {| Subscription.account :=
                      Some {| SubscriptionAccount.id := "user-1";
                              SubscriptionAccount.name := "Ada";
                              SubscriptionAccount.email := Some "ada@example.com" |} |};
     Container.integrationAuthentication_getSession := λ _ _, Fulfilled None;
     Container.repository_getBestRemoteWithIntegration := λ _, Fulfilled None;
     Container.remote_getIntegration := λ _, Fulfilled None |}.

Definition link : SecureLink.t :=
  {| SecureLink.url := "https://storage.example/patch";
     SecureLink.method := "PUT";
     SecureLink.headers := ∅ |}.

Definition downloadLink : SecureLink.t :=
  {| SecureLink.url := "https://storage.example/patch";
     SecureLink.method := "GET";
     SecureLink.headers := ∅ |}.

Definition patchCreated (request : CreateDraftPatchRequest.t) : DraftPatchCreateResponse.t :=
  {| DraftPatchCreateResponse.id := "patch-1";
     DraftPatchCreateResponse.createdAt := "2024-01-01T00:00:00Z";
     DraftPatchCreateResponse.updatedAt := None;
     DraftPatchCreateResponse.draftId := "draft-1";
     DraftPatchCreateResponse.changesetId := "changeset-1";
     DraftPatchCreateResponse.userId := "user-1";
     DraftPatchCreateResponse.baseBranchName := CreateDraftPatchRequest.baseBranchName request;
     DraftPatchCreateResponse.baseCommitSha := CreateDraftPatchRequest.baseCommitSha request;
     DraftPatchCreateResponse.gitRepositoryId := "repo-1";
     DraftPatchCreateResponse.secureUploadData := link |}.

Definition requestedPatches (request : Request.t) : list CreateDraftPatchRequest.t :=
  match Request.body request with
  | Some (Body_createChangeset _ _ patches) => patches
  | _ => []
  end.

Definition changesetCreated (request : Request.t) : DraftChangesetCreateResponse.t :=
  {| DraftChangesetCreateResponse.id := "changeset-1";
     DraftChangesetCreateResponse.createdAt := "2024-01-01T00:00:00Z";
     DraftChangesetCreateResponse.updatedAt := None;
     DraftChangesetCreateResponse.draftId := "draft-1";
     DraftChangesetCreateResponse.parentChangesetId := None;
     DraftChangesetCreateResponse.userId := "user-1";
     DraftChangesetCreateResponse.gitUserName := Some "Ada";
     DraftChangesetCreateResponse.gitUserEmail := Some "ada@example.com";
     DraftChangesetCreateResponse.deepLink := None;
     DraftChangesetCreateResponse.patches := map patchCreated (requestedPatches request) |}.

(** A wire draft without [updatedAt], [archivedAt] and with an empty role. *)
Definition draftResponse : DraftResponse.t :=
  {| DraftResponse.type := "patch";
     DraftResponse.id := "draft-1";
     DraftResponse.createdAt := "2024-01-01T00:00:00Z";
     DraftResponse.updatedAt := None;
     DraftResponse.createdBy := "user-1";
     DraftResponse.organizationId := None;
     DraftResponse.role := "";
     DraftResponse.isPublished := true;
     DraftResponse.title := "A draft";
     DraftResponse.description := None;
     DraftResponse.deepLink := "https://gitkraken.dev/drafts/draft-1";
     DraftResponse.visibility := "public";
     DraftResponse.isArchived := false;
     DraftResponse.archivedBy := None;
     DraftResponse.archivedReason := None;
     DraftResponse.archivedAt := None;
     DraftResponse.latestChangesetId := "changeset-1" |}.

Definition ownerDraftResponse : DraftResponse.t :=
  {| DraftResponse.type := "patch";
     DraftResponse.id := "draft-2";
     DraftResponse.createdAt := "2024-01-01T00:00:00Z";
     DraftResponse.updatedAt := Some "2024-02-01T00:00:00Z";
     DraftResponse.createdBy := "user-2";
     DraftResponse.organizationId := None;
     DraftResponse.role := "owner";
     DraftResponse.isPublished := true;
     DraftResponse.title := "Another draft";
     DraftResponse.description := None;
     DraftResponse.deepLink := "https://gitkraken.dev/drafts/draft-2";
     DraftResponse.visibility := "public";
     DraftResponse.isArchived := false;
     DraftResponse.archivedBy := None;
     DraftResponse.archivedReason := None;
     DraftResponse.archivedAt := None;
     DraftResponse.latestChangesetId := "changeset-2" |}.

Definition patchResponse : DraftPatchResponse.t :=
  {| DraftPatchResponse.id := "patch-1";
     DraftPatchResponse.createdAt := "2024-01-01T00:00:00Z";
     DraftPatchResponse.updatedAt := None;
     DraftPatchResponse.draftId := "draft-1";
     DraftPatchResponse.changesetId := "changeset-1";
     DraftPatchResponse.userId := "user-1";
     DraftPatchResponse.baseBranchName := "main";
     DraftPatchResponse.baseCommitSha := "4b825dc642cb6eb9a060e54bf8d69288fbee4904";
     DraftPatchResponse.gitRepositoryId := "repo-1";
     DraftPatchResponse.secureDownloadData := Some downloadLink |}.

(** A repository identity known by its remote url only: no name, no
    provider, no remote path, no initial commit. *)
Definition identityResponse : RepositoryIdentityResponse.t :=
  {| RepositoryIdentityResponse.id := "repo-1";
     RepositoryIdentityResponse.createdAt := "2024-01-01T00:00:00Z";
     RepositoryIdentityResponse.updatedAt := "2024-01-01T00:00:00Z";
     RepositoryIdentityResponse.name := None;
     RepositoryIdentityResponse.initialCommitSha := None;
     RepositoryIdentityResponse.remote :=
       Some {| RemoteDescriptor.url := Some "https://example.com/x.git";
               RemoteDescriptor.domain := None;
               RemoteDescriptor.path := None |};
     RepositoryIdentityResponse.provider := None |}.

Definition data (s : Shape) (request : Request.t) : option (dataOf s) :=
  match s return option (dataOf s) with
  | AsCreateDraftResponse => Some {| CreateDraftResponse.id := "draft-1" |}
  | AsDraftChangesetCreateResponse => Some (changesetCreated request)
  | AsDraftResponse => Some draftResponse
  | AsDraftResponses => Some [draftResponse]
  | AsDraftChangesetResponses => Some []
  | AsDraftPatchResponse => Some patchResponse
  | AsRepositoryIdentityResponse => Some identityResponse
  | AsDraft => None
  | AsDraftUsers => Some []
  | AsNothing => Some ()
  end.

Definition ok {A} (data : option A) (text : string) : Response.t A :=
  {| Response.ok := true;
     Response.status := 200;
     Response.statusText := "OK";
     Response.json := Fulfilled {| Payload.data := data; Payload.error := None |};
     Response.text := Fulfilled text |}.

(** A response of status 404 whose body is [{ error: { message } }]. *)
Definition notFound {A} : Response.t A :=
  {| Response.ok := false;
     Response.status := 404;
     Response.statusText := "Not Found";
     Response.json :=
       Fulfilled {| Payload.data := None;
                    Payload.error := Some (ErrorObject (Some "Draft not found")) |};
     Response.text := Fulfilled "" |}.

(** A server that answers every request with a 2xx response. *)
Definition connection : ServerConnection.t :=
  {| ServerConnection.fetchGkDevApi := λ s request, Fulfilled (ok (data s request) "");
     ServerConnection.fetch := λ _, Fulfilled (ok None "diff a..b") |}.

(** A server that answers every request with 404. *)
Definition missing : ServerConnection.t :=
  {| ServerConnection.fetchGkDevApi := λ s _, Fulfilled notFound;
     ServerConnection.fetch := λ _, Fulfilled notFound |}.

(** A server whose blob storage cannot be reached. *)
Definition offlineStorage : ServerConnection.t :=
  {| ServerConnection.fetchGkDevApi := λ s request, Fulfilled (ok (data s request) "");
     ServerConnection.fetch := λ _, Rejected (Error "fetch failed") |}.

Definition service : DraftService.t :=
  {| DraftService.imports := imports;
     DraftService.container := container;
     DraftService.connection := connection |}.

Definition serviceMissing : DraftService.t :=
  {| DraftService.imports := imports;
     DraftService.container := container;
     DraftService.connection := missing |}.

Definition serviceOfflineStorage : DraftService.t :=
  {| DraftService.imports := imports;
     DraftService.container := container;
     DraftService.connection := offlineStorage |}.

Definition repository : Repository.t :=
  {| Repository.id := "repo";
     Repository.name := "repo";
     Repository.path := "/work/repo";
     Repository.uri := "file:///work/repo" |}.

Definition change (to from : string) : CreateDraftChange.t :=
  {| CreateDraftChange.revision_to := to;
     CreateDraftChange.revision_from := from;
     CreateDraftChange.contents := None;
     CreateDraftChange.repository := repository;
     CreateDraftChange.prEntityId := None |}.

Definition issue (providerId : string) : IssueShape.t :=
  {| IssueShape.type := Type_issue;
     IssueShape.provider :=
       {| ProviderReference.id := providerId;
          ProviderReference.name := "Provider";
          ProviderReference.domain := "example.com";
          ProviderReference.icon := "icon" |};
     IssueShape.id := "1";
     IssueShape.nodeId := None;
     IssueShape.title := "An issue";
     IssueShape.url := "https://example.com/o/r/issues/1";
     IssueShape.createdDate := new_Date "2024-01-01T00:00:00Z";
     IssueShape.updatedDate := new_Date "2024-01-01T00:00:00Z";
     IssueShape.closedDate := None;
     IssueShape.closed := false;
     IssueShape.state := State_opened;
     IssueShape.commentsCount := None;
     IssueShape.thumbsUpCount := None;
     IssueShape.author :=
       {| IssueMember.id := "u"; IssueMember.name := "U";
          IssueMember.avatarUrl := None; IssueMember.url := None |};
     IssueShape.assignees := [];
     IssueShape.repository :=
       Some {| IssueRepository.owner := "o"; IssueRepository.repo := "r";
               IssueRepository.accessLevel := None;
               IssueRepository.url := Some "https://example.com/o/r" |};
     IssueShape.labels := None;
     IssueShape.body := None |}.

End Sample.

(** ** src/git/models/issue.ts: icons *)

(** [vscode.ColorThemeKind]; the icon functions only ask whether the active
    theme is [Dark]. *)
Inductive ColorThemeKind : Type :=
| Light | Dark | HighContrast | HighContrastLight.

Definition isDark (kind : ColorThemeKind) : bool :=
  match kind with Dark => true | _ => false end.

(** [new ThemeIcon(id, new ThemeColor(color))]. *)
Module ThemeIcon.
Record t : Type := mk { id : string; color : option string }.
End ThemeIcon.

(** The double-quote character of the HTML templates. *)
Definition dquote : string := String (Ascii.ascii_of_nat 34) EmptyString.

(** [<span class="codicon codicon-GLYPH" style="color:COLOR;"></span>]. *)
Definition codiconSpan (glyph color : string) : string :=
  "<span class=" +:+ dquote +:+ "codicon codicon-" +:+ glyph +:+ dquote
  +:+ " style=" +:+ dquote +:+ "color:" +:+ color +:+ ";" +:+ dquote +:+ "></span>".

(** [<span style="color:COLOR;">$(GLYPH)</span>]. *)
Definition markdownSpan (glyph color : string) : string :=
  "<span style=" +:+ dquote +:+ "color:" +:+ color +:+ ";" +:+ dquote +:+ ">$("
  +:+ glyph +:+ ")</span>".

(** An issue or pull request passed where either is expected: the
    [IssueOrPullRequest] part of an [IssueShape]. *)
Definition IssueShape_base (value : IssueShape.t) : IssueOrPullRequest.t :=
  {| IssueOrPullRequest.type := IssueShape.type value;
     IssueOrPullRequest.provider := IssueShape.provider value;
     IssueOrPullRequest.id := IssueShape.id value;
     IssueOrPullRequest.nodeId := IssueShape.nodeId value;
     IssueOrPullRequest.title := IssueShape.title value;
     IssueOrPullRequest.url := IssueShape.url value;
     IssueOrPullRequest.createdDate := IssueShape.createdDate value;
     IssueOrPullRequest.updatedDate := IssueShape.updatedDate value;
     IssueOrPullRequest.closedDate := IssueShape.closedDate value;
     IssueOrPullRequest.closed := IssueShape.closed value;
     IssueOrPullRequest.state := IssueShape.state value;
     IssueOrPullRequest.commentsCount := IssueShape.commentsCount value;
     IssueOrPullRequest.thumbsUpCount := IssueShape.thumbsUpCount value |}.

(** The [default:] branch of the [switch (issue.state)] of the three icon
    functions is not reachable for a state of type [IssueOrPullRequestState]. *)
Definition getIssueOrPullRequestHtmlIcon (kind : ColorThemeKind)
    (issue : option IssueOrPullRequest.t) : string :=
  match issue with
  | None => codiconSpan "link" (if isDark kind then "#a371f7" else "#8250df")
  | Some issue =>
      match IssueOrPullRequest.type issue with
      | Type_pullrequest =>
          match IssueOrPullRequest.state issue with
          | State_merged =>
              codiconSpan "git-merge" (if isDark kind then "#a371f7" else "#8250df")
          | State_closed =>
              codiconSpan "git-pull-request-closed"
                (if isDark kind then "#f85149" else "#cf222e")
          | State_opened =>
              codiconSpan "git-pull-request" (if isDark kind then "#3fb950" else "#1a7f37")
          end
      | Type_issue =>
          if IssueOrPullRequest.closed issue
          then codiconSpan "pass" (if isDark kind then "#a371f7" else "#8250df")
          else codiconSpan "issues" (if isDark kind then "#3fb950" else "#1a7f37")
      end
  end.

Definition getIssueOrPullRequestMarkdownIcon (kind : ColorThemeKind)
    (issue : option IssueOrPullRequest.t) : string :=
  match issue with
  | None => markdownSpan "link" (if isDark kind then "#a371f7" else "#8250df")
  | Some issue =>
      match IssueOrPullRequest.type issue with
      | Type_pullrequest =>
          match IssueOrPullRequest.state issue with
          | State_merged =>
              markdownSpan "git-merge" (if isDark kind then "#a371f7" else "#8250df")
          | State_closed =>
              markdownSpan "git-pull-request-closed"
                (if isDark kind then "#f85149" else "#cf222e")
          | State_opened =>
              markdownSpan "git-pull-request" (if isDark kind then "#3fb950" else "#1a7f37")
          end
      | Type_issue =>
          if IssueOrPullRequest.closed issue
          then markdownSpan "pass" (if isDark kind then "#a371f7" else "#8250df")
          else markdownSpan "issues" (if isDark kind then "#3fb950" else "#1a7f37")
      end
  end.

Definition getIssueOrPullRequestThemeIcon (issue : option IssueOrPullRequest.t) : ThemeIcon.t :=
  match issue with
  | None => ThemeIcon.mk "link" (Some "gitlens.closedAutolinkedIssueIconColor")
  | Some issue =>
      match IssueOrPullRequest.type issue with
      | Type_pullrequest =>
          match IssueOrPullRequest.state issue with
          | State_merged => ThemeIcon.mk "git-merge" (Some "gitlens.mergedPullRequestIconColor")
          | State_closed =>
              ThemeIcon.mk "git-pull-request-closed" (Some "gitlens.closedPullRequestIconColor")
          | State_opened =>
              ThemeIcon.mk "git-pull-request" (Some "gitlens.openPullRequestIconColor")
          end
      | Type_issue =>
          if IssueOrPullRequest.closed issue
          then ThemeIcon.mk "pass" (Some "gitlens.closedAutolinkedIssueIconColor")
          else ThemeIcon.mk "issues" (Some "gitlens.openAutolinkedIssueIconColor")
      end
  end.

(** ** src/plus/drafts/draftsService.ts: code suggestions *)

(** An entry of [providersMetadata]. *)
Module ProviderMetadata.
Record t : Type := mk { domain : string; scopes : list string }.
End ProviderMetadata.

(** What [getProviderAuthForIntegration] and [getCodeSuggestions] import
    from modules that are not part of the sources at hand: the table
    [providersMetadata], the session descriptor [{ domain, scopes }] in the
    form the session store takes it, and the encoded entity identifier of a
    pull request or focus item
    ([EntityIdentifierUtils.encode(getEntityIdentifierInput(item))], which
    can throw). *)
Module SuggestionImports.
Record t (Item : Type) : Type := mk {
  providersMetadata : string → option ProviderMetadata.t;
  sessionDescriptor : string → list string → string;
  encodeEntityIdentifier : Item → settled string;
}.
Arguments mk {Item}.
Arguments providersMetadata {Item}.
Arguments sessionDescriptor {Item}.
Arguments encodeEntityIdentifier {Item}.
End SuggestionImports.

Definition getProviderAuthForIntegration {Item} (this : DraftService.t)
    (suggestions : SuggestionImports.t Item) (integrationId : string)
  : Async (option ProviderAuth.t) :=
  match SuggestionImports.providersMetadata suggestions integrationId with
  | None => mret None
  | Some metadata =>
      let descriptor :=
        SuggestionImports.sessionDescriptor suggestions
          (ProviderMetadata.domain metadata) (ProviderMetadata.scopes metadata) in
      session ← await (IntegrationAuthentication_getSession integrationId descriptor)
                  (Container.integrationAuthentication_getSession
                     (DraftService.container this) integrationId descriptor);
      match session with
      | None => mret None
      | Some session =>
          mret (Some {| ProviderAuth.provider := integrationId;
                        ProviderAuth.token := Session.accessToken session |})
      end
  end.

Module CodeSuggestionOptions.
Record t : Type := mk { includeArchived : option bool }.
End CodeSuggestionOptions.

(** [try { return await m } catch (e) { return fallback }]. *)
Definition orElse {A} (m : Async A) (fallback : A) : Async A :=
  match m with
  | (Fulfilled a, w) => (Fulfilled a, w)
  | (Rejected _, w) => (Fulfilled fallback, w)
  end.

Definition getCodeSuggestions {Item} (this : DraftService.t)
    (suggestions : SuggestionImports.t Item) (item : Item)
    (repositoryOrIntegrationId : Repository.t + string)
    (options : option CodeSuggestionOptions.t) : Async (list Draft.t) :=
  prEntityId ← (SuggestionImports.encodeEntityIdentifier suggestions item, []);
  providerAuth ← match repositoryOrIntegrationId with
                 | inl repository => getProviderAuthFromRepository this repository
                 | inr integrationId =>
                     getProviderAuthForIntegration this suggestions integrationId
                 end;
  orElse (getDraftsCore this
            (Some {| GetDraftsOptions.prEntityId := Some prEntityId;
                     GetDraftsOptions.providerAuth := providerAuth;
                     GetDraftsOptions.isArchived :=
                       Some (default true (opt options CodeSuggestionOptions.includeArchived)) |}))
         [].

(** ** Kinds of calls *)

Definition isGitDiff (e : Event) : bool :=
  match e with Git_getDiff _ _ _ => true | _ => false end.

Definition isGitCommit (e : Event) : bool :=
  match e with Git_getCommit _ _ => true | _ => false end.

(** ** Further sample collaborators *)

Module Fixture.

Definition remote : GitRemote.t :=
  {| GitRemote.url := "https://github.com/o/r.git";
     GitRemote.domain := "github.com";
     GitRemote.path := "o/r";
     GitRemote.provider :=
       {| RemoteProvider.gkProviderId := Some "github";
          RemoteProvider.owner := Some "o";
          RemoteProvider.repoName := Some "r" |} |}.

Definition integration : Integration.t :=
  {| Integration.id := "github";
     Integration.authProvider_id := "github";
     Integration.authProviderDescriptor := "github.com" |}.

(** A git provider that knows the remote of the repository but cannot find
    its first commit. *)
Definition git : Git.t :=
  {| Git.getBranch := Git.getBranch Sample.git;
     Git.getCommitBranches := λ _ _, Rejected (Error "git failed");
     Git.getDiff := Git.getDiff Sample.git;
     Git.getFirstCommitSha := λ _, Rejected (Error "git failed");
     Git.getBestRemoteWithProvider := λ _, Fulfilled (Some remote);
     Git.getCurrentUser := λ _, Rejected (Error "git failed");
     Git.getCommit := Git.getCommit Sample.git;
     Git.getDiffFiles := Git.getDiffFiles Sample.git;
     Git.getOrOpenRepository := Git.getOrOpenRepository Sample.git |}.

(** A container with a connected integration and a registry that finds the
    sample repository. *)
Definition container : Container.t :=
  {| Container.git := git;
     Container.repositoryIdentity_getRepository := λ _ _, Fulfilled (Some Sample.repository);
     Container.subscription_getSubscription :=
       Container.subscription_getSubscription Sample.container;
     Container.integrationAuthentication_getSession := λ _ _,
       Fulfilled (Some {| Session.accessToken := "token" |});
     Container.repository_getBestRemoteWithIntegration := λ _, Fulfilled (Some remote);
     Container.remote_getIntegration := λ _, Fulfilled (Some integration) |}.

Definition service : DraftService.t :=
  {| DraftService.imports := Sample.imports;
     DraftService.container := container;
     DraftService.connection := Sample.connection |}.

(** A server that cannot be reached for the draft itself. *)
Definition noHeader : ServerConnection.t :=
  {| ServerConnection.fetchGkDevApi := λ s request,
       match s with
       | AsDraftResponse => Rejected (Error "socket hang up")
       | _ => Fulfilled (Sample.ok (Sample.data s request) "")
       end;
     ServerConnection.fetch := ServerConnection.fetch Sample.connection |}.

(** A server that answers 404 for the changesets of a draft. *)
Definition noChangesets : ServerConnection.t :=
  {| ServerConnection.fetchGkDevApi := λ s request,
       match s with
       | AsDraftChangesetResponses => Fulfilled Sample.notFound
       | _ => Fulfilled (Sample.ok (Sample.data s request) "")
       end;
     ServerConnection.fetch := ServerConnection.fetch Sample.connection |}.

Definition serviceNoHeader : DraftService.t :=
  {| DraftService.imports := Sample.imports;
     DraftService.container := Sample.container;
     DraftService.connection := noHeader |}.

Definition serviceNoChangesets : DraftService.t :=
  {| DraftService.imports := Sample.imports;
     DraftService.container := Sample.container;
     DraftService.connection := noChangesets |}.

Definition patchRequest : CreateDraftPatchRequestFromChange.t :=
  {| CreateDraftPatchRequestFromChange.patch :=
       {| CreateDraftPatchRequest.baseCommitSha := "a";
          CreateDraftPatchRequest.baseBranchName := "main";
          CreateDraftPatchRequest.gitRepoData :=
            {| RepositoryIdentityRequest.initialCommitSha :=
                 Some "4b825dc642cb6eb9a060e54bf8d69288fbee4904";
               RepositoryIdentityRequest.remote := None;
               RepositoryIdentityRequest.provider := None |};
          CreateDraftPatchRequest.prEntityId := None |};
     CreateDraftPatchRequestFromChange.contents := "diff a..b";
     CreateDraftPatchRequestFromChange.repository := Sample.repository;
     CreateDraftPatchRequestFromChange.user := None |}.

(** A server that refuses to create drafts. *)
Definition noCreate : ServerConnection.t :=
  {| ServerConnection.fetchGkDevApi := λ s request,
       match s with
       | AsCreateDraftResponse => Fulfilled Sample.notFound
       | _ => Fulfilled (Sample.ok (Sample.data s request) "")
       end;
     ServerConnection.fetch := ServerConnection.fetch Sample.connection |}.

Definition serviceNoCreate : DraftService.t :=
  {| DraftService.imports := Sample.imports;
     DraftService.container := Sample.container;
     DraftService.connection := noCreate |}.

(** A server that creates drafts and refuses their changesets. *)
Definition noChangesetCreate : ServerConnection.t :=
  {| ServerConnection.fetchGkDevApi := λ s request,
       match s with
       | AsDraftChangesetCreateResponse => Fulfilled Sample.notFound
       | _ => Fulfilled (Sample.ok (Sample.data s request) "")
       end;
     ServerConnection.fetch := ServerConnection.fetch Sample.connection |}.

Definition serviceNoChangesetCreate : DraftService.t :=
  {| DraftService.imports := Sample.imports;
     DraftService.container := Sample.container;
     DraftService.connection := noChangesetCreate |}.

(** A server that lists, in the changeset it creates, the patches of the
    request and then the first of them once more. *)
Definition oneTooMany : ServerConnection.t :=
  {| ServerConnection.fetchGkDevApi := λ s request,
       match s return settled (Response.t (dataOf s)) with
       | AsDraftChangesetCreateResponse =>
           let created := Sample.changesetCreated request in
           let patches := DraftChangesetCreateResponse.patches created in
           Fulfilled
             (Sample.ok
                (Some {| DraftChangesetCreateResponse.id := "changeset-1";
                         DraftChangesetCreateResponse.createdAt := "2024-01-01T00:00:00Z";
                         DraftChangesetCreateResponse.updatedAt := None;
                         DraftChangesetCreateResponse.draftId := "draft-1";
                         DraftChangesetCreateResponse.parentChangesetId := None;
                         DraftChangesetCreateResponse.userId := "user-1";
                         DraftChangesetCreateResponse.gitUserName := None;
                         DraftChangesetCreateResponse.gitUserEmail := None;
                         DraftChangesetCreateResponse.deepLink := None;
                         DraftChangesetCreateResponse.patches := patches ++ take 1 patches |})
                "")
       | s => Fulfilled (Sample.ok (Sample.data s request) "")
       end;
     ServerConnection.fetch := ServerConnection.fetch Sample.connection |}.

Definition serviceOneTooMany : DraftService.t :=
  {| DraftService.imports := Sample.imports;
     DraftService.container := Sample.container;
     DraftService.connection := oneTooMany |}.

(** Items are named by a string; the empty name has no entity identifier.
    Only the integration [github] has metadata. *)
Definition suggestions : SuggestionImports.t string :=
  {| SuggestionImports.providersMetadata := λ integrationId,
       if String.eqb integrationId "github"
       then Some {| ProviderMetadata.domain := "github.com";
                    ProviderMetadata.scopes := ["repo"] |}
       else None;
     SuggestionImports.sessionDescriptor := λ domain _, domain;
     SuggestionImports.encodeEntityIdentifier := λ item,
       if String.eqb item "" then Rejected (Error "Unsupported provider")
       else Fulfilled ("pr:" +:+ item) |}.

(** The changeset of a draft on the wire: two patches, the second one
    updated after it was created. *)
Definition changesetResponse : DraftChangesetResponse.t :=
  {| DraftChangesetResponse.id := "changeset-1";
     DraftChangesetResponse.createdAt := "2024-01-01T00:00:00Z";
     DraftChangesetResponse.updatedAt := None;
     DraftChangesetResponse.draftId := "draft-1";
     DraftChangesetResponse.parentChangesetId := None;
     DraftChangesetResponse.userId := "user-1";
     DraftChangesetResponse.gitUserName := Some "Ada";
     DraftChangesetResponse.gitUserEmail := Some "ada@example.com";
     DraftChangesetResponse.deepLink := None;
     DraftChangesetResponse.patches :=
       [Sample.patchResponse;
        {| DraftPatchResponse.id := "patch-2";
           DraftPatchResponse.createdAt := "2024-01-01T00:00:00Z";
           DraftPatchResponse.updatedAt := Some "2024-03-01T00:00:00Z";
           DraftPatchResponse.draftId := "draft-1";
           DraftPatchResponse.changesetId := "changeset-1";
           DraftPatchResponse.userId := "user-1";
           DraftPatchResponse.baseBranchName := "main";
           DraftPatchResponse.baseCommitSha := "a";
           DraftPatchResponse.gitRepositoryId := "repo-2";
           DraftPatchResponse.secureDownloadData := Some Sample.downloadLink |}] |}.

(** A server whose drafts have that one changeset. *)
Definition withChangesets : ServerConnection.t :=
  {| ServerConnection.fetchGkDevApi := λ s request,
       match s return settled (Response.t (dataOf s)) with
       | AsDraftChangesetResponses => Fulfilled (Sample.ok (Some [changesetResponse]) "")
       | s => Fulfilled (Sample.ok (Sample.data s request) "")
       end;
     ServerConnection.fetch := ServerConnection.fetch Sample.connection |}.

Definition serviceWithChangesets : DraftService.t :=
  {| DraftService.imports := Sample.imports;
     DraftService.container := Sample.container;
     DraftService.connection := withChangesets |}.

(** A server whose blob storage answers every request with 404. *)
Definition refusingStorage : ServerConnection.t :=
  {| ServerConnection.fetchGkDevApi := ServerConnection.fetchGkDevApi Sample.connection;
     ServerConnection.fetch := λ _, Fulfilled Sample.notFound |}.

Definition serviceRefusingStorage : DraftService.t :=
  {| DraftService.imports := Sample.imports;
     DraftService.container := Sample.container;
     DraftService.connection := refusingStorage |}.

(** A patch whose repository is resolved, and a changeset that holds a
    patch without any repository reference before it. *)
Definition hydratedPatch : DraftPatch.t :=
  formatPatch Sample.patchResponse
    (Some {| FormatPatchOptions.commit := None;
             FormatPatchOptions.contents := Some "diff a..b";
             FormatPatchOptions.files := Some [];
             FormatPatchOptions.repository := Some (IsRepository Sample.repository) |}).

Definition unreferencedPatch : DraftPatch.t :=
  formatPatch
    {| DraftPatchResponse.id := "patch-0";
       DraftPatchResponse.createdAt := "2024-01-01T00:00:00Z";
       DraftPatchResponse.updatedAt := None;
       DraftPatchResponse.draftId := "draft-3";
       DraftPatchResponse.changesetId := "changeset-1";
       DraftPatchResponse.userId := "user-1";
       DraftPatchResponse.baseBranchName := "main";
       DraftPatchResponse.baseCommitSha := "a";
       DraftPatchResponse.gitRepositoryId := "";
       DraftPatchResponse.secureDownloadData := None |}
    None.

Definition changeset : DraftChangeset.t :=
  DraftChangeset_setPatches (formatChangeset changesetResponse)
    [unreferencedPatch; hydratedPatch].

(** A draft shared through the provider, with that changeset loaded. *)
Definition providerDraft : Draft.t :=
  Draft_setChangesets
    (formatDraft
       {| DraftResponse.type := "suggested_pr_change";
          DraftResponse.id := "draft-3";
          DraftResponse.createdAt := "2024-01-01T00:00:00Z";
          DraftResponse.updatedAt := None;
          DraftResponse.createdBy := "user-1";
          DraftResponse.organizationId := None;
          DraftResponse.role := "owner";
          DraftResponse.isPublished := true;
          DraftResponse.title := "A suggestion";
          DraftResponse.description := None;
          DraftResponse.deepLink := "https://gitkraken.dev/drafts/draft-3";
          DraftResponse.visibility := "provider_access";
          DraftResponse.isArchived := false;
          DraftResponse.archivedBy := None;
          DraftResponse.archivedReason := None;
          DraftResponse.archivedAt := None;
          DraftResponse.latestChangesetId := "changeset-1" |}
       None)
    [changeset].

(** An issue without a repository. *)
Definition orphanIssue : IssueShape.t :=
  {| IssueShape.type := Type_issue;
     IssueShape.provider := IssueShape.provider (Sample.issue "github");
     IssueShape.id := "2";
     IssueShape.nodeId := None;
     IssueShape.title := "An issue";
     IssueShape.url := "https://example.com/o/r/issues/2";
     IssueShape.createdDate := new_Date "2024-01-01T00:00:00Z";
     IssueShape.updatedDate := new_Date "2024-01-01T00:00:00Z";
     IssueShape.closedDate := None;
     IssueShape.closed := false;
     IssueShape.state := State_opened;
     IssueShape.commentsCount := None;
     IssueShape.thumbsUpCount := None;
     IssueShape.author := IssueShape.author (Sample.issue "github");
     IssueShape.assignees := [];
     IssueShape.repository := None;
     IssueShape.labels := None;
     IssueShape.body := None |}.

End Fixture.

(** * Theorems *)

(** ** The [Async] computation *)

Lemma bind_unfold {A B} (m : Async A) (f : A → Async B) :
  m ≫= f =
  match m with
  | (Fulfilled a, w) => (outcome (f a), w ++ calls (f a))
  | (Rejected e, w) => (Rejected e, w)
  end.
Proof.
  destruct m as [[a|e] w]; [|reflexivity].
  unfold mbind, Async_bind, outcome, calls. by destruct (f a).
Qed.

Lemma outcome_bind {A B} (m : Async A) (f : A → Async B) :
  outcome (m ≫= f) =
  match outcome m with
  | Fulfilled a => outcome (f a)
  | Rejected e => Rejected e
  end.
Proof. rewrite bind_unfold. by destruct m as [[a|e] w]. Qed.

Lemma calls_bind {A B} (m : Async A) (f : A → Async B) :
  calls (m ≫= f) =
  calls m ++ match outcome m with
             | Fulfilled a => calls (f a)
             | Rejected _ => []
             end.
Proof.
  rewrite bind_unfold. destruct m as [[a|e] w]; simpl; [done|].
  by rewrite app_nil_r.
Qed.

Lemma bind_fulfilled {A B} (m : Async A) (f : A → Async B) b :
  outcome (m ≫= f) = Fulfilled b →
  ∃ a, outcome m = Fulfilled a ∧ outcome (f a) = Fulfilled b.
Proof. rewrite outcome_bind. destruct (outcome m); [eauto | done]. Qed.

Lemma bind_of_fulfilled {A B} (m : Async A) (f : A → Async B) a :
  outcome m = Fulfilled a →
  m ≫= f = (outcome (f a), calls m ++ calls (f a)).
Proof.
  rewrite bind_unfold. destruct m as [[a'|e] w]; simpl; [|done].
  by intros [= ->].
Qed.

Lemma bind_of_rejected {A B} (m : Async A) (f : A → Async B) e :
  outcome m = Rejected e → m ≫= f = (Rejected e, calls m).
Proof.
  rewrite bind_unfold. destruct m as [[a'|e'] w]; simpl; [done|].
  by intros [= ->].
Qed.

Lemma async_eta {A} (m : Async A) : m = (outcome m, calls m).
Proof. by destruct m. Qed.

(** [Promise.allSettled] never rejects: it yields the outcome of every
    branch, in order, and every branch has run to its end. *)
Lemma allSettled_spec {A} (ps : list (Async A)) :
  allSettled ps = (Fulfilled (map outcome ps), concat (map calls ps)).
Proof.
  induction ps as [|p ps IH]; [reflexivity|].
  cbn [allSettled map concat]. rewrite IH.
  destruct p as [r w]. unfold settle, mbind, Async_bind, mret, Async_ret. simpl.
  by rewrite app_nil_r.
Qed.

(** ** Serialization of issues *)

Lemma serializeProvider_id p : serializeProvider p = p.
Proof. by destruct p. Qed.

Lemma serializeMember_id m : serializeMember m = m.
Proof. by destruct m. Qed.

Lemma serializeLabel_id l : serializeLabel l = l.
Proof. by destruct l. Qed.

Lemma map_serializeMember ms : map serializeMember ms = ms.
Proof. induction ms as [|m ms IH]; simpl; [done|]. by rewrite serializeMember_id, IH. Qed.

Lemma map_serializeLabel ls : map serializeLabel ls = ls.
Proof. induction ls as [|l ls IH]; simpl; [done|]. by rewrite serializeLabel_id, IH. Qed.

Lemma serializeRepository_idem r :
  serializeRepository (serializeRepository r) = serializeRepository r.
Proof. reflexivity. Qed.

(** C10. [serializeIssueOrPullRequest] and [serializeIssue] are idempotent
    projections: serializing a second time changes nothing, and every
    property the serializer keeps has the value it had in the input.  (The
    properties it does not list -- [commentsCount] and [thumbsUpCount] of an
    issue-or-pull-request, [accessLevel] of an issue's repository -- are
    absent from the result.) *)
Theorem serialize_idempotent_projection :
  (∀ v : IssueOrPullRequest.t,
     let s := serializeIssueOrPullRequest v in
     serializeIssueOrPullRequest s = s
     ∧ IssueOrPullRequest.type s = IssueOrPullRequest.type v
     ∧ IssueOrPullRequest.provider s = IssueOrPullRequest.provider v
     ∧ IssueOrPullRequest.id s = IssueOrPullRequest.id v
     ∧ IssueOrPullRequest.nodeId s = IssueOrPullRequest.nodeId v
     ∧ IssueOrPullRequest.title s = IssueOrPullRequest.title v
     ∧ IssueOrPullRequest.url s = IssueOrPullRequest.url v
     ∧ IssueOrPullRequest.createdDate s = IssueOrPullRequest.createdDate v
     ∧ IssueOrPullRequest.updatedDate s = IssueOrPullRequest.updatedDate v
     ∧ IssueOrPullRequest.closedDate s = IssueOrPullRequest.closedDate v
     ∧ IssueOrPullRequest.closed s = IssueOrPullRequest.closed v
     ∧ IssueOrPullRequest.state s = IssueOrPullRequest.state v)
  ∧ (∀ v : IssueShape.t,
       let s := serializeIssue v in
       serializeIssue s = s
       ∧ IssueShape.type s = IssueShape.type v
       ∧ IssueShape.provider s = IssueShape.provider v
       ∧ IssueShape.id s = IssueShape.id v
       ∧ IssueShape.nodeId s = IssueShape.nodeId v
       ∧ IssueShape.title s = IssueShape.title v
       ∧ IssueShape.url s = IssueShape.url v
       ∧ IssueShape.createdDate s = IssueShape.createdDate v
       ∧ IssueShape.updatedDate s = IssueShape.updatedDate v
       ∧ IssueShape.closedDate s = IssueShape.closedDate v
       ∧ IssueShape.closed s = IssueShape.closed v
       ∧ IssueShape.state s = IssueShape.state v
       ∧ IssueShape.author s = IssueShape.author v
       ∧ IssueShape.assignees s = IssueShape.assignees v
       ∧ IssueRepository.owner <$> IssueShape.repository s
           = IssueRepository.owner <$> IssueShape.repository v
       ∧ IssueRepository.repo <$> IssueShape.repository s
           = IssueRepository.repo <$> IssueShape.repository v
       ∧ IssueRepository.url <$> IssueShape.repository s
           = IssueRepository.url <$> IssueShape.repository v
       ∧ IssueShape.labels s = IssueShape.labels v
       ∧ IssueShape.commentsCount s = IssueShape.commentsCount v
       ∧ IssueShape.thumbsUpCount s = IssueShape.thumbsUpCount v
       ∧ IssueShape.body s = IssueShape.body v).
Proof.
  split.
  - intros v s. subst s. unfold serializeIssueOrPullRequest; simpl.
    rewrite !serializeProvider_id. repeat split; reflexivity.
  - intros v s. subst s. unfold serializeIssue; simpl.
    rewrite !serializeProvider_id, !serializeMember_id, !map_serializeMember.
    destruct v as [? ? ? ? ? ? ? ? ? ? ? ? ? ? ? repository labels ?]; simpl.
    destruct repository as [r|], labels as [ls|]; simpl;
      rewrite ?map_serializeLabel; repeat split; reflexivity.
Qed.

(** ** Normalization of drafts *)

(** C5. In [formatDraft], an empty input role becomes ['editor'] when the
    [fromPrEntityId] option is [true] and ['viewer'] when it is absent or
    [false]; a role that is not empty passes through unchanged. *)
Theorem formatDraft_role (d : DraftResponse.t) (o : option FormatDraftOptions.t) :
  (DraftResponse.role d = "" →
   opt o FormatDraftOptions.fromPrEntityId = Some true →
   Draft.role (formatDraft d o) = "editor")
  ∧ (DraftResponse.role d = "" →
     opt o FormatDraftOptions.fromPrEntityId ≠ Some true →
     Draft.role (formatDraft d o) = "viewer")
  ∧ (DraftResponse.role d ≠ "" →
     Draft.role (formatDraft d o) = DraftResponse.role d).
Proof.
  unfold formatDraft.
  destruct (createdByAccount d o); simpl;
    (repeat split; [intros -> Hpr | intros -> Hpr | intros Hrole]; simpl;
     [ by rewrite bool_decide_eq_true_2
     | by rewrite bool_decide_eq_false_2
     | destruct (String.eqb_spec (DraftResponse.role d) ""); [done | reflexivity] ]).
Qed.

Lemma formatDraft_role_witness :
  Draft.role (formatDraft Sample.draftResponse
                (Some {| FormatDraftOptions.account := None;
                         FormatDraftOptions.fallbackAuthorName := Some "Unknown";
                         FormatDraftOptions.fromPrEntityId := Some true |})) = "editor"
  ∧ Draft.role (formatDraft Sample.draftResponse None) = "viewer"
  ∧ Draft.role (formatDraft Sample.ownerDraftResponse None) = "owner".
Proof.
  split; [|split].
  - apply (formatDraft_role Sample.draftResponse); reflexivity.
  - apply (formatDraft_role Sample.draftResponse None); [reflexivity | discriminate].
  - apply (formatDraft_role Sample.ownerDraftResponse None). discriminate.
Defined.

(** C6. The normalized draft's [updatedAt] is the parsed [createdAt] whenever
    the payload omits [updatedAt], and its [archivedAt] stays unset whenever
    the payload omits [archivedAt]. *)
Theorem formatDraft_timestamps (d : DraftResponse.t) (o : option FormatDraftOptions.t) :
  (DraftResponse.updatedAt d = None →
   Draft.updatedAt (formatDraft d o) = new_Date (DraftResponse.createdAt d)
   ∧ Draft.updatedAt (formatDraft d o) = Draft.createdAt (formatDraft d o))
  ∧ (DraftResponse.archivedAt d = None →
     Draft.archivedAt (formatDraft d o) = None).
Proof.
  unfold formatDraft.
  destruct (createdByAccount d o); simpl; (split; [intros -> | intros ->]; done).
Qed.

Lemma formatDraft_timestamps_witness :
  (Draft.updatedAt (formatDraft Sample.draftResponse None) = new_Date "2024-01-01T00:00:00Z"
   ∧ Draft.updatedAt (formatDraft Sample.draftResponse None)
     = Draft.createdAt (formatDraft Sample.draftResponse None))
  ∧ Draft.archivedAt (formatDraft Sample.draftResponse None) = None.
Proof.
  split.
  - apply (formatDraft_timestamps Sample.draftResponse None). reflexivity.
  - apply (formatDraft_timestamps Sample.draftResponse None). reflexivity.
Defined.

(** ** Repository identity: the display name *)

Lemma getRepositoryIdentity_fulfilled this draftId repoId rsp payload data :
  ServerConnection.fetchGkDevApi (DraftService.connection this) AsRepositoryIdentityResponse
    (Request.mk ("/v1/drafts/" +:+ draftId +:+ "/git-repositories/" +:+ repoId)
       "GET" None None None) = Fulfilled rsp →
  Response.json rsp = Fulfilled payload →
  Payload.data payload = Some data →
  ∃ identity,
    outcome (getRepositoryIdentity this draftId repoId) = Fulfilled identity
    ∧ RepositoryIdentity.name identity = resolveName (DraftService.imports this) data.
Proof.
  intros Hrsp Hjson Hdata. unfold getRepositoryIdentity, readData, await.
  cbn in Hjson, Hdata.
  rewrite Hrsp. cbn. rewrite Hjson. cbn. rewrite Hdata. cbn. eauto.
Qed.

(** C8, as the code has it.  The display name of a repository identity is
    the payload's explicit name if present; else the provider's repo name;
    else, when the remote's url, domain and path are all present, the repo
    name the remote matcher derives, or the raw remote path if it derives
    none; else the raw remote path; else a synthesized label, which is
    ["Unknown "] followed by the short fingerprint in parentheses when the
    payload has a non-empty initial commit, and ["Unknown "] alone when it
    has none. *)
Theorem getRepositoryIdentity_name this draftId repoId rsp payload data :
  ServerConnection.fetchGkDevApi (DraftService.connection this) AsRepositoryIdentityResponse
    (Request.mk ("/v1/drafts/" +:+ draftId +:+ "/git-repositories/" +:+ repoId)
       "GET" None None None) = Fulfilled rsp →
  Response.json rsp = Fulfilled payload →
  Payload.data payload = Some data →
  ∃ identity,
    outcome (getRepositoryIdentity this draftId repoId) = Fulfilled identity
    ∧ let imports := DraftService.imports this in
      let name := RepositoryIdentity.name identity in
      let explicit := RepositoryIdentityResponse.name data in
      let providerName := RepositoryIdentityResponse.provider data ≫= ProviderDescriptor.repoName in
      let url := RepositoryIdentityResponse.remote data ≫= RemoteDescriptor.url in
      let domain := RepositoryIdentityResponse.remote data ≫= RemoteDescriptor.domain in
      let path := RepositoryIdentityResponse.remote data ≫= RemoteDescriptor.path in
      let sha := RepositoryIdentityResponse.initialCommitSha data in
      (∀ n, explicit = Some n → name = n)
      ∧ (explicit = None → ∀ n, providerName = Some n → name = n)
      ∧ (explicit = None → providerName = None →
         ∀ u d p, url = Some u → domain = Some d → path = Some p →
           (∀ n, Imports.getRemoteProviderMatcher imports u d p ≫= RemoteProvider.repoName
                   = Some n → name = n)
           ∧ (Imports.getRemoteProviderMatcher imports u d p ≫= RemoteProvider.repoName
                = None → name = p))
      ∧ (explicit = None → providerName = None → url = None ∨ domain = None →
         ∀ p, path = Some p → name = p)
      ∧ (explicit = None → providerName = None → path = None →
         ∀ s, sha = Some s → s ≠ "" →
           name = "Unknown " +:+ " (" +:+ Imports.shortenRevision imports s +:+ ")")
      ∧ (explicit = None → providerName = None → path = None →
         sha = None ∨ sha = Some "" → name = "Unknown ").
Proof.
  intros Hrsp Hjson Hdata.
  destruct (getRepositoryIdentity_fulfilled _ _ _ _ _ _ Hrsp Hjson Hdata)
    as (identity & Hout & Hname).
  exists identity. split; [done|]. cbv zeta. rewrite Hname. unfold resolveName.
  destruct (RepositoryIdentityResponse.name data) as [explicit|],
    (RepositoryIdentityResponse.provider data ≫= ProviderDescriptor.repoName) as [providerName|],
    (RepositoryIdentityResponse.remote data ≫= RemoteDescriptor.url) as [url|],
    (RepositoryIdentityResponse.remote data ≫= RemoteDescriptor.domain) as [domain|],
    (RepositoryIdentityResponse.remote data ≫= RemoteDescriptor.path) as [path|],
    (RepositoryIdentityResponse.initialCommitSha data) as [[|c sha]|];
    repeat split; intros;
    repeat match goal with
           | H : _ ∨ _ |- _ => destruct H
           end;
    simplify_eq; try done;
    match goal with
    | H : _ ≫= RemoteProvider.repoName = _ |- _ => by rewrite H
    end.
Qed.

Lemma getRepositoryIdentity_name_witness :
  ∃ identity,
    outcome (getRepositoryIdentity Sample.service "draft-1" "repo-1") = Fulfilled identity
    ∧ RepositoryIdentity.name identity = "Unknown ".
Proof.
  destruct (getRepositoryIdentity_name Sample.service "draft-1" "repo-1"
              (Sample.ok (Some Sample.identityResponse) "")
              {| Payload.data := Some Sample.identityResponse; Payload.error := None |}
              Sample.identityResponse eq_refl eq_refl eq_refl)
    as (identity & Hout & _ & _ & _ & _ & _ & Hlast).
  exists identity. split; [exact Hout|].
  apply Hlast; [reflexivity | reflexivity | reflexivity | left; reflexivity].
Defined.

(** C8, as stated, fails: for a payload with no name, no provider, no remote
    path and no initial commit the label is ["Unknown "], which carries no
    fingerprint at all. *)
Lemma identity_label_without_fingerprint :
  ∃ identity,
    outcome (getRepositoryIdentity Sample.service "draft-1" "repo-1") = Fulfilled identity
    ∧ RepositoryIdentity.name identity = "Unknown "
    ∧ ∀ fingerprint : string,
        RepositoryIdentity.name identity ≠ "Unknown (" +:+ fingerprint +:+ ")".
Proof.
  eexists. split; [vm_compute; reflexivity|]. split; [reflexivity|].
  intros fingerprint. simpl. discriminate.
Qed.

(** ** Resolving the repository of an issue *)

Lemma getOrOpenIssueRepository_run imports container issue options r direct virtual prompted :
  let identity :=
    {| RepositoryIdentityDescriptor.remote := Some {|
         RemoteDescriptor.url := IssueRepository.url r;
         RemoteDescriptor.domain := Some (ProviderReference.domain (IssueShape.provider issue));
         RemoteDescriptor.path := None |};
       RepositoryIdentityDescriptor.name := IssueRepository.owner r +:+ "/" +:+ IssueRepository.repo r;
       RepositoryIdentityDescriptor.initialCommitSha := None;
       RepositoryIdentityDescriptor.provider := Some {|
         ProviderDescriptor.id := Some (ProviderReference.id (IssueShape.provider issue));
         ProviderDescriptor.domain := Some (ProviderReference.domain (IssueShape.provider issue));
         ProviderDescriptor.repoDomain := Some (IssueRepository.owner r);
         ProviderDescriptor.repoName := Some (IssueRepository.repo r);
         ProviderDescriptor.repoOwnerDomain := Some (IssueRepository.owner r) |} |} in
  let parsed := Imports.Uri_parse imports (default (IssueShape.url issue) (IssueRepository.url r)) in
  let virtualUri := Uri_with parsed (Imports.Schemes_Virtual imports) "github" (Uri.path parsed) in
  IssueShape.repository issue = Some r →
  Container.repositoryIdentity_getRepository container identity (lookupOptions false)
    = Fulfilled direct →
  Git.getOrOpenRepository (Container.git container) virtualUri = Fulfilled virtual →
  Container.repositoryIdentity_getRepository container identity (lookupOptions true)
    = Fulfilled prompted →
  let github := String.eqb (ProviderReference.id (IssueShape.provider issue)) "github" in
  let openVirtual :=
    bool_decide (direct = None) && negb (flag options IssueRepositoryOptions.skipVirtual)
    && github in
  let afterVirtual := if openVirtual then virtual else direct in
  let askUser :=
    bool_decide (afterVirtual = None) && flag options IssueRepositoryOptions.promptIfNeeded in
  getOrOpenIssueRepository imports container issue options =
  (Fulfilled (if askUser then prompted else afterVirtual),
   [RepositoryIdentity_getRepository identity (lookupOptions false)]
   ++ (if openVirtual then [Git_getOrOpenRepository virtualUri] else [])
   ++ (if askUser then [RepositoryIdentity_getRepository identity (lookupOptions true)] else [])).
Proof.
  intros identity parsed virtualUri Hrepo Hdirect Hvirtual Hprompted.
  unfold getOrOpenIssueRepository, getRepositoryIdentityForIssue, getVirtualUriForIssue, await.
  rewrite Hrepo. cbn. fold identity. rewrite Hdirect.
  destruct direct as [repo|]; cbn.
  - destruct (flag options IssueRepositoryOptions.promptIfNeeded); reflexivity.
  - destruct (flag options IssueRepositoryOptions.skipVirtual); cbn.
    + destruct (flag options IssueRepositoryOptions.promptIfNeeded); cbn;
        [fold identity; rewrite Hprompted|]; reflexivity.
    + destruct (String.eqb (ProviderReference.id (IssueShape.provider issue)) "github"); cbn.
      * fold parsed. fold virtualUri. rewrite Hvirtual.
        destruct virtual as [repo|]; cbn.
        -- destruct (flag options IssueRepositoryOptions.promptIfNeeded); reflexivity.
        -- destruct (flag options IssueRepositoryOptions.promptIfNeeded); cbn;
             [fold identity; rewrite Hprompted|]; reflexivity.
      * destruct (flag options IssueRepositoryOptions.promptIfNeeded); cbn;
          [fold identity; rewrite Hprompted|]; reflexivity.
Qed.

(** C9. Resolving the repository of an issue first looks the identity up
    among the open repositories without prompting; only if that finds
    nothing and [skipVirtual] is not set does it open a virtual view, which
    exists only when the provider is [github] (scheme [Schemes.Virtual],
    authority [github]); only if there is still no repository and
    [promptIfNeeded] is set does it repeat the lookup with prompting.  The
    result is the first repository found; when every attempt finds nothing
    it is [undefined], not an exception.  [getRepositoryOrIdentity] likewise
    returns the identity itself when the registry finds no repository. *)
Theorem repository_resolution_order :
  (∀ imports container issue options r direct virtual prompted,
     let provider := IssueShape.provider issue in
     let identity :=
       {| RepositoryIdentityDescriptor.remote := Some {|
            RemoteDescriptor.url := IssueRepository.url r;
            RemoteDescriptor.domain := Some (ProviderReference.domain provider);
            RemoteDescriptor.path := None |};
          RepositoryIdentityDescriptor.name :=
            IssueRepository.owner r +:+ "/" +:+ IssueRepository.repo r;
          RepositoryIdentityDescriptor.initialCommitSha := None;
          RepositoryIdentityDescriptor.provider := Some {|
            ProviderDescriptor.id := Some (ProviderReference.id provider);
            ProviderDescriptor.domain := Some (ProviderReference.domain provider);
            ProviderDescriptor.repoDomain := Some (IssueRepository.owner r);
            ProviderDescriptor.repoName := Some (IssueRepository.repo r);
            ProviderDescriptor.repoOwnerDomain := Some (IssueRepository.owner r) |} |} in
     let parsed :=
       Imports.Uri_parse imports (default (IssueShape.url issue) (IssueRepository.url r)) in
     let virtualUri :=
       {| Uri.scheme := Imports.Schemes_Virtual imports;
          Uri.authority := "github";
          Uri.path := Uri.path parsed;
          Uri.query := Uri.query parsed;
          Uri.fragment := Uri.fragment parsed |} in
     let lookup := λ prompt,
       RepositoryIdentity_getRepository identity
         (Some {| GetRepositoryOptions.openIfNeeded := Some true;
                  GetRepositoryOptions.keepOpen := Some false;
                  GetRepositoryOptions.prompt := Some prompt;
                  GetRepositoryOptions.skipRefValidation := None |}) in
     IssueShape.repository issue = Some r →
     Container.repositoryIdentity_getRepository container identity (lookupOptions false)
       = Fulfilled direct →
     Git.getOrOpenRepository (Container.git container) virtualUri = Fulfilled virtual →
     Container.repositoryIdentity_getRepository container identity (lookupOptions true)
       = Fulfilled prompted →
     let m := getOrOpenIssueRepository imports container issue options in
     let openVirtual :=
       bool_decide (direct = None)
       && negb (flag options IssueRepositoryOptions.skipVirtual)
       && String.eqb (ProviderReference.id provider) "github" in
     let afterVirtual := if openVirtual then virtual else direct in
     let askUser :=
       bool_decide (afterVirtual = None)
       && flag options IssueRepositoryOptions.promptIfNeeded in
     calls m =
       [lookup false]
       ++ (if openVirtual then [Git_getOrOpenRepository virtualUri] else [])
       ++ (if askUser then [lookup true] else [])
     ∧ outcome m = Fulfilled (if askUser then prompted else afterVirtual)
     ∧ (direct = None → virtual = None → prompted = None → outcome m = Fulfilled None))
  ∧ (∀ this draftId repoId options identity found,
       outcome (getRepositoryIdentity this draftId repoId) = Fulfilled identity →
       Container.repositoryIdentity_getRepository (DraftService.container this)
         (RepositoryIdentity_descriptor identity) options = Fulfilled found →
       outcome (getRepositoryOrIdentity this draftId repoId options) =
       Fulfilled (match found with
                  | Some repository => IsRepository repository
                  | None => IsIdentity identity
                  end)).
Proof.
  split.
  - intros imports container issue options r direct virtual prompted
      provider identity parsed virtualUri lookup Hrepo Hdirect Hvirtual Hprompted
      m openVirtual afterVirtual askUser.
    pose proof (getOrOpenIssueRepository_run imports container issue options r
                  direct virtual prompted Hrepo Hdirect Hvirtual Hprompted) as Hrun.
    cbv zeta in Hrun. subst m. rewrite Hrun. unfold calls, outcome. simpl fst. simpl snd.
    split; [reflexivity|]. split; [reflexivity|].
    intros -> -> ->. subst askUser afterVirtual openVirtual.
    by repeat case_match.
  - intros this draftId repoId options identity found Hidentity Hfound.
    unfold getRepositoryOrIdentity. rewrite outcome_bind, Hidentity.
    unfold await. rewrite Hfound. by destruct found.
Qed.

Lemma repository_resolution_order_witness :
  (calls (getOrOpenIssueRepository Sample.imports Sample.container (Sample.issue "github")
            (Some {| IssueRepositoryOptions.promptIfNeeded := Some true;
                     IssueRepositoryOptions.skipVirtual := None |}))
   = [RepositoryIdentity_getRepository
        {| RepositoryIdentityDescriptor.remote := Some {|
             RemoteDescriptor.url := Some "https://example.com/o/r";
             RemoteDescriptor.domain := Some "example.com";
             RemoteDescriptor.path := None |};
           RepositoryIdentityDescriptor.name := "o/r";
           RepositoryIdentityDescriptor.initialCommitSha := None;
           RepositoryIdentityDescriptor.provider := Some {|
             ProviderDescriptor.id := Some "github";
             ProviderDescriptor.domain := Some "example.com";
             ProviderDescriptor.repoDomain := Some "o";
             ProviderDescriptor.repoName := Some "r";
             ProviderDescriptor.repoOwnerDomain := Some "o" |} |}
        (lookupOptions false);
      Git_getOrOpenRepository
        {| Uri.scheme := "vscode-vfs"; Uri.authority := "github";
           Uri.path := "https://example.com/o/r"; Uri.query := ""; Uri.fragment := "" |};
      RepositoryIdentity_getRepository
        {| RepositoryIdentityDescriptor.remote := Some {|
             RemoteDescriptor.url := Some "https://example.com/o/r";
             RemoteDescriptor.domain := Some "example.com";
             RemoteDescriptor.path := None |};
           RepositoryIdentityDescriptor.name := "o/r";
           RepositoryIdentityDescriptor.initialCommitSha := None;
           RepositoryIdentityDescriptor.provider := Some {|
             ProviderDescriptor.id := Some "github";
             ProviderDescriptor.domain := Some "example.com";
             ProviderDescriptor.repoDomain := Some "o";
             ProviderDescriptor.repoName := Some "r";
             ProviderDescriptor.repoOwnerDomain := Some "o" |} |}
        (lookupOptions true)]
   ∧ outcome (getOrOpenIssueRepository Sample.imports Sample.container (Sample.issue "github")
                (Some {| IssueRepositoryOptions.promptIfNeeded := Some true;
                         IssueRepositoryOptions.skipVirtual := None |}))
     = Fulfilled None)
  ∧ ∃ identity,
      outcome (getRepositoryOrIdentity Sample.service "draft-1" "repo-1" None)
      = Fulfilled (IsIdentity identity).
Proof.
  destruct repository_resolution_order as [Hissue Hdraft]. split.
  - destruct (Hissue Sample.imports Sample.container (Sample.issue "github")
                (Some {| IssueRepositoryOptions.promptIfNeeded := Some true;
                         IssueRepositoryOptions.skipVirtual := None |})
                {| IssueRepository.owner := "o"; IssueRepository.repo := "r";
                   IssueRepository.accessLevel := None;
                   IssueRepository.url := Some "https://example.com/o/r" |}
                None None None eq_refl eq_refl eq_refl eq_refl)
      as (Hcalls & Hout & _).
    split; [exact Hcalls | exact Hout].
  - eexists.
    apply (Hdraft Sample.service "draft-1" "repo-1" None _ None eq_refl eq_refl).
Defined.

(** ** Responses that are not 2xx *)

(** [handleBadDraftResponse] reads the failure body once and throws, whatever
    that read gives. *)
Lemma handleBadDraftResponse_throws {A B} message (rsp : Response.t A) :
  ∃ text, @handleBadDraftResponse A B message (Some rsp)
          = (Rejected (Error (message +:+ ": (" +:+ pretty (Response.status rsp) +:+ ") "
                              +:+ text)),
             [Response_json]).
Proof.
  unfold handleBadDraftResponse, await.
  destruct (Response.json rsp) as [payload|e]; cbn; eauto.
Qed.

Lemma checkOk_bad {A} message (rsp : Response.t A) :
  Response.ok rsp = false →
  ∃ text, checkOk message rsp = (Rejected (Error text), [Response_json]).
Proof.
  intros Hok. unfold checkOk. rewrite Hok. simpl.
  destruct (handleBadDraftResponse_throws (B := unit) message rsp) as [text ->]. eauto.
Qed.

Lemma checkOk_good {A} message (rsp : Response.t A) :
  Response.ok rsp = true → checkOk message rsp = (Fulfilled (), []).
Proof. intros Hok. unfold checkOk. by rewrite Hok. Qed.

(** The write and delete operations that check the response: on a response
    that is not 2xx they throw after reading the failure body, and the body
    is not read a second time as a success. *)
Lemma updateDraftVisibility_bad_response this id visibility rsp :
  let request := Request.mk ("/v1/drafts/" +:+ id) "PATCH"
                   (Some (Body_visibility visibility)) None None in
  ServerConnection.fetchGkDevApi (DraftService.connection this) AsDraft request
    = Fulfilled rsp →
  Response.ok rsp = false →
  ∃ text, updateDraftVisibility this id visibility
          = (Rejected (Error text), [FetchGkDevApi request; Response_json]).
Proof.
  intros request Hrsp Hok. unfold updateDraftVisibility, await. fold request.
  rewrite Hrsp. destruct (checkOk_bad ("Unable to update draft '" +:+ id +:+ "'") rsp Hok)
    as [text Hcheck].
  exists text. cbn. cbn in Hcheck. by rewrite Hcheck.
Qed.

Lemma addDraftUsers_bad_response this id user users rsp :
  let request := Request.mk ("/v1/drafts/" +:+ id +:+ "/users") "POST"
                   (Some (Body_users id (user :: users))) None None in
  ServerConnection.fetchGkDevApi (DraftService.connection this) AsDraftUsers request
    = Fulfilled rsp →
  Response.ok rsp = false →
  ∃ text, addDraftUsers this id (user :: users)
          = (Rejected (Error text), [FetchGkDevApi request; Response_json]).
Proof.
  intros request Hrsp Hok. unfold addDraftUsers, await. fold request. simpl bool_decide.
  cbv iota. rewrite Hrsp.
  destruct (checkOk_bad ("Unable to add users for draft '" +:+ id +:+ "'") rsp Hok)
    as [text Hcheck].
  exists text. cbn. cbn in Hcheck. by rewrite Hcheck.
Qed.

Lemma removeDraftUser_bad_response this id userId rsp :
  let request := Request.mk ("/v1/drafts/" +:+ id +:+ "/users/" +:+ userId) "DELETE"
                   None None None in
  ServerConnection.fetchGkDevApi (DraftService.connection this) AsNothing request
    = Fulfilled rsp →
  Response.ok rsp = false →
  ∃ text, removeDraftUser this id userId
          = (Rejected (Error text), [FetchGkDevApi request; Response_json]).
Proof.
  intros request Hrsp Hok. unfold removeDraftUser, await. fold request. rewrite Hrsp.
  destruct (checkOk_bad ("Unable to update user " +:+ userId +:+ " for draft '" +:+ id +:+ "'")
              rsp Hok) as [text Hcheck].
  exists text. cbn. cbn in Hcheck. by rewrite Hcheck.
Qed.

Lemma archiveDraft_bad_response this draft options rsp :
  let request :=
    Request.mk ("v1/drafts/" +:+ Draft.id draft +:+ "/archive") "POST"
      (Body_archiveReason <$> opt options ArchiveDraftOptions.archiveReason)
      (providerAuthHeaders (DraftService.imports this)
         <$> opt options ArchiveDraftOptions.providerAuth)
      None in
  Draft.visibility draft ≠ "provider_access" →
  ServerConnection.fetchGkDevApi (DraftService.connection this) AsNothing request
    = Fulfilled rsp →
  Response.ok rsp = false →
  ∃ text, archiveDraft this draft options
          = (Rejected (Error text), [FetchGkDevApi request; Response_json]).
Proof.
  intros request Hvisibility Hrsp Hok. unfold archiveDraft, await.
  destruct (String.eqb_spec (Draft.visibility draft) "provider_access") as [|_]; [done|].
  cbn. fold request. rewrite Hrsp.
  destruct (checkOk_bad ("Unable to archive draft '" +:+ Draft.id draft +:+ "'") rsp Hok)
    as [text Hcheck].
  exists text. cbn. cbn in Hcheck. by rewrite Hcheck.
Qed.

(** [deleteDraft] never looks at the response. *)
Lemma deleteDraft_run this id rsp :
  let request := Request.mk ("v1/drafts/" +:+ id) "DELETE" None None None in
  ServerConnection.fetchGkDevApi (DraftService.connection this) AsNothing request
    = Fulfilled rsp →
  deleteDraft this id = (Fulfilled (), [FetchGkDevApi request]).
Proof.
  intros request Hrsp. unfold deleteDraft, await. fold request. by rewrite Hrsp.
Qed.

(** C4, at the input where the code departs from it.  Against a server that
    answers 404, [removeDraftUser] throws, as the claim says of every write
    and delete operation; [deleteDraft], for the same answer, returns
    normally: it raises no error. *)
Theorem deleteDraft_ignores_bad_response :
  let request := Request.mk "v1/drafts/draft-1" "DELETE" None None None in
  (∃ rsp, ServerConnection.fetchGkDevApi (DraftService.connection Sample.serviceMissing)
            AsNothing request = Fulfilled rsp
          ∧ Response.ok rsp = false ∧ Response.status rsp = 404%Z)
  ∧ deleteDraft Sample.serviceMissing "draft-1" = (Fulfilled (), [FetchGkDevApi request])
  ∧ outcome (removeDraftUser Sample.serviceMissing "draft-1" "user-2")
    = Rejected (Error "Unable to update user user-2 for draft 'draft-1': (404) Draft not found").
Proof.
  intros request. split; [|split].
  - eexists. split; [reflexivity|]. split; reflexivity.
  - reflexivity.
  - vm_compute. reflexivity.
Qed.

(** ** Building patch requests: what the step touches *)

Lemma localCalls_bind {A B} (m : Async A) (f : A → Async B) :
  localCalls (calls m) → (∀ a, localCalls (calls (f a))) → localCalls (calls (m ≫= f)).
Proof.
  intros Hm Hf. rewrite calls_bind. apply Forall_app. split; [done|].
  destruct (outcome m); [apply Hf | constructor].
Qed.

Lemma localCalls_settle {A} (m : Async A) :
  localCalls (calls m) → localCalls (calls (settle m)).
Proof. done. Qed.

Lemma localCalls_await {A} ev (r : settled A) :
  isRemoteCall ev = false → localCalls (calls (await ev r)).
Proof. intros Hev. by constructor. Qed.

Lemma localCalls_ret {A} (a : A) : localCalls (calls (mret a : Async A)).
Proof. constructor. Qed.

Lemma localCalls_throw {A} e : localCalls (calls (throw e : Async A)).
Proof. constructor. Qed.

Ltac local_calls :=
  repeat match goal with
         | |- localCalls (calls (mret _)) => apply localCalls_ret
         | |- localCalls (calls (throw _)) => apply localCalls_throw
         | |- localCalls (calls (await _ _)) => apply localCalls_await; reflexivity
         | |- localCalls (calls (settle _)) => apply localCalls_settle
         | |- localCalls (calls (_ ≫= _)) => apply localCalls_bind; [|intros ?]
         | |- localCalls (calls (match ?x with _ => _ end)) => destruct x
         end.

(** Building the patch request of a change talks to git only. *)
Lemma getCreateDraftPatchRequestFromChange_local this change :
  localCalls (calls (getCreateDraftPatchRequestFromChange this change)).
Proof. unfold getCreateDraftPatchRequestFromChange. cbv zeta. local_calls. Qed.

Ltac invert_binds H :=
  repeat (apply bind_fulfilled in H as (? & ? & H)).

(** The patch request of a change carries the repository of the change. *)
Lemma getCreateDraftPatchRequestFromChange_repository this change r :
  outcome (getCreateDraftPatchRequestFromChange this change) = Fulfilled r →
  CreateDraftPatchRequestFromChange.repository r = CreateDraftChange.repository change.
Proof.
  unfold getCreateDraftPatchRequestFromChange. cbv zeta. intros H.
  invert_binds H. cbn in H. by simplify_eq.
Qed.

(** ** More on the [Async] computation *)

Lemma ret_bind {A B} (a : A) (f : A → Async B) : mret a ≫= f = f a.
Proof. rewrite bind_unfold. unfold mret, Async_ret. simpl. by destruct (f a). Qed.

Lemma await_bind {A B} ev (r : settled A) (f : A → Async B) a :
  r = Fulfilled a → await ev r ≫= f = (outcome (f a), ev :: calls (f a)).
Proof. intros ->. by rewrite bind_unfold. Qed.

Lemma await_bind_rejected {A B} ev (r : settled A) (f : A → Async B) e :
  r = Rejected e → await ev r ≫= f = (Rejected e, [ev]).
Proof. intros ->. by rewrite bind_unfold. Qed.

Lemma calls_await_bind {A B} ev (r : settled A) (f : A → Async B) a :
  r = Fulfilled a → calls (await ev r ≫= f) = ev :: calls (f a).
Proof. intros Hr. by rewrite (await_bind _ _ _ _ Hr). Qed.

Lemma Forall_calls_bind {A B} (P : Event → Prop) (m : Async A) (f : A → Async B) :
  Forall P (calls m) → (∀ a, Forall P (calls (f a))) → Forall P (calls (m ≫= f)).
Proof.
  intros Hm Hf. rewrite calls_bind. apply Forall_app. split; [done|].
  destruct (outcome m); [apply Hf | constructor].
Qed.

Lemma localCalls_filter w : localCalls w → filter (λ e, isRemoteCall e) w = [].
Proof.
  induction 1 as [|e w He _ IH]; [done|].
  rewrite filter_cons, decide_False; [done|]. rewrite He. intros [].
Qed.

(** ** The loop over the settled results *)

Lemma collectResults_fold results acc :
  let collected := fold_left collectResult results acc in
  Collected.patchRequests collected
    = Collected.patchRequests acc ++ filter nonEmpty (fulfilments results)
  ∧ Collected.failed collected = Collected.failed acc ++ rejections results.
Proof.
  revert acc. induction results as [|r results IH]; intros acc; simpl.
  - by rewrite !app_nil_r.
  - destruct (IH (collectResult acc r)) as [-> ->].
    unfold fulfilments, rejections. destruct r as [value|reason]; simpl.
    + rewrite filter_cons.
      destruct (truthy (CreateDraftPatchRequestFromChange.contents value)) eqn:Htruthy; simpl.
      * rewrite decide_True; [by rewrite <- app_assoc | unfold nonEmpty; by rewrite Htruthy].
      * rewrite decide_False; [done|].
        unfold nonEmpty. intros Hempty. rewrite Htruthy in Hempty. exact Hempty.
    + by rewrite <- app_assoc.
Qed.

(** The loop keeps the fulfilled results whose diff is not empty, in order,
    and collects the reasons of the rejected ones, in order; a fulfilled
    result with an empty diff goes to neither list. *)
Lemma collectResults_spec results :
  Collected.patchRequests (collectResults results) = filter nonEmpty (fulfilments results)
  ∧ Collected.failed (collectResults results) = rejections results.
Proof. apply (collectResults_fold results). Qed.

(** ** createDraft: the two gates *)

Lemma bind_allSettled {A B} (ps : list (Async A)) (f : list (settled A) → Async B) :
  allSettled ps ≫= f
  = (outcome (f (map outcome ps)), concat (map calls ps) ++ calls (f (map outcome ps))).
Proof. rewrite allSettled_spec. by rewrite bind_unfold. Qed.

Lemma rejections_nil {A} (results : list (settled A)) :
  rejections results = [] ↔ Forall (λ r, isRejected r = false) results.
Proof.
  unfold rejections. induction results as [|[value|reason] results IH]; simpl.
  - split; [constructor | done].
  - rewrite IH. split; [by constructor | by inversion 1].
  - split; [done | inversion 1; discriminate].
Qed.

Lemma rejections_changes this changes :
  Forall2 (λ reason change,
             outcome (getCreateDraftPatchRequestFromChange this change) = Rejected reason)
    (rejections (map outcome (map (getCreateDraftPatchRequestFromChange this) changes)))
    (filter (λ change, isRejected (outcome (getCreateDraftPatchRequestFromChange this change)))
       changes).
Proof.
  unfold rejections. induction changes as [|change changes IH]; simpl; [constructor|].
  rewrite filter_cons.
  destruct (outcome (getCreateDraftPatchRequestFromChange this change)) as [value|reason] eqn:Hout;
    simpl.
  - exact IH.
  - by constructor.
Qed.

Lemma attempts_local this changes :
  localCalls (concat (map calls (map (getCreateDraftPatchRequestFromChange this) changes))).
Proof.
  induction changes as [|change changes IH]; simpl; [constructor|].
  apply Forall_app. split; [apply getCreateDraftPatchRequestFromChange_local | exact IH].
Qed.

(** [createDraft], past its two gates. *)
Lemma createDraft_unfold this type title changes options :
  let attempts := map (getCreateDraftPatchRequestFromChange this) changes in
  let results := map outcome attempts in
  let continue := λ m : Async Draft.t, (outcome m, concat (map calls attempts) ++ calls m) in
  createDraft this type title changes options =
  match changes, rejections results with
  | [], _ => continue (throw (Error "No changes found"))
  | _ :: _, reason :: reasons =>
      continue (throw (AggregateError (reason :: reasons) "Unable to create draft"))
  | _ :: _, [] =>
      continue (createDraftFromPatchRequests this type title options
                  (filter nonEmpty (fulfilments results))
                  (Collected.user (collectResults results)))
  end.
Proof.
  intros attempts results continue. unfold createDraft. rewrite bind_allSettled.
  fold attempts. fold results.
  destruct (collectResults_spec results) as [-> ->].
  destruct changes as [|change changes]; [reflexivity|].
  destruct (rejections results) as [|reason reasons]; reflexivity.
Qed.

(** C3. If the patch request of any change fails, [createDraft] throws one
    [AggregateError] whose [errors] are the failure reasons, one per failed
    change and in the order of the changes; the calls it has made are those
    of building the patch request of every change, each run to its end, and
    none of them reaches the remote service: no draft is created. *)
Theorem createDraft_aggregates_failures this type title changes options :
  let attempts := map (getCreateDraftPatchRequestFromChange this) changes in
  let failed := rejections (map outcome attempts) in
  Exists (λ change,
            isRejected (outcome (getCreateDraftPatchRequestFromChange this change)) = true)
    changes →
  createDraft this type title changes options
    = (Rejected (AggregateError failed "Unable to create draft"), concat (map calls attempts))
  ∧ Forall2 (λ reason change,
               outcome (getCreateDraftPatchRequestFromChange this change) = Rejected reason)
      failed
      (filter (λ change,
                 isRejected (outcome (getCreateDraftPatchRequestFromChange this change)))
         changes)
  ∧ Forall (λ e, isRemoteCall e = false) (calls (createDraft this type title changes options)).
Proof.
  intros attempts failed Hfailed.
  assert (createDraft this type title changes options
          = (Rejected (AggregateError failed "Unable to create draft"),
             concat (map calls attempts))) as Hrun.
  { rewrite createDraft_unfold. fold attempts. fold failed.
    destruct changes as [|change changes]; [by apply Exists_nil in Hfailed|].
    destruct failed as [|reason reasons] eqn:Hnone.
    - exfalso. apply rejections_nil in Hnone. subst attempts.
      rewrite !Forall_map in Hnone. rewrite Forall_forall in Hnone.
      apply Exists_exists in Hfailed as (c & Hin & Hc).
      specialize (Hnone c Hin). simpl in Hnone. rewrite Hc in Hnone. discriminate.
    - simpl. by rewrite app_nil_r. }
  split; [exact Hrun|]. split; [apply rejections_changes|].
  rewrite Hrun. apply attempts_local.
Qed.

Lemma createDraft_aggregates_failures_witness :
  Exists (λ change,
            isRejected (outcome (getCreateDraftPatchRequestFromChange Sample.service change))
            = true)
    [Sample.change "b" "a"; Sample.change "b" "broken"; Sample.change "c" "c"]
  ∧ outcome (createDraft Sample.service "patch" "Fixes"
               [Sample.change "b" "a"; Sample.change "b" "broken"; Sample.change "c" "c"] None)
    = Rejected (AggregateError [Error "Unable to diff broken and b"] "Unable to create draft").
Proof.
  assert (Exists (λ change,
            isRejected (outcome (getCreateDraftPatchRequestFromChange Sample.service change))
            = true)
            [Sample.change "b" "a"; Sample.change "b" "broken"; Sample.change "c" "c"])
    as Hfailed by (apply Exists_cons_tl, Exists_cons_hd; reflexivity).
  split; [exact Hfailed|].
  destruct (createDraft_aggregates_failures Sample.service "patch" "Fixes" _ None Hfailed)
    as (Hrun & _).
  rewrite Hrun. reflexivity.
Defined.

(** ** createDraft: the remote protocol *)

Lemma outcome_await_bind {A B} ev (r : settled A) (f : A → Async B) a :
  r = Fulfilled a → outcome (await ev r ≫= f) = outcome (f a).
Proof. intros ->. by rewrite outcome_bind. Qed.

Lemma outcome_checkOk_bind {A B} message (rsp : Response.t A) (f : unit → Async B) :
  Response.ok rsp = true → outcome (checkOk message rsp ≫= f) = outcome (f ()).
Proof. intros Hok. by rewrite (checkOk_good _ _ Hok), outcome_bind. Qed.

Lemma outcome_readData_bind {A B} (rsp : Response.t A) (f : option A → Async B) payload :
  Response.json rsp = Fulfilled payload →
  outcome (readData rsp ≫= f) = outcome (f (Payload.data payload)).
Proof.
  intros Hjson. unfold readData, await. rewrite Hjson. by rewrite outcome_bind.
Qed.

Lemma outcome_defined_bind {A B} what (a : A) (f : A → Async B) :
  outcome (defined what (Some a) ≫= f) = outcome (f a).
Proof. by rewrite outcome_bind. Qed.

Lemma uploadPatch_healthy this requests i request patches created :
  Healthy.t this →
  requests !! i = Some request →
  ∃ p, outcome (uploadPatch this requests (i, patches) created)
       = Fulfilled (S i, patches ++ [p])
       ∧ hydratedFrom p request.
Proof.
  intros Hhealthy Hrequest. unfold uploadPatch. rewrite Hrequest.
  destruct (Healthy.diffFilesSettle _ Hhealthy
              (Repository.path (CreateDraftPatchRequestFromChange.repository request))
              (Some (CreateDraftPatchRequestFromChange.contents request)))
    as [diffFiles HdiffFiles].
  rewrite (outcome_await_bind _ _ _ _ HdiffFiles).
  match goal with
  | |- context [ServerConnection.fetch _ ?upload] =>
      destruct (Healthy.uploadSettles _ Hhealthy upload) as [rsp Hrsp];
      rewrite (outcome_await_bind _ _ _ _ Hrsp)
  end.
  eexists. split; [reflexivity|]. repeat split. simpl. by eexists.
Qed.

Lemma uploadPatches_healthy this requests :
  Healthy.t this →
  ∀ created i patches,
    (i + length created ≤ length requests)%nat →
    ∃ new,
      outcome (forOf (uploadPatch this requests) created (i, patches))
      = Fulfilled (i + length created, patches ++ new)
      ∧ Forall2 hydratedFrom new (take (length created) (drop i requests)).
Proof.
  intros Hhealthy. induction created as [|c created IH]; intros i patches Hle;
    cbn [forOf length].
  - exists []. rewrite app_nil_r, Nat.add_0_r. split; [reflexivity | constructor].
  - cbn [length] in Hle.
    destruct (lookup_lt_is_Some_2 requests i) as [request Hrequest]; [lia|].
    destruct (uploadPatch_healthy this requests i request patches c Hhealthy Hrequest)
      as (p & Hp & Hhydrated).
    destruct (IH (S i) (patches ++ [p])) as (new & Hnew & Hall); [lia|].
    exists (p :: new). rewrite outcome_bind, Hp, Hnew. split.
    + f_equal. f_equal; [lia | by rewrite <- app_assoc].
    + rewrite (drop_S _ _ _ Hrequest). simpl. by constructor.
Qed.

(** Whatever the collaborators answer, a patch that leaves the upload loop
    has both its contents and its files. *)
Lemma uploadPatches_hydrated this requests :
  ∀ created i patches j out,
    Forall (λ p, is_Some (DraftPatch.contents p) ∧ is_Some (DraftPatch.files p)) patches →
    outcome (forOf (uploadPatch this requests) created (i, patches)) = Fulfilled (j, out) →
    Forall (λ p, is_Some (DraftPatch.contents p) ∧ is_Some (DraftPatch.files p)) out.
Proof.
  induction created as [|c created IH]; intros i patches j out Hpatches Hrun;
    cbn [forOf] in Hrun.
  - unfold outcome in Hrun. simpl in Hrun. by simplify_eq.
  - apply bind_fulfilled in Hrun as ([i' patches'] & Hstep & Hrun).
    eapply IH; [|exact Hrun].
    unfold uploadPatch in Hstep.
    destruct (requests !! i) as [request|]; [|discriminate].
    invert_binds Hstep. unfold outcome in Hstep. simpl in Hstep. simplify_eq.
    apply Forall_app. split; [done|]. constructor; [|constructor].
    simpl. split; by eexists.
Qed.

Lemma providerLinkage_other this type options patchRequests :
  type ≠ "suggested_pr_change" →
  providerLinkage this type options patchRequests = (Fulfilled (None, None), []).
Proof.
  intros Htype. unfold providerLinkage.
  destruct (String.eqb_spec type "suggested_pr_change"); [done | reflexivity].
Qed.

(** Against collaborators that answer, the remote protocol returns a draft
    with one changeset, whose patches are the patch requests, hydrated. *)
Lemma createDraftFromPatchRequests_healthy this type title options patchRequests user
    headers body :
  Healthy.t this →
  outcome (providerLinkage this type options patchRequests) = Fulfilled (headers, body) →
  ∃ draft changeset,
    outcome (createDraftFromPatchRequests this type title options patchRequests user)
    = Fulfilled draft
    ∧ Draft.changesets draft = Some [changeset]
    ∧ Forall2 hydratedFrom (DraftChangeset.patches changeset) patchRequests.
Proof.
  intros Hhealthy Hlinkage. unfold createDraftFromPatchRequests. cbv zeta.
  rewrite outcome_bind, Hlinkage.
  match goal with
  | |- context [ServerConnection.fetchGkDevApi _ AsCreateDraftResponse ?request] =>
      destruct (Healthy.createDraftOk _ Hhealthy request)
        as (rsp1 & payload1 & data1 & Hrsp1 & Hok1 & Hjson1 & Hdata1)
  end.
  cbn [dataOf] in *.
  rewrite (outcome_await_bind _ _ _ _ Hrsp1), (outcome_checkOk_bind _ _ _ Hok1),
    (outcome_readData_bind _ _ _ Hjson1), Hdata1, outcome_defined_bind.
  match goal with
  | |- context [ServerConnection.fetchGkDevApi _ AsDraftChangesetCreateResponse ?request] =>
      destruct (Healthy.createChangesetOk _ Hhealthy request)
        as (rsp2 & payload2 & data2 & Hrsp2 & Hok2 & Hjson2 & Hdata2 & Hcount);
      specialize (Hcount _ _ _ eq_refl)
  end.
  cbn [dataOf] in *. rewrite length_map in Hcount.
  rewrite (outcome_await_bind _ _ _ _ Hrsp2), (outcome_checkOk_bind _ _ _ Hok2),
    (outcome_readData_bind _ _ _ Hjson2), Hdata2, outcome_defined_bind.
  destruct (uploadPatches_healthy this patchRequests Hhealthy
              (DraftChangesetCreateResponse.patches data2) 0 [])
    as (patches & Hpatches & Hhydrated); [simpl; lia|].
  rewrite Hcount, drop_0, firstn_all in Hhydrated. simpl in Hpatches.
  rewrite outcome_bind, Hpatches.
  match goal with
  | |- context [ServerConnection.fetchGkDevApi _ AsNothing ?request] =>
      destruct (Healthy.publishOk _ Hhealthy request) as (rsp3 & Hrsp3 & Hok3)
  end.
  cbn [dataOf] in *.
  rewrite (outcome_await_bind _ _ _ _ Hrsp3), (outcome_checkOk_bind _ _ _ Hok3).
  match goal with
  | |- context [ServerConnection.fetchGkDevApi _ AsDraftResponse ?request] =>
      destruct (Healthy.getDraftOk _ Hhealthy request)
        as (rsp4 & payload4 & data4 & Hrsp4 & Hok4 & Hjson4 & Hdata4)
  end.
  cbn [dataOf] in *.
  rewrite (outcome_await_bind _ _ _ _ Hrsp4), (outcome_checkOk_bind _ _ _ Hok4),
    (outcome_readData_bind _ _ _ Hjson4), Hdata4.
  destruct (Healthy.subscriptionSettles _ Hhealthy) as [subscription Hsubscription].
  rewrite (outcome_await_bind _ _ _ _ Hsubscription), outcome_defined_bind.
  eexists. eexists. split; [reflexivity|]. split; [reflexivity|]. exact Hhydrated.
Qed.

Lemma truthy_nonempty s : truthy s = true → s ≠ "".
Proof. by destruct s. Qed.

(** The patch requests that pass the loop are those of the changes that
    resolve to a diff that is not empty, in the order of the changes. *)
Lemma patchRequests_changes this changes :
  Forall2 (λ r change,
             outcome (getCreateDraftPatchRequestFromChange this change) = Fulfilled r
             ∧ nonEmpty r = true)
    (filter nonEmpty
       (fulfilments (map outcome (map (getCreateDraftPatchRequestFromChange this) changes))))
    (filter (λ change, resolvesNonEmpty this change) changes).
Proof.
  unfold fulfilments. induction changes as [|change changes IH]; simpl; [constructor|].
  rewrite (filter_cons _ change).
  destruct (decide (resolvesNonEmpty this change)) as [Hyes|Hno].
  - unfold resolvesNonEmpty in Hyes.
    destruct (outcome (getCreateDraftPatchRequestFromChange this change)) as [r|e] eqn:Hout;
      [|done].
    simpl. rewrite filter_cons, decide_True by done.
    constructor; [|exact IH]. split; [done | by apply Is_true_eq_true].
  - unfold resolvesNonEmpty in Hno.
    destruct (outcome (getCreateDraftPatchRequestFromChange this change)) as [r|e] eqn:Hout;
      simpl; [|exact IH].
    rewrite filter_cons, decide_False by done. exact IH.
Qed.

Lemma Sample_healthy : Healthy.t Sample.service.
Proof.
  constructor.
  - intros request. do 3 eexists. repeat split; reflexivity.
  - intros request. do 3 eexists. split; [reflexivity|]. repeat split; try reflexivity.
    intros name email patches Hbody. simpl.
    unfold Sample.requestedPatches. rewrite Hbody. apply length_map.
  - intros request. eexists. split; reflexivity.
  - intros request. do 3 eexists. repeat split; reflexivity.
  - intros request. eexists. reflexivity.
  - intros path contents. eexists. reflexivity.
  - eexists. reflexivity.
Qed.

(** C1. For a non-empty list of changes whose patch requests all resolve,
    against collaborators that answer (the server creates the draft, lists
    one patch per requested patch in the changeset it creates, publishes and
    returns the draft; git and the blob storage settle) and a provider
    linkage that succeeds where the draft type needs one, [createDraft]
    returns a draft with exactly one changeset, whose patches are, one for
    one and in the order of the changes, those of the changes that resolved
    to a diff that is not empty: each patch carries that diff, which is not
    empty, and the repository of its change. *)
Theorem createDraft_patches this type title changes options headers body :
  let results := map outcome (map (getCreateDraftPatchRequestFromChange this) changes) in
  changes ≠ [] →
  Forall (λ change,
            isRejected (outcome (getCreateDraftPatchRequestFromChange this change)) = false)
    changes →
  Healthy.t this →
  outcome (providerLinkage this type options (filter nonEmpty (fulfilments results)))
    = Fulfilled (headers, body) →
  ∃ draft changeset,
    outcome (createDraft this type title changes options) = Fulfilled draft
    ∧ Draft.changesets draft = Some [changeset]
    ∧ Forall2 (patchOfChange this) (DraftChangeset.patches changeset)
        (filter (λ change, resolvesNonEmpty this change) changes).
Proof.
  intros results Hsome Hvalid Hhealthy Hlinkage.
  destruct (createDraftFromPatchRequests_healthy this type title options
              (filter nonEmpty (fulfilments results))
              (Collected.user (collectResults results)) headers body Hhealthy Hlinkage)
    as (draft & changeset & Hdraft & Hchangesets & Hpatches).
  exists draft, changeset. split; [|split; [exact Hchangesets|]].
  - rewrite createDraft_unfold. fold results.
    assert (rejections results = []) as ->.
    { apply rejections_nil. subst results. by rewrite !Forall_map. }
    destruct changes as [|change changes]; [done | exact Hdraft].
  - eapply Forall2_trans; [|exact Hpatches | apply patchRequests_changes].
    intros p r change (Hcontents & Hrepository & _) (Hr & Hnonempty).
    exists r. split; [exact Hr|]. split; [exact Hcontents|].
    split; [by apply truthy_nonempty|].
    by rewrite Hrepository, (getCreateDraftPatchRequestFromChange_repository _ _ _ Hr).
Qed.

Lemma createDraft_patches_witness :
  ∃ draft changeset,
    outcome (createDraft Sample.service "patch" "Fixes"
               [Sample.change "b" "a"; Sample.change "c" "c"; Sample.change "d" "b"] None)
    = Fulfilled draft
    ∧ Draft.changesets draft = Some [changeset]
    ∧ Forall2 (patchOfChange Sample.service) (DraftChangeset.patches changeset)
        [Sample.change "b" "a"; Sample.change "d" "b"].
Proof.
  apply (createDraft_patches Sample.service "patch" "Fixes"
           [Sample.change "b" "a"; Sample.change "c" "c"; Sample.change "d" "b"] None
           None None).
  - discriminate.
  - repeat constructor.
  - exact Sample_healthy.
  - reflexivity.
Defined.

(** ** createDraft: when every diff is empty *)

Lemma collectResult_empty acc value :
  CreateDraftPatchRequestFromChange.contents value = "" →
  collectResult acc (Fulfilled value) = acc.
Proof. intros Hempty. unfold collectResult. by rewrite Hempty. Qed.

Lemma collectResults_all_empty this changes acc :
  Forall (λ change,
            ∃ r, outcome (getCreateDraftPatchRequestFromChange this change) = Fulfilled r
                 ∧ CreateDraftPatchRequestFromChange.contents r = "")
    changes →
  fold_left collectResult
    (map outcome (map (getCreateDraftPatchRequestFromChange this) changes)) acc
  = acc.
Proof.
  induction 1 as [|change changes (r & Hr & Hempty) _ IH]; simpl; [done|].
  by rewrite Hr, (collectResult_empty _ _ Hempty).
Qed.

(** C2. The guard "No changes found" of [createDraft] tests the settled
    results, one per change, before the loop drops the empty diffs, and
    nothing tests the patch requests after it: the guard fires for an empty
    list of changes only.  For a list of changes that is not empty and whose
    diffs are all empty, [createDraft] builds every patch request and then
    goes on without any: what it returns and what it sends are what the rest
    of the operation does with no patch request and no git user.  For a type
    other than [suggested_pr_change] its first request creates the draft,
    and against collaborators that answer it returns a published draft
    whose changeset has no patch; for [suggested_pr_change] with a pull
    request it fails with a [TypeError] on the repository of the first patch
    request, which is missing. *)
Theorem createDraft_all_diffs_empty this type title changes options :
  let run := createDraft this type title changes options in
  let rest := createDraftFromPatchRequests this type title options [] None in
  let sent := filter (λ e, isRemoteCall e) (calls run) in
  let create := {| Request.path := "v1/drafts";
                   Request.method := "POST";
                   Request.body :=
                     Some (Body_createDraft type title
                             (opt options CreateDraftOptions.description)
                             (default "public" (opt options CreateDraftOptions.visibility)));
                   Request.headers := None;
                   Request.query := None |} in
  changes ≠ [] →
  Forall (λ change,
            ∃ r, outcome (getCreateDraftPatchRequestFromChange this change) = Fulfilled r
                 ∧ CreateDraftPatchRequestFromChange.contents r = "")
    changes →
  createDraft this type title [] options = (Rejected (Error "No changes found"), [])
  ∧ run
    = (outcome rest,
       concat (map calls (map (getCreateDraftPatchRequestFromChange this) changes))
         ++ calls rest)
  ∧ (type ≠ "suggested_pr_change" →
     head sent = Some (FetchGkDevApi create)
     ∧ (Healthy.t this →
        ∃ draft changeset,
          outcome run = Fulfilled draft
          ∧ Draft.changesets draft = Some [changeset]
          ∧ DraftChangeset.patches changeset = []))
  ∧ (type = "suggested_pr_change" →
     is_Some (opt options CreateDraftOptions.prEntityId) →
     outcome run
       = Rejected (TypeError "Cannot read properties of undefined (reading 'repository')")
     ∧ sent = []).
Proof.
  intros run rest sent create Hsome Hempty.
  split; [reflexivity|].
  assert (run
          = (outcome rest,
             concat (map calls (map (getCreateDraftPatchRequestFromChange this) changes))
               ++ calls rest)) as Hrun.
  { subst run rest. unfold createDraft. rewrite bind_allSettled.
    unfold collectResults. rewrite (collectResults_all_empty _ _ _ Hempty).
    cbn [Collected.patchRequests Collected.failed Collected.user length].
    rewrite !length_map.
    destruct changes as [|change changes]; [done | reflexivity]. }
  split; [exact Hrun|].
  assert (sent = filter (λ e, isRemoteCall e) (calls rest)) as Hsent.
  { subst sent. rewrite Hrun. cbn [calls snd]. rewrite filter_app.
    by rewrite (localCalls_filter _ (attempts_local this changes)). }
  split.
  - intros Htype. split.
    + rewrite Hsent. subst rest. unfold createDraftFromPatchRequests. cbv zeta.
      rewrite (providerLinkage_other _ _ _ _ Htype), bind_unfold.
      cbn [outcome calls fst snd app]. rewrite calls_bind. cbn [calls await snd app].
      rewrite filter_cons, decide_True; [reflexivity | exact I].
    + intros Hhealthy.
      destruct (createDraftFromPatchRequests_healthy this type title options [] None
                  None None Hhealthy) as (draft & changeset & Hdraft & Hchangesets & Hpatches).
      { by rewrite (providerLinkage_other _ _ _ _ Htype). }
      exists draft, changeset. rewrite Hrun. split; [exact Hdraft|].
      split; [exact Hchangesets|]. by apply Forall2_nil_inv_r in Hpatches.
  - intros -> [prEntityId Hpr].
    assert (rest = (Rejected (TypeError
                      "Cannot read properties of undefined (reading 'repository')"), []))
      as Hrest.
    { subst rest. unfold createDraftFromPatchRequests, providerLinkage. cbv zeta.
      rewrite String.eqb_refl, Hpr. reflexivity. }
    rewrite Hsent, Hrun, Hrest. split; reflexivity.
Qed.

Lemma createDraft_all_diffs_empty_witness :
  (∃ draft changeset,
     outcome (createDraft Sample.service "patch" "Fixes" [Sample.change "b" "b"] None)
     = Fulfilled draft
     ∧ Draft.changesets draft = Some [changeset]
     ∧ DraftChangeset.patches changeset = [])
  ∧ head (filter (λ e, isRemoteCall e)
            (calls (createDraft Sample.service "patch" "Fixes" [Sample.change "b" "b"] None)))
    = Some (FetchGkDevApi
              (Request.mk "v1/drafts" "POST"
                 (Some (Body_createDraft "patch" "Fixes" None "public")) None None))
  ∧ outcome (createDraft Sample.service "suggested_pr_change" "Fixes"
               [Sample.change "b" "b"; Sample.change "c" "c"]
               (Some {| CreateDraftOptions.description := None;
                        CreateDraftOptions.visibility := None;
                        CreateDraftOptions.prEntityId := Some "pr" |}))
    = Rejected (TypeError "Cannot read properties of undefined (reading 'repository')").
Proof.
  destruct (createDraft_all_diffs_empty Sample.service "patch" "Fixes"
              [Sample.change "b" "b"] None) as (_ & _ & Hpatch & _).
  { discriminate. }
  { repeat constructor. eexists. split; [vm_compute; reflexivity | reflexivity]. }
  destruct (Hpatch ltac:(discriminate)) as [Hfirst Hdraft].
  split; [exact (Hdraft Sample_healthy)|]. split; [exact Hfirst|].
  destruct (createDraft_all_diffs_empty Sample.service "suggested_pr_change" "Fixes"
              [Sample.change "b" "b"; Sample.change "c" "c"]
              (Some {| CreateDraftOptions.description := None;
                       CreateDraftOptions.visibility := None;
                       CreateDraftOptions.prEntityId := Some "pr" |}))
    as (_ & _ & _ & Hsuggestion).
  { discriminate. }
  { repeat constructor; eexists; (split; [vm_compute; reflexivity | reflexivity]). }
  exact (proj1 (Hsuggestion eq_refl (ex_intro _ "pr" eq_refl))).
Defined.

(** ** Hydration: which patches carry contents and files *)

Ltac invert_run H :=
  repeat first
    [ apply bind_fulfilled in H as (? & ? & H)
    | match type of H with
      | context [let '(_, _) := ?x in _] => destruct x
      end ].

Lemma forOf_formatChangeset data changesets :
  forOf (λ changesets c, mret (changesets ++ [formatChangeset c])) data changesets
  = (Fulfilled (changesets ++ map formatChangeset data), []).
Proof.
  revert changesets. induction data as [|c data IH]; intros changesets; cbn [forOf map].
  - by rewrite app_nil_r.
  - rewrite bind_unfold. unfold mret at 1, Async_ret. rewrite IH.
    unfold outcome, calls. simpl. by rewrite <- app_assoc.
Qed.

Lemma getChangesets_unhydrated this id changesets :
  outcome (getChangesets this id) = Fulfilled changesets →
  Forall (λ changeset,
            Forall (λ p, DraftPatch.contents p = None ∧ DraftPatch.files p = None)
              (DraftChangeset.patches changeset))
    changesets.
Proof.
  unfold getChangesets. intros Hrun. invert_run Hrun.
  rewrite forOf_formatChangeset in Hrun. unfold outcome in Hrun. simpl in Hrun.
  simplify_eq. apply Forall_map, Forall_forall. intros c _. simpl.
  apply Forall_map, Forall_forall. by intros p _.
Qed.

Lemma createDraft_hydrated this type title changes options draft changesets :
  outcome (createDraft this type title changes options) = Fulfilled draft →
  Draft.changesets draft = Some changesets →
  Forall (λ changeset,
            Forall (λ p, is_Some (DraftPatch.contents p) ∧ is_Some (DraftPatch.files p))
              (DraftChangeset.patches changeset))
    changesets.
Proof.
  rewrite createDraft_unfold. cbv zeta.
  destruct changes as [|change changes]; [discriminate|].
  destruct (rejections _) as [|reason reasons]; [|discriminate].
  unfold outcome at 1. cbn [fst]. unfold createDraftFromPatchRequests. cbv zeta.
  intros Hrun Hchangesets. invert_run Hrun.
  unfold outcome in Hrun. simpl in Hrun. simplify_eq. simpl in Hchangesets. simplify_eq.
  constructor; [|constructor]. simpl.
  match goal with
  | H : outcome (forOf _ _ _) = Fulfilled _ |- _ =>
      exact (uploadPatches_hydrated _ _ _ _ _ _ _ (Forall_nil_2 _) H)
  end.
Qed.

Lemma getPatchDetails_contents this idOrPatch details :
  outcome (getPatchDetails this idOrPatch) = Fulfilled details →
  ∃ patch,
    match idOrPatch with
    | inl id => outcome (getPatchCore this id) = Fulfilled patch
    | inr p => patch = p
    end
    ∧ DraftPatchDetails.contents details
      = getSettledValue (outcome (getPatchContentsCore this (DraftPatch.secureLink patch))).
Proof.
  unfold getPatchDetails. intros Hrun.
  apply bind_fulfilled in Hrun as (patch & Hpatch & Hrun).
  exists patch. split.
  - destruct idOrPatch as [id|p]; [exact Hpatch|].
    unfold outcome in Hpatch. simpl in Hpatch. by simplify_eq.
  - invert_run Hrun. unfold outcome in *. simpl in *. by simplify_eq.
Qed.

(** A download that succeeds yields the text of the blob. *)
Lemma getPatchContentsCore_text this link contents :
  outcome (getPatchContentsCore this link) = Fulfilled contents → is_Some contents.
Proof.
  unfold getPatchContentsCore. intros Hrun. invert_run Hrun.
  unfold outcome in Hrun. simpl in Hrun. simplify_eq. by eexists.
Qed.

(** The hydration fields, path by path.  A patch normalized without
    hydration options, and so every patch of [getChangesets], has neither
    contents nor files;
    every patch of a draft returned by [createDraft] has both; the details
    of [getPatchDetails] and the patch of [getPatch] always have their files,
    and have their contents exactly when the download of the contents
    succeeded -- so the two fields agree whenever the download succeeds. *)
Theorem hydration_fields this :
  (∀ patchResponse,
     DraftPatch.contents (formatPatch patchResponse None) = None
     ∧ DraftPatch.files (formatPatch patchResponse None) = None)
  ∧ (∀ id changesets,
       outcome (getChangesets this id) = Fulfilled changesets →
       Forall (λ changeset,
                 Forall (λ p, DraftPatch.contents p = None ∧ DraftPatch.files p = None)
                   (DraftChangeset.patches changeset))
         changesets)
  ∧ (∀ type title changes options draft changesets,
       outcome (createDraft this type title changes options) = Fulfilled draft →
       Draft.changesets draft = Some changesets →
       Forall (λ changeset,
                 Forall (λ p, is_Some (DraftPatch.contents p) ∧ is_Some (DraftPatch.files p))
                   (DraftChangeset.patches changeset))
         changesets)
  ∧ (∀ patch details,
       outcome (getPatchDetails this (inr patch)) = Fulfilled details →
       DraftPatchDetails.contents details
       = getSettledValue (outcome (getPatchContentsCore this (DraftPatch.secureLink patch))))
  ∧ (∀ id patch,
       outcome (getPatch this id) = Fulfilled patch →
       let download := outcome (getPatchContentsCore this (DraftPatch.secureLink patch)) in
       is_Some (DraftPatch.files patch)
       ∧ DraftPatch.contents patch = getSettledValue download
       ∧ (hydrationConsistent patch ↔ isRejected download = false)).
Proof.
  split; [done|]. split; [apply getChangesets_unhydrated|].
  split; [apply createDraft_hydrated|]. split.
  - intros patch details Hrun.
    destruct (getPatchDetails_contents _ _ _ Hrun) as (p & -> & Hcontents). exact Hcontents.
  - intros id patch Hrun download. unfold getPatch in Hrun.
    apply bind_fulfilled in Hrun as (core & _ & Hrun).
    apply bind_fulfilled in Hrun as (details & Hdetails & Hrun).
    destruct (getPatchDetails_contents _ _ _ Hdetails) as (p & Hp & Hcontents). subst p.
    unfold outcome in Hrun. simpl in Hrun. simplify_eq.
    subst download. simpl. rewrite Hcontents.
    split; [by eexists|]. split; [reflexivity|].
    unfold hydrationConsistent. simpl. rewrite Hcontents.
    pose proof (getPatchContentsCore_text this (DraftPatch.secureLink core)) as Htext.
    destruct (outcome (getPatchContentsCore this (DraftPatch.secureLink core)))
      as [contents|e]; simpl.
    + destruct (Htext contents eq_refl) as [text ->].
      split; [done|]. intros _. split; intros _; by eexists.
    + split; [|done]. intros [_ Hfiles]. destruct Hfiles as [? ?]; [by eexists | discriminate].
Qed.

Lemma hydration_fields_witness :
  ∃ draft changeset,
    outcome (createDraft Sample.service "patch" "Fixes" [Sample.change "b" "a"] None)
    = Fulfilled draft
    ∧ Draft.changesets draft = Some [changeset]
    ∧ Forall (λ p, is_Some (DraftPatch.contents p) ∧ is_Some (DraftPatch.files p))
        (DraftChangeset.patches changeset).
Proof.
  destruct (hydration_fields Sample.service) as (_ & _ & Hcreated & _).
  eexists. eexists. split; [vm_compute; reflexivity|]. split; [reflexivity|].
  eapply (Forall_inv (Hcreated "patch" "Fixes" [Sample.change "b" "a"] None _ _ eq_refl eq_refl)).
Defined.

(** ** Hydration when the download of the contents fails *)

(** C7. [getPatchDetails] reads the download of the contents out of
    [Promise.allSettled] with a non-null assertion ([getSettledValue(...)!],
    line 562) and never tests it, where the upload loop of [createDraft]
    throws on contents that are missing.  So when the download of a patch's
    contents fails, [getPatch] asks git for the files of contents that are
    [undefined], and every patch it returns then has its [files] but no
    [contents]: the hydration fields disagree. *)
Theorem getPatch_download_fails this id patch e :
  outcome (getPatch this id) = Fulfilled patch →
  outcome (getPatchContentsCore this (DraftPatch.secureLink patch)) = Rejected e →
  DraftPatch.contents patch = None
  ∧ is_Some (DraftPatch.files patch)
  ∧ ¬ hydrationConsistent patch
  ∧ ∃ path, Git_getDiffFiles path None ∈ calls (getPatch this id).
Proof.
  intros Hrun Hdownload. unfold getPatch in *.
  destruct (getPatchCore this id) as [[core|e'] w] eqn:Hcore; [|discriminate].
  rewrite bind_unfold in *. cbn [outcome calls fst snd] in *.
  apply bind_fulfilled in Hrun as (details & Hdetails & Hrun).
  unfold outcome in Hrun. simpl in Hrun. simplify_eq.
  change (DraftPatch.secureLink (DraftPatch_hydrate core details))
    with (DraftPatch.secureLink core) in Hdownload.
  change (DraftPatch.contents (DraftPatch_hydrate core details))
    with (DraftPatchDetails.contents details).
  destruct (getPatchDetails_contents _ _ _ Hdetails) as (p & <- & Hcontents).
  rewrite Hdownload in Hcontents. cbn in Hcontents.
  split; [exact Hcontents|]. split; [by eexists|]. split.
  - unfold hydrationConsistent. cbn [DraftPatch.contents DraftPatch.files DraftPatch_hydrate].
    rewrite Hcontents. intros [_ Hfiles].
    destruct Hfiles as [? ?]; [by eexists | discriminate].
  - rewrite calls_bind. unfold getPatchDetails. rewrite ret_bind.
    rewrite !calls_bind. cbn [settle outcome calls fst snd await].
    unfold outcome in Hdownload. rewrite Hdownload. cbn [getSettledValue].
    rewrite calls_bind. cbn [settle outcome calls fst snd await].
    rewrite calls_bind. cbn [calls await snd].
    eexists. rewrite !elem_of_app. right. left. right. right. left.
    apply list_elem_of_here.
Qed.

Lemma getPatch_download_fails_witness :
  ∃ patch,
    outcome (getPatch Sample.serviceOfflineStorage "patch-1") = Fulfilled patch
    ∧ DraftPatch.contents patch = None
    ∧ is_Some (DraftPatch.files patch)
    ∧ ¬ hydrationConsistent patch.
Proof.
  destruct (outcome (getPatch Sample.serviceOfflineStorage "patch-1")) as [patch|e] eqn:Hrun;
    [|vm_compute in Hrun; discriminate].
  assert (outcome (getPatchContentsCore Sample.serviceOfflineStorage
                     (DraftPatch.secureLink patch)) = Rejected (Error "fetch failed"))
    as Hdownload.
  { vm_compute in Hrun. injection Hrun as <-. reflexivity. }
  destruct (getPatch_download_fails Sample.serviceOfflineStorage "patch-1" patch
              (Error "fetch failed") Hrun Hdownload) as (Hcontents & Hfiles & Hdisagree & _).
  exists patch. split; [reflexivity|]. split; [exact Hcontents|].
  split; [exact Hfiles | exact Hdisagree].
Defined.

(** * Further properties of the two files *)

(** ** Icons of issues and pull requests *)



(** X2. The icon of a pull request is decided by its [state] alone and the
    icon of an issue by its [closed] flag alone: two values of the same type
    that agree on that one property get the same HTML, Markdown and theme
    icons, whatever their other properties (a pull request marked [closed]
    whose state is [opened] still shows as open). *)
Theorem icons_depend_on (kind : ColorThemeKind) (a b : IssueOrPullRequest.t) :
  IssueOrPullRequest.type a = IssueOrPullRequest.type b →
  (IssueOrPullRequest.type a = Type_pullrequest →
   IssueOrPullRequest.state a = IssueOrPullRequest.state b) →
  (IssueOrPullRequest.type a = Type_issue →
   IssueOrPullRequest.closed a = IssueOrPullRequest.closed b) →
  getIssueOrPullRequestHtmlIcon kind (Some a) = getIssueOrPullRequestHtmlIcon kind (Some b)
  ∧ getIssueOrPullRequestMarkdownIcon kind (Some a)
    = getIssueOrPullRequestMarkdownIcon kind (Some b)
  ∧ getIssueOrPullRequestThemeIcon (Some a) = getIssueOrPullRequestThemeIcon (Some b).
Proof.
  intros Htype Hstate Hclosed.
  unfold getIssueOrPullRequestHtmlIcon, getIssueOrPullRequestMarkdownIcon,
    getIssueOrPullRequestThemeIcon.
  rewrite <- Htype. destruct (IssueOrPullRequest.type a).
  - by rewrite <- (Hclosed eq_refl).
  - by rewrite <- (Hstate eq_refl).
Qed.

Lemma icons_depend_on_witness :
  getIssueOrPullRequestThemeIcon
    (Some (IssueShape_base (Sample.issue "github")))
  = getIssueOrPullRequestThemeIcon
      (Some (serializeIssueOrPullRequest (IssueShape_base (Sample.issue "gitlab")))).
Proof.
  apply (icons_depend_on Light
           (IssueShape_base (Sample.issue "github"))
           (serializeIssueOrPullRequest (IssueShape_base (Sample.issue "gitlab"))));
    [reflexivity | discriminate | reflexivity].
Defined.

(** ** What the serializers leave out, and how they compose *)

(** X3. [serializeIssueOrPullRequest] never carries [commentsCount] or
    [thumbsUpCount] over, although [IssueOrPullRequest] declares them;
    [serializeIssue] keeps both counts as they are, and never carries the
    [accessLevel] of the repository over.  [serializeIssue] keeps whether
    [repository] and [labels] are present, and keeps the assignees and the
    labels themselves: their number, their order and each of them.
    Serializing an issue and then its issue-or-pull-request part is the same
    as serializing that part directly. *)
Theorem serializers_leave_out (v : IssueShape.t) (w : IssueOrPullRequest.t) :
  IssueOrPullRequest.commentsCount (serializeIssueOrPullRequest w) = None
  ∧ IssueOrPullRequest.thumbsUpCount (serializeIssueOrPullRequest w) = None
  ∧ IssueShape.commentsCount (serializeIssue v) = IssueShape.commentsCount v
  ∧ IssueShape.thumbsUpCount (serializeIssue v) = IssueShape.thumbsUpCount v
  ∧ IssueShape.repository (serializeIssue v) ≫= IssueRepository.accessLevel = None
  ∧ (is_Some (IssueShape.repository (serializeIssue v)) ↔ is_Some (IssueShape.repository v))
  ∧ (is_Some (IssueShape.labels (serializeIssue v)) ↔ is_Some (IssueShape.labels v))
  ∧ IssueShape.labels (serializeIssue v) = IssueShape.labels v
  ∧ IssueShape.assignees (serializeIssue v) = IssueShape.assignees v
  ∧ IssueMember.id <$> IssueShape.assignees (serializeIssue v)
    = IssueMember.id <$> IssueShape.assignees v
  ∧ serializeIssueOrPullRequest (IssueShape_base (serializeIssue v))
    = serializeIssueOrPullRequest (IssueShape_base v).
Proof.
  split; [done|]. split; [done|]. split; [done|]. split; [done|].
  destruct v as [? ? ? ? ? ? ? ? ? ? ? ? ? ? assignees repository labels ?]; simpl.
  split; [by destruct repository|].
  split; [destruct repository; split; intros [? ?]; by eexists|].
  split; [destruct labels; split; intros [? ?]; by eexists|].
  split; [destruct labels; [by rewrite map_serializeLabel | done]|].
  split; [apply map_serializeMember|].
  split; [by rewrite map_serializeMember|].
  unfold serializeIssueOrPullRequest, IssueShape_base, serializeIssue. simpl.
  by rewrite !serializeProvider_id.
Qed.

(** ** More on normalization *)

(** X4. A normalized draft never has an empty role, whatever the payload and
    the options. *)
Theorem formatDraft_role_not_empty (d : DraftResponse.t) (o : option FormatDraftOptions.t) :
  Draft.role (formatDraft d o) ≠ "".
Proof.
  unfold formatDraft. destruct (createdByAccount d o); simpl;
    (destruct (String.eqb_spec (DraftResponse.role d) "") as [Hrole|Hrole];
     [by case_bool_decide | done]).
Qed.

(** X5. Ownership in [formatDraft]: the draft is mine exactly when the
    options carry an account whose id is the payload's [createdBy]; then the
    author's name is the account's name followed by [" (you)"] and the
    author's email is the account's; otherwise the author's name is the
    fallback name of the options (absent if there is none) and there is no
    email.  The author's id is [createdBy] in both cases. *)
Theorem formatDraft_ownership (d : DraftResponse.t) (o : option FormatDraftOptions.t) :
  let draft := formatDraft d o in
  DraftAuthor.id (Draft.author draft) = DraftResponse.createdBy d
  ∧ (Draft.isMine draft = true ↔
     ∃ account, opt o FormatDraftOptions.account = Some account
                ∧ DraftResponse.createdBy d = SubscriptionAccount.id account)
  ∧ (∀ account,
       opt o FormatDraftOptions.account = Some account →
       DraftResponse.createdBy d = SubscriptionAccount.id account →
       DraftAuthor.name (Draft.author draft)
       = Some (SubscriptionAccount.name account +:+ " (you)")
       ∧ DraftAuthor.email (Draft.author draft) = SubscriptionAccount.email account)
  ∧ (Draft.isMine draft = false →
     DraftAuthor.name (Draft.author draft) = opt o FormatDraftOptions.fallbackAuthorName
     ∧ DraftAuthor.email (Draft.author draft) = None).
Proof.
  unfold formatDraft, createdByAccount.
  destruct (opt o FormatDraftOptions.account) as [account|]; simpl.
  - destruct (String.eqb_spec (DraftResponse.createdBy d) (SubscriptionAccount.id account))
      as [Hid|Hid]; simpl.
    + split; [done|]. split; [split; [eauto | done]|].
      split; [by intros ? [= <-] _ | done].
    + split; [done|]. split; [split; [done | by intros (? & [= <-] & ?)]|].
      split; [by intros ? [= <-] ? | done].
  - split; [done|]. split; [split; [done | by intros (? & ? & ?)]|]. split; done.
Qed.

Lemma formatDraft_ownership_witness :
  DraftAuthor.name
    (Draft.author
       (formatDraft Sample.draftResponse
          (Some {| FormatDraftOptions.account :=
                     Some {| SubscriptionAccount.id := "user-1";
                             SubscriptionAccount.name := "Ada";
                             SubscriptionAccount.email := Some "ada@example.com" |};
                   FormatDraftOptions.fallbackAuthorName := Some "Unknown";
                   FormatDraftOptions.fromPrEntityId := None |})))
  = Some "Ada (you)"
  ∧ DraftAuthor.name (Draft.author (formatDraft Sample.ownerDraftResponse None)) = None.
Proof.
  split.
  - destruct (formatDraft_ownership Sample.draftResponse
                (Some {| FormatDraftOptions.account :=
                           Some {| SubscriptionAccount.id := "user-1";
                                   SubscriptionAccount.name := "Ada";
                                   SubscriptionAccount.email := Some "ada@example.com" |};
                         FormatDraftOptions.fallbackAuthorName := Some "Unknown";
                         FormatDraftOptions.fromPrEntityId := None |}))
      as (_ & _ & Hmine & _).
    apply (Hmine _ eq_refl eq_refl).
  - destruct (formatDraft_ownership Sample.ownerDraftResponse None) as (_ & _ & _ & Hother).
    apply Hother. reflexivity.
Defined.

(** X6. [formatChangeset] keeps the patches of the payload, one for one and
    in order: each patch keeps its id, its base revision ([baseRef] is the
    payload's [baseCommitSha]), its repository id and its download link, and
    is not hydrated: it has no contents, no files, no repository and no
    commit.  [updatedAt] of the changeset and of each patch falls back to
    [createdAt] when the payload omits it, and is parsed from the payload
    otherwise. *)
Theorem formatChangeset_patches (c : DraftChangesetResponse.t) :
  let changeset := formatChangeset c in
  DraftChangeset.updatedAt changeset
  = new_Date (default (DraftChangesetResponse.createdAt c) (DraftChangesetResponse.updatedAt c))
  ∧ (DraftChangesetResponse.updatedAt c = None →
     DraftChangeset.updatedAt changeset = DraftChangeset.createdAt changeset)
  ∧ Forall2 (λ p w,
               DraftPatch.id p = DraftPatchResponse.id w
               ∧ DraftPatch.baseRef p = DraftPatchResponse.baseCommitSha w
               ∧ DraftPatch.gkRepositoryId p = DraftPatchResponse.gitRepositoryId w
               ∧ DraftPatch.secureLink p = DraftPatchResponse.secureDownloadData w
               ∧ DraftPatch.contents p = None
               ∧ DraftPatch.files p = None
               ∧ DraftPatch.repository p = None
               ∧ DraftPatch.commit p = None
               ∧ (DraftPatchResponse.updatedAt w = None →
                  DraftPatch.updatedAt p = DraftPatch.createdAt p)
               ∧ (∀ t, DraftPatchResponse.updatedAt w = Some t →
                       DraftPatch.updatedAt p = new_Date t))
      (DraftChangeset.patches changeset) (DraftChangesetResponse.patches c).
Proof.
  cbv zeta. split; [done|].
  split; [intros Hupdated; unfold formatChangeset; simpl; by rewrite Hupdated|].
  unfold formatChangeset. simpl.
  induction (DraftChangesetResponse.patches c) as [|w ws IH]; simpl; constructor; [|exact IH].
  repeat split; simpl; [by intros -> | by intros t ->].
Qed.

Lemma formatChangeset_patches_witness :
  DraftChangeset.updatedAt (formatChangeset Fixture.changesetResponse)
  = DraftChangeset.createdAt (formatChangeset Fixture.changesetResponse)
  ∧ ∃ first second,
      DraftChangeset.patches (formatChangeset Fixture.changesetResponse) = [first; second]
      ∧ DraftPatch.id first = "patch-1"
      ∧ DraftPatch.contents first = None
      ∧ DraftPatch.files first = None
      ∧ DraftPatch.updatedAt first = DraftPatch.createdAt first
      ∧ DraftPatch.id second = "patch-2"
      ∧ DraftPatch.baseRef second = "a"
      ∧ DraftPatch.contents second = None
      ∧ DraftPatch.files second = None
      ∧ DraftPatch.updatedAt second = new_Date "2024-03-01T00:00:00Z".
Proof.
  destruct (formatChangeset_patches Fixture.changesetResponse) as (_ & Hchangeset & Hpatches).
  split; [exact (Hchangeset eq_refl)|].
  destruct (DraftChangeset.patches (formatChangeset Fixture.changesetResponse))
    as [|first [|second [|third rest]]] eqn:Hlisted;
    try (vm_compute in Hlisted; discriminate).
  exists first, second. split; [reflexivity|].
  apply Forall2_cons_1 in Hpatches
    as [(Hid1 & _ & _ & _ & Hcontents1 & Hfiles1 & _ & _ & Hsame1 & _) Hpatches].
  apply Forall2_cons_1 in Hpatches
    as [(Hid2 & Hbase2 & _ & _ & Hcontents2 & Hfiles2 & _ & _ & _ & Hparsed2) _].
  split; [exact Hid1|]. split; [exact Hcontents1|]. split; [exact Hfiles1|].
  split; [exact (Hsame1 eq_refl)|]. split; [exact Hid2|]. split; [exact Hbase2|].
  split; [exact Hcontents2|]. split; [exact Hfiles2|]. exact (Hparsed2 _ eq_refl).
Defined.

(** ** The message of a remote failure *)

(** X7. [handleBadDraftResponse] always throws an [Error], after reading the
    body of the response at most once.  With a response, the message is the
    operation's message, the status in parentheses and a detail: the body's
    [error] if it is a string, else the [message] of the body's [error]
    object, else -- also when the body cannot be decoded -- the status text.
    Without a response, the message is the operation's message alone and
    nothing is read. *)
Theorem handleBadDraftResponse_message {A B : Type} (message : string) (rsp : Response.t A) :
  let thrown := λ detail,
    (Rejected (Error (message +:+ ": (" +:+ pretty (Response.status rsp) +:+ ") " +:+ detail)),
     [Response_json]) in
  (∀ e, Response.json rsp = Rejected e →
        @handleBadDraftResponse A B message (Some rsp) = thrown (Response.statusText rsp))
  ∧ (∀ payload error,
       Response.json rsp = Fulfilled payload →
       Payload.error payload = Some (ErrorString error) →
       @handleBadDraftResponse A B message (Some rsp) = thrown error)
  ∧ (∀ payload detail,
       Response.json rsp = Fulfilled payload →
       Payload.error payload = Some (ErrorObject (Some detail)) →
       @handleBadDraftResponse A B message (Some rsp) = thrown detail)
  ∧ (∀ payload,
       Response.json rsp = Fulfilled payload →
       Payload.error payload = None ∨ Payload.error payload = Some (ErrorObject None) →
       @handleBadDraftResponse A B message (Some rsp) = thrown (Response.statusText rsp))
  ∧ @handleBadDraftResponse A B message None = (Rejected (Error message), []).
Proof.
  cbv zeta. unfold handleBadDraftResponse, await. repeat split.
  - intros e ->. reflexivity.
  - intros payload error -> Herror. cbn. by rewrite Herror.
  - intros payload detail -> Herror. cbn. by rewrite Herror.
  - intros payload -> [Herror | Herror]; cbn; by rewrite Herror.
Qed.

Lemma handleBadDraftResponse_message_witness :
  @handleBadDraftResponse unit bool "Unable to update draft 'draft-1'" (Some Sample.notFound)
  = (Rejected (Error "Unable to update draft 'draft-1': (404) Draft not found"),
     [Response_json]).
Proof.
  destruct (@handleBadDraftResponse_message unit bool "Unable to update draft 'draft-1'"
              Sample.notFound) as (_ & _ & Hobject & _).
  apply (Hobject {| Payload.data := None;
                    Payload.error := Some (ErrorObject (Some "Draft not found")) |}
           "Draft not found" eq_refl eq_refl).
Defined.

(** ** The git user of a draft *)

Lemma collectResults_user_fold results acc :
  Collected.user (fold_left collectResult results acc)
  = match Collected.user acc with
    | Some user => Some user
    | None =>
        head (omap CreateDraftPatchRequestFromChange.user
                (filter nonEmpty (fulfilments results)))
    end.
Proof.
  revert acc. induction results as [|r results IH]; intros acc; simpl.
  - by destruct (Collected.user acc).
  - rewrite IH. unfold fulfilments. destruct r as [value|reason]; simpl; [|done].
    rewrite filter_cons.
    destruct (truthy (CreateDraftPatchRequestFromChange.contents value)) eqn:Htruthy; simpl.
    + rewrite decide_True by (unfold nonEmpty; by rewrite Htruthy). simpl.
      destruct (Collected.user acc) as [user|]; [done|].
      by destruct (CreateDraftPatchRequestFromChange.user value).
    + rewrite decide_False; [done|].
      unfold nonEmpty. intros Hempty. rewrite Htruthy in Hempty. exact Hempty.
Qed.

(** X8. The git user that [createDraft] sends with the changeset is the user
    of the first patch request, in the order of the changes, that has one
    among those kept (fulfilled, with a diff that is not empty); the user of
    a change that failed or whose diff is empty is never used. *)
Theorem collectResults_user (results : list (settled CreateDraftPatchRequestFromChange.t)) :
  Collected.user (collectResults results)
  = head (omap CreateDraftPatchRequestFromChange.user
            (filter nonEmpty (fulfilments results))).
Proof. apply (collectResults_user_fold results). Qed.

(** ** The patch request of a change *)

Lemma outcome_settle_bind {A B} (m : Async A) (f : settled A → Async B) :
  outcome (settle m ≫= f) = outcome (f (outcome m)).
Proof. by rewrite outcome_bind. Qed.

Lemma outcome_await {A} ev (r : settled A) : outcome (await ev r) = r.
Proof. reflexivity. Qed.

(** How [getCreateDraftPatchRequestFromChange] settles, in terms of what git
    answers. *)
Lemma getCreateDraftPatchRequestFromChange_outcome this change :
  let imports := DraftService.imports this in
  let git := Container.git (DraftService.container this) in
  let repository := CreateDraftChange.repository change in
  let uri := Repository.uri repository in
  let to := CreateDraftChange.revision_to change in
  let from := CreateDraftChange.revision_from change in
  let branchNames :=
    if Imports.isUncommitted imports to
    then match Git.getBranch git uri with
         | Fulfilled (Some b) => Some [GitBranch.name b]
         | _ => None
         end
    else getSettledValue1 (Git.getCommitBranches git uri [to; from]) in
  let firstSha := getSettledValue (Git.getFirstCommitSha git uri) in
  let remote := getSettledValue (Git.getBestRemoteWithProvider git uri) in
  let user := getSettledValue (Git.getCurrentUser git uri) in
  let repoData :=
    match remote with
    | None =>
        match firstSha with
        | None => Rejected (Error "No remote or initial commit found")
        | Some firstSha =>
            Fulfilled {| RepositoryIdentityRequest.initialCommitSha := Some firstSha;
                         RepositoryIdentityRequest.remote := None;
                         RepositoryIdentityRequest.provider := None |}
        end
    | Some remote =>
        Fulfilled
          {| RepositoryIdentityRequest.initialCommitSha := firstSha;
             RepositoryIdentityRequest.remote := Some {|
               RemoteDescriptor.url := Some (GitRemote.url remote);
               RemoteDescriptor.domain := Some (GitRemote.domain remote);
               RemoteDescriptor.path := Some (GitRemote.path remote) |};
             RepositoryIdentityRequest.provider :=
               match RemoteProvider.gkProviderId (GitRemote.provider remote),
                     RemoteProvider.owner (GitRemote.provider remote),
                     RemoteProvider.repoName (GitRemote.provider remote) with
               | Some id, Some owner, Some repoName =>
                   Some {| ProviderDescriptor.id := Some id;
                           ProviderDescriptor.domain := None;
                           ProviderDescriptor.repoDomain := Some owner;
                           ProviderDescriptor.repoName := Some repoName;
                           ProviderDescriptor.repoOwnerDomain := None |}
               | _, _, _ => None
               end |}
    end in
  let contents :=
    match CreateDraftChange.contents change with
    | Some contents => Fulfilled contents
    | None =>
        match getSettledValue (Git.getDiff git (Repository.path repository) to from) with
        | Some diff => Fulfilled (GitDiff.contents diff)
        | None => Rejected (Error ("Unable to diff " +:+ from +:+ " and " +:+ to))
        end
    end in
  let baseSha :=
    if Imports.isSha imports from then Fulfilled from
    else match Git.getCommit git uri from with
         | Fulfilled (Some commit) => Fulfilled (GitCommit.sha commit)
         | Fulfilled None => Fulfilled from
         | Rejected e => Rejected e
         end in
  outcome (getCreateDraftPatchRequestFromChange this change) =
  match repoData, contents, baseSha with
  | Rejected e, _, _ => Rejected e
  | Fulfilled _, Rejected e, _ => Rejected e
  | Fulfilled _, Fulfilled _, Rejected e => Rejected e
  | Fulfilled repoData, Fulfilled contents, Fulfilled baseSha =>
      Fulfilled
        {| CreateDraftPatchRequestFromChange.patch := {|
             CreateDraftPatchRequest.baseCommitSha := baseSha;
             CreateDraftPatchRequest.baseBranchName := default "HEAD" (branchNames ≫= head);
             CreateDraftPatchRequest.gitRepoData := repoData;
             CreateDraftPatchRequest.prEntityId := CreateDraftChange.prEntityId change |};
           CreateDraftPatchRequestFromChange.contents := contents;
           CreateDraftPatchRequestFromChange.repository := repository;
           CreateDraftPatchRequestFromChange.user := user |}
  end.
Proof.
  cbv zeta. unfold getCreateDraftPatchRequestFromChange. cbv zeta.
  rewrite !outcome_settle_bind, !outcome_await.
  destruct (Git.getBestRemoteWithProvider _ _) as [[remote|]|?]; simpl;
    destruct (Git.getFirstCommitSha _ _) as [[firstSha|]|?]; simpl;
    rewrite ?outcome_bind; simpl; try reflexivity;
    (destruct (CreateDraftChange.contents change) as [contents|]; simpl;
     [|destruct (Git.getDiff _ _ _ _) as [[diff|]|?]; simpl; try reflexivity];
     rewrite ?outcome_bind;
     (destruct (Imports.isSha _ _); simpl;
      [|unfold await; destruct (Git.getCommit _ _ _) as [[commit|]|?]; simpl; try reflexivity];
      (destruct (Imports.isUncommitted _ _); simpl;
       [destruct (Git.getBranch _ _) as [[b|]|?]
       |destruct (Git.getCommitBranches _ _ _) as [bs|?]]; reflexivity))).
Qed.

Ltac calls_all :=
  repeat match goal with
         | |- Forall _ (calls (mret _)) => constructor
         | |- Forall _ (calls (throw _)) => constructor
         | |- Forall _ (calls (await _ _)) => constructor; [reflexivity | constructor]
         | |- Forall _ (calls (settle _)) => change (calls (settle ?m)) with (calls m)
         | |- Forall _ (calls (_ ≫= _)) => apply Forall_calls_bind; [|intros ?]
         | |- Forall _ (calls (match ?x with _ => _ end)) => destruct x
         end.

(** X9. Building the patch request of a change can only fail in three ways:
    with "No remote or initial commit found", with "Unable to diff FROM and
    TO" (only when the caller supplied no contents), or with the failure of
    the commit lookup for a base revision that is not a full sha.  A failure
    of the branch lookup, of the first-commit lookup, of the remote lookup
    or of the user lookup never surfaces. *)
Theorem patch_request_errors this change e :
  let git := Container.git (DraftService.container this) in
  let uri := Repository.uri (CreateDraftChange.repository change) in
  let to := CreateDraftChange.revision_to change in
  let from := CreateDraftChange.revision_from change in
  outcome (getCreateDraftPatchRequestFromChange this change) = Rejected e →
  e = Error "No remote or initial commit found"
  ∨ (CreateDraftChange.contents change = None
     ∧ e = Error ("Unable to diff " +:+ from +:+ " and " +:+ to))
  ∨ (Imports.isSha (DraftService.imports this) from = false
     ∧ Git.getCommit git uri from = Rejected e).
Proof.
  cbv zeta. rewrite getCreateDraftPatchRequestFromChange_outcome. cbv zeta.
  destruct (getSettledValue (Git.getBestRemoteWithProvider _ _)) as [remote|];
    [|destruct (getSettledValue (Git.getFirstCommitSha _ _)) as [firstSha|];
      [|intros [= <-]; by left]];
    (destruct (CreateDraftChange.contents change) as [contents|];
     [|destruct (getSettledValue (Git.getDiff _ _ _ _)) as [diff|];
       [|intros [= <-]; right; left; done]];
     (destruct (Imports.isSha _ _); [discriminate|];
      destruct (Git.getCommit _ _ _) as [[commit|]|e'];
      [discriminate | discriminate | intros [= <-]; right; right; done])).
Qed.

Lemma patch_request_errors_witness :
  Error "Unable to diff broken and b" = Error "No remote or initial commit found"
  ∨ (CreateDraftChange.contents (Sample.change "b" "broken") = None
     ∧ Error "Unable to diff broken and b" = Error ("Unable to diff " +:+ "broken" +:+ " and " +:+ "b"))
  ∨ (Imports.isSha Sample.imports "broken" = false
     ∧ Git.getCommit Sample.git "file:///work/repo" "broken"
       = Rejected (Error "Unable to diff broken and b")).
Proof.
  apply (patch_request_errors Sample.service (Sample.change "b" "broken")). reflexivity.
Defined.

(** X10. When the caller supplies the contents of a change, git is never
    asked for the diff and the patch request carries the supplied contents;
    when it does not, the patch request carries the contents of the diff
    that git returned. *)
Theorem patch_request_contents this change :
  let git := Container.git (DraftService.container this) in
  let path := Repository.path (CreateDraftChange.repository change) in
  let to := CreateDraftChange.revision_to change in
  let from := CreateDraftChange.revision_from change in
  let run := getCreateDraftPatchRequestFromChange this change in
  (∀ contents,
     CreateDraftChange.contents change = Some contents →
     Forall (λ e, isGitDiff e = false) (calls run)
     ∧ ∀ r, outcome run = Fulfilled r →
            CreateDraftPatchRequestFromChange.contents r = contents)
  ∧ (CreateDraftChange.contents change = None →
     ∀ r, outcome run = Fulfilled r →
          ∃ diff, Git.getDiff git path to from = Fulfilled (Some diff)
                  ∧ CreateDraftPatchRequestFromChange.contents r = GitDiff.contents diff).
Proof.
  cbv zeta. split.
  - intros contents Hcontents. split.
    + unfold getCreateDraftPatchRequestFromChange. cbv zeta. rewrite Hcontents. calls_all.
    + intros r. rewrite getCreateDraftPatchRequestFromChange_outcome. cbv zeta.
      rewrite Hcontents. intros Hr. repeat case_match; by simplify_eq.
  - intros Hcontents r. rewrite getCreateDraftPatchRequestFromChange_outcome. cbv zeta.
    rewrite Hcontents.
    destruct (Git.getDiff _ _ _ _) as [[diff|]|?]; simpl;
      intros Hr; repeat case_match; simplify_eq; eauto.
Qed.

Lemma patch_request_contents_witness :
  ∃ r diff,
    outcome (getCreateDraftPatchRequestFromChange Sample.service (Sample.change "b" "a"))
    = Fulfilled r
    ∧ Git.getDiff Sample.git "/work/repo" "b" "a" = Fulfilled (Some diff)
    ∧ CreateDraftPatchRequestFromChange.contents r = GitDiff.contents diff.
Proof.
  destruct (outcome (getCreateDraftPatchRequestFromChange Sample.service
                       (Sample.change "b" "a"))) as [r|e] eqn:Hr;
    [|vm_compute in Hr; discriminate].
  destruct (patch_request_contents Sample.service (Sample.change "b" "a")) as [_ Hdiff].
  destruct (Hdiff eq_refl r Hr) as (diff & Hgit & Hcontents).
  exists r, diff. split; [reflexivity|]. split; [exact Hgit | exact Hcontents].
Defined.

(** X11. The base branch of a patch request.  For a change to the
    uncommitted working state it is the current branch of the repository;
    for any other change it is the first of the branches that contain both
    ends of the range.  When that lookup fails or finds nothing it is
    ["HEAD"]. *)
Theorem patch_request_branch this change r :
  let imports := DraftService.imports this in
  let git := Container.git (DraftService.container this) in
  let uri := Repository.uri (CreateDraftChange.repository change) in
  let to := CreateDraftChange.revision_to change in
  let from := CreateDraftChange.revision_from change in
  outcome (getCreateDraftPatchRequestFromChange this change) = Fulfilled r →
  let branch :=
    CreateDraftPatchRequest.baseBranchName (CreateDraftPatchRequestFromChange.patch r) in
  (Imports.isUncommitted imports to = true →
   (∀ b, Git.getBranch git uri = Fulfilled (Some b) → branch = GitBranch.name b)
   ∧ (Git.getBranch git uri = Fulfilled None ∨ (∃ e, Git.getBranch git uri = Rejected e) →
      branch = "HEAD"))
  ∧ (Imports.isUncommitted imports to = false →
     (∀ b bs, Git.getCommitBranches git uri [to; from] = Fulfilled (b :: bs) → branch = b)
     ∧ (Git.getCommitBranches git uri [to; from] = Fulfilled []
        ∨ (∃ e, Git.getCommitBranches git uri [to; from] = Rejected e) →
        branch = "HEAD")).
Proof.
  cbv zeta. rewrite getCreateDraftPatchRequestFromChange_outcome. cbv zeta.
  destruct (Git.getBranch _ _) as [[current|]|?],
    (Git.getCommitBranches _ _ _) as [[|first others]|?],
    (Imports.isUncommitted _ _);
    intros Hr; repeat case_match; simplify_eq/=;
    (split; intros Hwip; [try discriminate Hwip | try discriminate Hwip]);
    (split; [intros; by simplify_eq | intros [? | [? ?]]; by simplify_eq]).
Qed.

Lemma patch_request_branch_witness :
  ∃ r,
    outcome (getCreateDraftPatchRequestFromChange Sample.service (Sample.change "b" "a"))
    = Fulfilled r
    ∧ CreateDraftPatchRequest.baseBranchName (CreateDraftPatchRequestFromChange.patch r)
      = "main".
Proof.
  destruct (outcome (getCreateDraftPatchRequestFromChange Sample.service
                       (Sample.change "b" "a"))) as [r|e] eqn:Hr;
    [|vm_compute in Hr; discriminate].
  exists r. split; [reflexivity|].
  destruct (patch_request_branch Sample.service (Sample.change "b" "a") r Hr)
    as [_ Hcommitted].
  destruct (Hcommitted eq_refl) as [Hfirst _].
  apply (Hfirst "main" [] eq_refl).
Defined.

(** X12. The base revision of a patch request.  A base revision that is a
    full sha is kept as it is and no commit is looked up; any other is
    replaced by the sha of the commit it names, and kept as it is when no
    such commit is found. *)
Theorem patch_request_base this change :
  let imports := DraftService.imports this in
  let git := Container.git (DraftService.container this) in
  let uri := Repository.uri (CreateDraftChange.repository change) in
  let from := CreateDraftChange.revision_from change in
  let run := getCreateDraftPatchRequestFromChange this change in
  (Imports.isSha imports from = true →
   Forall (λ e, isGitCommit e = false) (calls run)
   ∧ ∀ r, outcome run = Fulfilled r →
          CreateDraftPatchRequest.baseCommitSha (CreateDraftPatchRequestFromChange.patch r)
          = from)
  ∧ (Imports.isSha imports from = false →
     ∀ r, outcome run = Fulfilled r →
          (∀ commit, Git.getCommit git uri from = Fulfilled (Some commit) →
             CreateDraftPatchRequest.baseCommitSha (CreateDraftPatchRequestFromChange.patch r)
             = GitCommit.sha commit)
          ∧ (Git.getCommit git uri from = Fulfilled None →
             CreateDraftPatchRequest.baseCommitSha (CreateDraftPatchRequestFromChange.patch r)
             = from)).
Proof.
  cbv zeta. split.
  - intros Hsha. split.
    + unfold getCreateDraftPatchRequestFromChange. cbv zeta. rewrite Hsha. cbn [negb].
      calls_all.
    + intros r. rewrite getCreateDraftPatchRequestFromChange_outcome. cbv zeta.
      rewrite Hsha. intros Hr. repeat case_match; by simplify_eq.
  - intros Hsha r. rewrite getCreateDraftPatchRequestFromChange_outcome. cbv zeta.
    rewrite Hsha. intros Hr.
    destruct (Git.getCommit _ _ _) as [[commit|]|?];
      repeat case_match; simplify_eq; simpl; split; intros; by simplify_eq.
Qed.

Lemma patch_request_base_witness :
  ∃ r,
    outcome (getCreateDraftPatchRequestFromChange Sample.service
               (Sample.change "b" "4b825dc642cb6eb9a060e54bf8d69288fbee4904"))
    = Fulfilled r
    ∧ CreateDraftPatchRequest.baseCommitSha (CreateDraftPatchRequestFromChange.patch r)
      = "4b825dc642cb6eb9a060e54bf8d69288fbee4904".
Proof.
  destruct (outcome (getCreateDraftPatchRequestFromChange Sample.service
                       (Sample.change "b" "4b825dc642cb6eb9a060e54bf8d69288fbee4904")))
    as [r|e] eqn:Hr; [|vm_compute in Hr; discriminate].
  exists r. split; [reflexivity|].
  destruct (patch_request_base Sample.service
              (Sample.change "b" "4b825dc642cb6eb9a060e54bf8d69288fbee4904")) as [Hsha _].
  destruct (Hsha eq_refl) as [_ Hbase]. exact (Hbase r Hr).
Defined.

(** X13. The repository identity of a patch request.  Without a remote with
    a recognized provider it is the first commit alone, and when that is
    missing too the request fails with "No remote or initial commit found",
    whatever the diff gives.  With such a remote it carries the remote's
    url, domain and path and whatever first commit was found (possibly
    none), and a provider exactly when the remote's provider has an id, an
    owner and a repo name. *)
Theorem patch_request_identity this change :
  let git := Container.git (DraftService.container this) in
  let uri := Repository.uri (CreateDraftChange.repository change) in
  let firstSha := getSettledValue (Git.getFirstCommitSha git uri) in
  let remote := getSettledValue (Git.getBestRemoteWithProvider git uri) in
  let run := getCreateDraftPatchRequestFromChange this change in
  (remote = None → firstSha = None →
   outcome run = Rejected (Error "No remote or initial commit found"))
  ∧ ∀ r, outcome run = Fulfilled r →
      let data :=
        CreateDraftPatchRequest.gitRepoData (CreateDraftPatchRequestFromChange.patch r) in
      (remote = None →
       is_Some firstSha
       ∧ RepositoryIdentityRequest.initialCommitSha data = firstSha
       ∧ RepositoryIdentityRequest.remote data = None
       ∧ RepositoryIdentityRequest.provider data = None)
      ∧ (∀ found, remote = Some found →
           let provider := GitRemote.provider found in
           RepositoryIdentityRequest.initialCommitSha data = firstSha
           ∧ RepositoryIdentityRequest.remote data
             = Some {| RemoteDescriptor.url := Some (GitRemote.url found);
                       RemoteDescriptor.domain := Some (GitRemote.domain found);
                       RemoteDescriptor.path := Some (GitRemote.path found) |}
           ∧ (is_Some (RepositoryIdentityRequest.provider data) ↔
              is_Some (RemoteProvider.gkProviderId provider)
              ∧ is_Some (RemoteProvider.owner provider)
              ∧ is_Some (RemoteProvider.repoName provider))
           ∧ ∀ p, RepositoryIdentityRequest.provider data = Some p →
               ProviderDescriptor.id p = RemoteProvider.gkProviderId provider
               ∧ ProviderDescriptor.repoDomain p = RemoteProvider.owner provider
               ∧ ProviderDescriptor.repoName p = RemoteProvider.repoName provider).
Proof.
  cbv zeta. rewrite getCreateDraftPatchRequestFromChange_outcome. cbv zeta. split.
  - by intros -> ->.
  - intros r.
    destruct (getSettledValue (Git.getBestRemoteWithProvider _ _)) as [found|],
      (getSettledValue (Git.getFirstCommitSha _ _)) as [sha|];
      intros Hr; repeat case_match; simplify_eq/=.
    all: split; [try done; intros _; by (repeat split; try by eexists)|].
    all: intros ? ?; simplify_eq.
    all: repeat match goal with
                | H : RemoteProvider.gkProviderId _ = _ |- _ => rewrite H
                | H : RemoteProvider.owner _ = _ |- _ => rewrite H
                | H : RemoteProvider.repoName _ = _ |- _ => rewrite H
                end.
    all: split; [done|]; split; [done|].
    all: split; [split; [intros [? ?]; try done; by (repeat split; eexists)
                        |intros ([? ?] & [? ?] & [? ?]); try done; by eexists]|].
    all: intros p ?; by simplify_eq.
Qed.

Lemma patch_request_identity_witness :
  ∃ r,
    outcome (getCreateDraftPatchRequestFromChange Fixture.service (Sample.change "b" "a"))
    = Fulfilled r
    ∧ RepositoryIdentityRequest.initialCommitSha
        (CreateDraftPatchRequest.gitRepoData (CreateDraftPatchRequestFromChange.patch r)) = None
    ∧ RepositoryIdentityRequest.remote
        (CreateDraftPatchRequest.gitRepoData (CreateDraftPatchRequestFromChange.patch r))
      = Some {| RemoteDescriptor.url := Some "https://github.com/o/r.git";
                RemoteDescriptor.domain := Some "github.com";
                RemoteDescriptor.path := Some "o/r" |}.
Proof.
  destruct (outcome (getCreateDraftPatchRequestFromChange Fixture.service
                       (Sample.change "b" "a"))) as [r|e] eqn:Hr;
    [|vm_compute in Hr; discriminate].
  exists r. split; [reflexivity|].
  destruct (patch_request_identity Fixture.service (Sample.change "b" "a")) as [_ Hdata].
  destruct (Hdata r Hr) as [_ Hremote].
  destruct (Hremote Fixture.remote eq_refl) as (Hsha & Hfound & _).
  split; [exact Hsha | exact Hfound].
Defined.

(** ** Provider authentication *)

(** X14. [getProviderAuthFromRepository] walks from the repository to its
    best remote with an integration, to that remote's integration, to an
    active session.  At the first link that is missing it returns
    [undefined] -- it does not throw -- and asks nothing further; when all
    three are there it returns the id of the integration's auth provider
    with the session's access token. *)
Theorem getProviderAuthFromRepository_chain this repository :
  let container := DraftService.container this in
  let run := getProviderAuthFromRepository this repository in
  let askRemote := Repository_getBestRemoteWithIntegration repository in
  (Container.repository_getBestRemoteWithIntegration container repository = Fulfilled None →
   run = (Fulfilled None, [askRemote]))
  ∧ ∀ remote,
      Container.repository_getBestRemoteWithIntegration container repository
        = Fulfilled (Some remote) →
      (Container.remote_getIntegration container remote = Fulfilled None →
       run = (Fulfilled None, [askRemote; Remote_getIntegration remote]))
      ∧ ∀ integration,
          Container.remote_getIntegration container remote = Fulfilled (Some integration) →
          let askSession :=
            IntegrationAuthentication_getSession (Integration.id integration)
              (Integration.authProviderDescriptor integration) in
          (Container.integrationAuthentication_getSession container
             (Integration.id integration) (Integration.authProviderDescriptor integration)
             = Fulfilled None →
           run = (Fulfilled None, [askRemote; Remote_getIntegration remote; askSession]))
          ∧ ∀ session,
              Container.integrationAuthentication_getSession container
                (Integration.id integration) (Integration.authProviderDescriptor integration)
                = Fulfilled (Some session) →
              run = (Fulfilled
                       (Some {| ProviderAuth.provider := Integration.authProvider_id integration;
                                ProviderAuth.token := Session.accessToken session |}),
                     [askRemote; Remote_getIntegration remote; askSession]).
Proof.
  cbv zeta. unfold getProviderAuthFromRepository. split.
  - intros Hremote. by rewrite (await_bind _ _ _ _ Hremote).
  - intros remote Hremote. rewrite (await_bind _ _ _ _ Hremote). split.
    + intros Hintegration. by rewrite (await_bind _ _ _ _ Hintegration).
    + intros integration Hintegration. rewrite (await_bind _ _ _ _ Hintegration). split.
      * intros Hsession. by rewrite (await_bind _ _ _ _ Hsession).
      * intros session Hsession. by rewrite (await_bind _ _ _ _ Hsession).
Qed.

Lemma getProviderAuthFromRepository_chain_witness :
  getProviderAuthFromRepository Sample.service Sample.repository
  = (Fulfilled None, [Repository_getBestRemoteWithIntegration Sample.repository])
  ∧ outcome (getProviderAuthFromRepository Fixture.service Sample.repository)
    = Fulfilled (Some {| ProviderAuth.provider := "github"; ProviderAuth.token := "token" |}).
Proof.
  split.
  - apply (getProviderAuthFromRepository_chain Sample.service Sample.repository). reflexivity.
  - destruct (getProviderAuthFromRepository_chain Fixture.service Sample.repository)
      as [_ Hremote].
    destruct (Hremote Fixture.remote eq_refl) as [_ Hintegration].
    destruct (Hintegration Fixture.integration eq_refl) as [_ Hsession].
    rewrite (Hsession {| Session.accessToken := "token" |} eq_refl). reflexivity.
Defined.

Lemma chosenPatch_fold changesets acc :
  fold_left (λ patch changeset,
               match find hasRepositoryReference (DraftChangeset.patches changeset) with
               | Some changesetPatch => Some changesetPatch
               | None => patch
               end) changesets acc
  = match last (omap (λ changeset,
                        find hasRepositoryReference (DraftChangeset.patches changeset))
                  changesets) with
    | Some patch => Some patch
    | None => acc
    end.
Proof.
  revert acc. induction changesets as [|c changesets IH]; intros acc; simpl; [done|].
  rewrite IH.
  destruct (find hasRepositoryReference (DraftChangeset.patches c)) as [p|]; [|done].
  rewrite last_cons. by destruct (last _).
Qed.

(** X15. [getProviderAuthForDraft] takes the patch that decides the provider
    from the last changeset that has a patch with a repository reference (a
    resolved or unresolved repository, or a non-empty repository id), and in
    that changeset the first such patch.  Without changesets, or without any
    such patch, it returns [undefined] and calls nothing; when the chosen
    patch holds a resolved repository it asks that repository for its
    provider auth, without going to the registry or to the server. *)
Theorem getProviderAuthForDraft_patch this draft :
  let chosen := λ changesets,
    last (omap (λ changeset,
                  find hasRepositoryReference (DraftChangeset.patches changeset))
            changesets) in
  (Draft.changesets draft = None → getProviderAuthForDraft this draft = (Fulfilled None, []))
  ∧ ∀ changesets,
      Draft.changesets draft = Some changesets →
      (chosen changesets = None → getProviderAuthForDraft this draft = (Fulfilled None, []))
      ∧ ∀ patch repository,
          chosen changesets = Some patch →
          DraftPatch.repository patch = Some (IsRepository repository) →
          getProviderAuthForDraft this draft = getProviderAuthFromRepository this repository.
Proof.
  cbv zeta. unfold getProviderAuthForDraft. split; [by intros ->|].
  intros changesets ->. destruct changesets as [|c changesets]; [split; [done|]|].
  - intros patch repository Hchosen. discriminate.
  - rewrite chosenPatch_fold. split.
    + by intros ->.
    + intros patch repository -> ->. by rewrite ret_bind.
Qed.

Lemma getProviderAuthForDraft_patch_witness :
  getProviderAuthForDraft Sample.service (formatDraft Sample.draftResponse None)
  = (Fulfilled None, [])
  ∧ find hasRepositoryReference (DraftChangeset.patches Fixture.changeset)
    = Some Fixture.hydratedPatch
  ∧ getProviderAuthForDraft Fixture.service Fixture.providerDraft
    = getProviderAuthFromRepository Fixture.service Sample.repository
  ∧ outcome (getProviderAuthForDraft Fixture.service Fixture.providerDraft)
    = Fulfilled (Some {| ProviderAuth.provider := "github"; ProviderAuth.token := "token" |}).
Proof.
  split.
  { apply (getProviderAuthForDraft_patch Sample.service
             (formatDraft Sample.draftResponse None)).
    reflexivity. }
  split; [reflexivity|].
  destruct (getProviderAuthForDraft_patch Fixture.service Fixture.providerDraft)
    as [_ Hloaded].
  destruct (Hloaded [Fixture.changeset] eq_refl) as [_ Hchosen].
  pose proof (Hchosen Fixture.hydratedPatch Sample.repository eq_refl eq_refl) as Hrun.
  split; [exact Hrun|]. rewrite Hrun. reflexivity.
Defined.

(** ** Archiving and sharing *)

(** X16. [archiveDraft] resolves the provider auth itself only for a draft of
    visibility [provider_access] archived without one.  If none can be
    resolved it throws "No provider integration found" and sends no archive
    request; if one is resolved, the archive request carries it in the
    [Provider-Auth] header, though the caller supplied none.  In every other
    case nothing is resolved, and the header is there exactly when the
    caller supplied the auth.  The archive request is the only request:
    [POST v1/drafts/ID/archive], with the reason as body if there is one;
    [archiveDraft] returns when the answer is 2xx. *)
Theorem archiveDraft_auth this draft options :
  let supplied := opt options ArchiveDraftOptions.providerAuth in
  let archive := λ auth,
    Request.mk ("v1/drafts/" +:+ Draft.id draft +:+ "/archive") "POST"
      (Body_archiveReason <$> opt options ArchiveDraftOptions.archiveReason)
      (providerAuthHeaders (DraftService.imports this) <$> auth) None in
  let request := archive supplied in
  (Draft.visibility draft = "provider_access" → supplied = None →
   outcome (getProviderAuthForDraft this draft) = Fulfilled None →
   archiveDraft this draft options
   = (Rejected (Error "No provider integration found"),
      calls (getProviderAuthForDraft this draft)))
  ∧ (Draft.visibility draft ≠ "provider_access" ∨ is_Some supplied →
     ∀ rsp,
       ServerConnection.fetchGkDevApi (DraftService.connection this) AsNothing request
         = Fulfilled rsp →
       Response.ok rsp = true →
       archiveDraft this draft options = (Fulfilled (), [FetchGkDevApi request]))
  ∧ (Draft.visibility draft = "provider_access" → supplied = None →
     ∀ resolved rsp,
       outcome (getProviderAuthForDraft this draft) = Fulfilled (Some resolved) →
       ServerConnection.fetchGkDevApi (DraftService.connection this) AsNothing
         (archive (Some resolved)) = Fulfilled rsp →
       Response.ok rsp = true →
       archiveDraft this draft options
       = (Fulfilled (),
          calls (getProviderAuthForDraft this draft)
            ++ [FetchGkDevApi (archive (Some resolved))])).
Proof.
  cbv zeta. unfold archiveDraft. split; [|split].
  - intros -> -> Hnone. simpl.
    rewrite bind_unfold. rewrite (async_eta (getProviderAuthForDraft this draft)), Hnone.
    rewrite bind_unfold. simpl. by rewrite app_nil_r.
  - intros Hdirect rsp Hrsp Hok.
    assert (String.eqb (Draft.visibility draft) "provider_access"
            && bool_decide (opt options ArchiveDraftOptions.providerAuth = None) = false)
      as ->.
    { destruct Hdirect as [Hvisibility | [auth Hauth]].
      - by destruct (String.eqb_spec (Draft.visibility draft) "provider_access").
      - rewrite Hauth. apply andb_false_r. }
    rewrite ret_bind, (await_bind _ _ _ _ Hrsp), (checkOk_good _ _ Hok). reflexivity.
  - intros Hvisibility Hsupplied resolved rsp Hresolved Hrsp Hok.
    rewrite Hvisibility, Hsupplied, String.eqb_refl, bool_decide_eq_true_2 by done.
    cbn [andb].
    rewrite (bind_of_fulfilled (getProviderAuthForDraft this draft) _ _ Hresolved).
    cbn [outcome calls fst snd mret Async_ret app]. rewrite app_nil_r.
    rewrite bind_unfold. cbn [outcome calls fst snd]. cbn [fmap option_fmap option_map].
    rewrite (await_bind _ _ _ _ Hrsp), (checkOk_good _ _ Hok). reflexivity.
Qed.

Lemma archiveDraft_auth_witness :
  archiveDraft Sample.service (formatDraft Sample.draftResponse None)
    (Some {| ArchiveDraftOptions.providerAuth := None;
             ArchiveDraftOptions.archiveReason := Some "done" |})
  = (Fulfilled (),
     [FetchGkDevApi (Request.mk "v1/drafts/draft-1/archive" "POST"
                       (Some (Body_archiveReason "done")) None None)])
  ∧ archiveDraft Sample.service Fixture.providerDraft None
    = (Rejected (Error "No provider integration found"),
       [Repository_getBestRemoteWithIntegration Sample.repository])
  ∧ archiveDraft Fixture.service Fixture.providerDraft None
    = (Fulfilled (),
       calls (getProviderAuthForDraft Fixture.service Fixture.providerDraft)
         ++ [FetchGkDevApi
               (Request.mk "v1/drafts/draft-3/archive" "POST" None
                  (Some (providerAuthHeaders Sample.imports
                           {| ProviderAuth.provider := "github";
                              ProviderAuth.token := "token" |}))
                  None)]).
Proof.
  split; [|split].
  - destruct (archiveDraft_auth Sample.service (formatDraft Sample.draftResponse None)
                (Some {| ArchiveDraftOptions.providerAuth := None;
                         ArchiveDraftOptions.archiveReason := Some "done" |}))
      as (_ & Hdirect & _).
    assert (Draft.visibility (formatDraft Sample.draftResponse None) ≠ "provider_access")
      as Hvisibility by discriminate.
    rewrite (Hdirect (or_introl Hvisibility) (Sample.ok (Some ()) "") eq_refl eq_refl).
    reflexivity.
  - destruct (archiveDraft_auth Sample.service Fixture.providerDraft None)
      as (Hnone & _ & _).
    rewrite (Hnone eq_refl eq_refl eq_refl). reflexivity.
  - destruct (archiveDraft_auth Fixture.service Fixture.providerDraft None)
      as (_ & _ & Hresolved).
    exact (Hresolved eq_refl eq_refl
             {| ProviderAuth.provider := "github"; ProviderAuth.token := "token" |}
             (Sample.ok (Some ()) "") eq_refl eq_refl eq_refl).
Defined.

(** X17. [addDraftUsers] rejects an empty list of users with "No changes
    found" before calling the server.  For a list that is not empty it sends
    one [POST /v1/drafts/ID/users] whose body carries the draft id and the
    users in the order given, and on a 2xx answer returns the users of the
    answer's body. *)
Theorem addDraftUsers_request this id :
  addDraftUsers this id [] = (Rejected (Error "No changes found"), [])
  ∧ ∀ user users rsp payload,
      let request := Request.mk ("/v1/drafts/" +:+ id +:+ "/users") "POST"
                       (Some (Body_users id (user :: users))) None None in
      ServerConnection.fetchGkDevApi (DraftService.connection this) AsDraftUsers request
        = Fulfilled rsp →
      Response.ok rsp = true →
      Response.json rsp = Fulfilled payload →
      addDraftUsers this id (user :: users)
      = (Fulfilled (Payload.data payload), [FetchGkDevApi request; Response_json]).
Proof.
  split; [reflexivity|].
  intros user users rsp payload request Hrsp Hok Hjson.
  unfold addDraftUsers. simpl bool_decide. cbv iota. fold request.
  rewrite (await_bind _ _ _ _ Hrsp), (checkOk_good _ _ Hok), bind_unfold.
  unfold readData. cbn [dataOf] in *. rewrite (await_bind _ _ _ _ Hjson). reflexivity.
Qed.

Lemma addDraftUsers_request_witness :
  outcome (addDraftUsers Sample.service "draft-1"
             [{| DraftPendingUser.userId := "user-2"; DraftPendingUser.role := "editor" |}])
  = Fulfilled (Some []).
Proof.
  destruct (addDraftUsers_request Sample.service "draft-1") as [_ Hsent].
  rewrite (Hsent {| DraftPendingUser.userId := "user-2"; DraftPendingUser.role := "editor" |}
             [] (Sample.ok (Some []) "")
             {| Payload.data := Some []; Payload.error := None |} eq_refl eq_refl eq_refl).
  reflexivity.
Defined.

(** ** Reading a draft *)

(** X18. [getDraft] starts the fetch of the draft and the fetch of its
    changesets together, then inspects them in that order.  When the fetch
    of the draft is rejected it throws "Unable to open draft 'ID': REASON",
    also if the changesets failed too; when that fetch settles and the
    changesets fail it throws "Unable to open changesets for draft 'ID':
    REASON".  In both cases every call of the changesets fetch has been
    made, and the two messages differ whatever the reasons. *)
Theorem getDraft_attribution this id options :
  let request :=
    Request.mk ("v1/drafts/" +:+ id) "GET" None
      (providerAuthHeaders (DraftService.imports this)
         <$> opt options GetDraftOptions.providerAuth) None in
  let header :=
    ServerConnection.fetchGkDevApi (DraftService.connection this) AsDraftResponse request in
  let changesets := getChangesets this id in
  (∀ reason,
     header = Rejected reason →
     getDraft this id options
     = (Rejected (Error ("Unable to open draft '" +:+ id +:+ "': "
                         +:+ JsError_toString reason)),
        FetchGkDevApi request :: calls changesets))
  ∧ (∀ rsp reason,
       header = Fulfilled rsp →
       outcome changesets = Rejected reason →
       getDraft this id options
       = (Rejected (Error ("Unable to open changesets for draft '" +:+ id +:+ "': "
                           +:+ JsError_toString reason)),
          FetchGkDevApi request :: calls changesets))
  ∧ (∀ reason reason',
       "Unable to open draft '" +:+ id +:+ "': " +:+ JsError_toString reason
       ≠ "Unable to open changesets for draft '" +:+ id +:+ "': "
         +:+ JsError_toString reason').
Proof.
  cbv zeta. unfold getDraft. cbv zeta. split; [|split].
  - intros reason Hheader. unfold await. rewrite Hheader.
    rewrite !bind_unfold. unfold settle. simpl.
    by rewrite app_nil_r.
  - intros rsp reason Hheader Hchangesets. unfold await. rewrite Hheader.
    rewrite !bind_unfold. unfold settle. simpl. unfold outcome in Hchangesets.
    rewrite Hchangesets. simpl. by rewrite app_nil_r.
  - intros reason reason'. simpl. discriminate.
Qed.

Lemma getDraft_attribution_witness :
  outcome (getDraft Fixture.serviceNoHeader "draft-1" None)
  = Rejected (Error "Unable to open draft 'draft-1': Error: socket hang up")
  ∧ ∃ reason,
      outcome (getDraft Fixture.serviceNoChangesets "draft-1" None)
      = Rejected (Error ("Unable to open changesets for draft 'draft-1': "
                         +:+ JsError_toString reason)).
Proof.
  split.
  - destruct (getDraft_attribution Fixture.serviceNoHeader "draft-1" None) as (Hheader & _).
    rewrite (Hheader (Error "socket hang up") eq_refl). reflexivity.
  - exists (Error "Unable to open changesets for draft 'draft-1': (404) Draft not found").
    destruct (getDraft_attribution Fixture.serviceNoChangesets "draft-1" None)
      as (_ & Hchangesets & _).
    rewrite (Hchangesets (Sample.ok (Some Sample.draftResponse) "")
               (Error "Unable to open changesets for draft 'draft-1': (404) Draft not found")
               eq_refl eq_refl).
    reflexivity.
Defined.

(** X19. The request of [getDraftsCore].  Asking for the drafts of a pull
    request without provider auth throws "No provider integration found"
    before any call.  Otherwise the first call is [GET /v1/drafts], with the
    [Provider-Auth] header exactly when auth is given and with the query
    made of [prEntityId=ENCODED] (when a pull request is given) and
    [archived=true] (when archived drafts are asked for), joined by [&], in
    that order; there is no query when neither applies. *)
Theorem getDraftsCore_request this options :
  let imports := DraftService.imports this in
  let prEntityId := opt options GetDraftsOptions.prEntityId in
  let providerAuth := opt options GetDraftsOptions.providerAuth in
  let archived := flag options GetDraftsOptions.isArchived in
  let query :=
    match prEntityId, archived with
    | None, false => None
    | None, true => Some "archived=true"
    | Some pr, false => Some ("prEntityId=" +:+ Imports.encodeURIComponent imports pr)
    | Some pr, true =>
        Some ("prEntityId=" +:+ Imports.encodeURIComponent imports pr +:+ "&archived=true")
    end in
  (is_Some prEntityId → providerAuth = None →
   getDraftsCore this options = (Rejected (Error "No provider integration found"), []))
  ∧ (prEntityId = None ∨ is_Some providerAuth →
     ∃ rest,
       calls (getDraftsCore this options)
       = FetchGkDevApi (Request.mk "/v1/drafts" "GET" None
                          (providerAuthHeaders imports <$> providerAuth) query)
         :: rest).
Proof.
  cbv zeta. unfold getDraftsCore. cbv zeta. split.
  - intros [pr ->] ->. reflexivity.
  - intros Hallowed.
    destruct (opt options GetDraftsOptions.prEntityId) as [pr|].
    + destruct Hallowed as [|[auth ->]]; [done|]. rewrite ret_bind.
      cbv beta iota zeta. rewrite calls_bind.
      destruct (flag options GetDraftsOptions.isArchived); simpl; eauto.
    + rewrite ret_bind. cbv beta iota zeta. rewrite calls_bind.
      destruct (flag options GetDraftsOptions.isArchived); simpl; eauto.
Qed.

Lemma getDraftsCore_request_witness :
  ∃ rest,
    calls (getDraftsCore Sample.service
             (Some {| GetDraftsOptions.prEntityId := None;
                      GetDraftsOptions.providerAuth := None;
                      GetDraftsOptions.isArchived := Some true |}))
    = FetchGkDevApi (Request.mk "/v1/drafts" "GET" None None (Some "archived=true")) :: rest.
Proof.
  destruct (getDraftsCore_request Sample.service
              (Some {| GetDraftsOptions.prEntityId := None;
                       GetDraftsOptions.providerAuth := None;
                       GetDraftsOptions.isArchived := Some true |})) as [_ Hsent].
  apply Hsent. left. reflexivity.
Defined.

(** X20. The drafts of [getDraftsCore].  On a 2xx answer the drafts come
    back one per draft of the answer and in its order; none has an empty
    role, each has an author name (the account's, marked as you, or the
    fallback "Unknown"), and none has its changesets loaded.  A draft whose
    role is empty on the wire becomes an [editor] when the drafts were asked
    for a pull request and a [viewer] otherwise. *)
Theorem getDraftsCore_drafts this options rsp payload wire subscription :
  let prEntityId := opt options GetDraftsOptions.prEntityId in
  prEntityId = None ∨ is_Some (opt options GetDraftsOptions.providerAuth) →
  (∀ request,
     ServerConnection.fetchGkDevApi (DraftService.connection this) AsDraftResponses request
     = Fulfilled rsp) →
  Response.ok rsp = true →
  Response.json rsp = Fulfilled payload →
  Payload.data payload = Some wire →
  Container.subscription_getSubscription (DraftService.container this)
    = Fulfilled subscription →
  ∃ drafts,
    outcome (getDraftsCore this options) = Fulfilled drafts
    ∧ Forall2 (λ d w,
                 Draft.id d = DraftResponse.id w
                 ∧ Draft.role d ≠ ""
                 ∧ is_Some (DraftAuthor.name (Draft.author d))
                 ∧ Draft.changesets d = None
                 ∧ (DraftResponse.role w = "" →
                    Draft.role d = match prEntityId with
                                   | Some _ => "editor"
                                   | None => "viewer"
                                   end))
        drafts wire.
Proof.
  cbv zeta. intros Hallowed Hrsp Hok Hjson Hdata Hsubscription.
  unfold getDraftsCore. cbv zeta.
  assert (∀ (fromPr : bool) (ws : list DraftResponse.t),
            Forall2 (λ d w,
                 Draft.id d = DraftResponse.id w
                 ∧ Draft.role d ≠ ""
                 ∧ is_Some (DraftAuthor.name (Draft.author d))
                 ∧ Draft.changesets d = None
                 ∧ (DraftResponse.role w = "" →
                    Draft.role d = if fromPr then "editor" else "viewer"))
              (map (λ d, formatDraft d
                      (Some {| FormatDraftOptions.account := Subscription.account subscription;
                               FormatDraftOptions.fallbackAuthorName := Some "Unknown";
                               FormatDraftOptions.fromPrEntityId := Some fromPr |})) ws)
              ws) as Hformat.
  { intros fromPr ws. induction ws as [|w ws IH]; simpl; constructor; [|by apply IH].
    split; [unfold formatDraft; by destruct (createdByAccount _ _)|].
    split; [apply formatDraft_role_not_empty|].
    unfold formatDraft. destruct (createdByAccount _ _); simpl;
      (split; [by eexists|]; split; [done|]; intros ->; simpl; by destruct fromPr). }
  cbn [dataOf] in *.
  destruct (opt options GetDraftsOptions.prEntityId) as [pr|].
  - destruct Hallowed as [|[auth ->]]; [done|]. rewrite ret_bind. cbv beta iota zeta.
    rewrite (outcome_await_bind _ _ _ _ (Hrsp _)), (outcome_checkOk_bind _ _ _ Hok),
      (outcome_readData_bind _ _ _ Hjson), Hdata,
      (outcome_await_bind _ _ _ _ Hsubscription), outcome_defined_bind.
    eexists. split; [reflexivity | apply (Hformat true wire)].
  - rewrite ret_bind. cbv beta iota zeta.
    rewrite (outcome_await_bind _ _ _ _ (Hrsp _)), (outcome_checkOk_bind _ _ _ Hok),
      (outcome_readData_bind _ _ _ Hjson), Hdata,
      (outcome_await_bind _ _ _ _ Hsubscription), outcome_defined_bind.
    eexists. split; [reflexivity | apply (Hformat false wire)].
Qed.

Lemma getDraftsCore_drafts_witness :
  ∃ drafts,
    outcome (getDraftsCore Sample.service None) = Fulfilled drafts
    ∧ Forall2 (λ d w,
                 Draft.id d = DraftResponse.id w
                 ∧ Draft.role d ≠ ""
                 ∧ is_Some (DraftAuthor.name (Draft.author d))
                 ∧ Draft.changesets d = None
                 ∧ (DraftResponse.role w = "" → Draft.role d = "viewer"))
        drafts [Sample.draftResponse].
Proof.
  apply (getDraftsCore_drafts Sample.service None
           (Sample.ok (Some [Sample.draftResponse]) "")
           {| Payload.data := Some [Sample.draftResponse]; Payload.error := None |}
           [Sample.draftResponse]
           {| Subscription.account :=
                Some {| SubscriptionAccount.id := "user-1";
                        SubscriptionAccount.name := "Ada";
                        SubscriptionAccount.email := Some "ada@example.com" |} |}).
  - left. reflexivity.
  - intros request. reflexivity.
  - reflexivity.
  - reflexivity.
  - reflexivity.
  - reflexivity.
Defined.

(** ** Reading changesets and patch details *)

(** X21. On a 2xx answer [getChangesets] returns the changesets of the
    answer, normalized, one for one and in the answer's order, after one
    request ([GET /v1/drafts/ID/changesets]) and one read of the body. *)
Theorem getChangesets_ok this id rsp payload wire :
  let request := Request.mk ("/v1/drafts/" +:+ id +:+ "/changesets") "GET" None None None in
  ServerConnection.fetchGkDevApi (DraftService.connection this) AsDraftChangesetResponses
    request = Fulfilled rsp →
  Response.ok rsp = true →
  Response.json rsp = Fulfilled payload →
  Payload.data payload = Some wire →
  getChangesets this id
  = (Fulfilled (map formatChangeset wire), [FetchGkDevApi request; Response_json]).
Proof.
  intros request Hrsp Hok Hjson Hdata.
  unfold getChangesets, checkOk, readData, defined, await. fold request.
  cbn [dataOf] in *.
  rewrite Hrsp. cbn. rewrite Hok. cbn. rewrite Hjson. cbn. rewrite Hdata. cbn.
  rewrite forOf_formatChangeset. reflexivity.
Qed.

Lemma getChangesets_ok_witness :
  getChangesets Fixture.serviceWithChangesets "draft-1"
  = (Fulfilled [formatChangeset Fixture.changesetResponse],
     [FetchGkDevApi (Request.mk "/v1/drafts/draft-1/changesets" "GET" None None None);
      Response_json])
  ∧ DraftPatch.id <$> DraftChangeset.patches (formatChangeset Fixture.changesetResponse)
    = ["patch-1"; "patch-2"].
Proof.
  split; [|reflexivity].
  apply (getChangesets_ok Fixture.serviceWithChangesets "draft-1"
           (Sample.ok (Some [Fixture.changesetResponse]) "")
           {| Payload.data := Some [Fixture.changesetResponse]; Payload.error := None |}
           [Fixture.changesetResponse]); reflexivity.
Defined.

(** X22. [getPatchDetails] of a patch tolerates a download that fails and a
    repository that cannot be resolved: it fails only if listing the files
    of the diff fails.  The files are listed against the path of the
    repository when the patch's repository resolves to one, and against the
    empty path otherwise; each file is tagged with the repository id of the
    patch; [contents] is the downloaded text, absent if the download
    failed; [repository] is what the resolution gave, absent if it
    failed. *)
Theorem getPatchDetails_tolerant this patch :
  let git := Container.git (DraftService.container this) in
  let contents :=
    getSettledValue (outcome (getPatchContentsCore this (DraftPatch.secureLink patch))) in
  let repository :=
    getSettledValue1
      (outcome (getRepositoryOrIdentity this (DraftPatch.draftId patch)
                  (DraftPatch.gkRepositoryId patch)
                  (Some {| GetRepositoryOptions.openIfNeeded := Some true;
                           GetRepositoryOptions.keepOpen := None;
                           GetRepositoryOptions.prompt := None;
                           GetRepositoryOptions.skipRefValidation := Some true |}))) in
  let repoPath :=
    match repository with
    | Some (IsRepository resolved) => Repository.path resolved
    | _ => ""
    end in
  (∀ e, Git.getDiffFiles git repoPath contents = Rejected e →
        outcome (getPatchDetails this (inr patch)) = Rejected e)
  ∧ (∀ diffFiles,
       Git.getDiffFiles git repoPath contents = Fulfilled diffFiles →
       ∃ details,
         outcome (getPatchDetails this (inr patch)) = Fulfilled details
         ∧ DraftPatchDetails.id details = DraftPatch.id patch
         ∧ DraftPatchDetails.contents details = contents
         ∧ DraftPatchDetails.repository details = repository
         ∧ DraftPatchFileChange.file <$> DraftPatchDetails.files details
           = default [] (GitDiffFiles.files <$> diffFiles)
         ∧ Forall (λ f, DraftPatchFileChange.gkRepositoryId f = DraftPatch.gkRepositoryId patch)
             (DraftPatchDetails.files details)).
Proof.
  cbv zeta. unfold getPatchDetails. rewrite ret_bind, !outcome_settle_bind. split.
  - intros e He. rewrite outcome_bind. unfold await, outcome at 1. simpl fst. by rewrite He.
  - intros diffFiles Hfiles. rewrite (outcome_await_bind _ _ _ _ Hfiles).
    eexists. split; [reflexivity|]. simpl. repeat split.
    + destruct diffFiles as [d|]; simpl; [|done].
      induction (GitDiffFiles.files d) as [|f fs IH]; simpl; [done | by f_equal].
    + destruct diffFiles as [d|]; simpl; [|constructor].
      apply Forall_map, Forall_forall. by intros f _.
Qed.

Lemma getPatchDetails_tolerant_witness :
  ∃ details,
    outcome (getPatchDetails Sample.serviceOfflineStorage
               (inr (formatPatch Sample.patchResponse None))) = Fulfilled details
    ∧ DraftPatchDetails.contents details = None
    ∧ DraftPatchDetails.files details = [].
Proof.
  destruct (getPatchDetails_tolerant Sample.serviceOfflineStorage
              (formatPatch Sample.patchResponse None)) as [_ Hsettles].
  destruct (Hsettles None eq_refl) as (details & Hdetails & _ & Hcontents & _ & Hfiles & _).
  exists details. split; [exact Hdetails|]. split; [exact Hcontents|].
  simpl in Hfiles. by destruct (DraftPatchDetails.files details).
Defined.

(** ** The requests to the blob storage *)

Lemma link_headers (headers : gmap string string) (name value key : string) :
  (headers ∪ {[ name := value ]}) !! key
  = match headers !! key with
    | Some v => Some v
    | None => if decide (name = key) then Some value else None
    end.
Proof.
  rewrite lookup_union, lookup_singleton.
  destruct (headers !! key); [|by destruct (decide _)]. by destruct (decide _).
Qed.

Lemma defined_bind {A B} what (a : A) (f : A → Async B) : defined what (Some a) ≫= f = f a.
Proof. apply ret_bind. Qed.

(** X23. The requests to the blob storage use the url and the method of the
    secure link and every header of the link; the service adds [Accept:
    text/plain] to a download and [Content-Type: text/plain] to an upload
    only when the link does not set that header itself.  A download has no
    body; the body of an upload is the contents of the patch request, and
    the upload follows the listing of the files of that same contents. *)
Theorem storage_requests this :
  (∀ link, ∃ download rest,
     calls (getPatchContentsCore this (Some link)) = Fetch download :: rest
     ∧ RawRequest.url download = SecureLink.url link
     ∧ RawRequest.method download = SecureLink.method link
     ∧ RawRequest.body download = None
     ∧ ∀ key, RawRequest.headers download !! key
              = match SecureLink.headers link !! key with
                | Some v => Some v
                | None => if decide ("Accept" = key) then Some "text/plain" else None
                end)
  ∧ (∀ requests i patches created request diffFiles,
       let contents := CreateDraftPatchRequestFromChange.contents request in
       let path := Repository.path (CreateDraftPatchRequestFromChange.repository request) in
       let link := DraftPatchCreateResponse.secureUploadData created in
       requests !! i = Some request →
       Git.getDiffFiles (Container.git (DraftService.container this)) path (Some contents)
         = Fulfilled diffFiles →
       ∃ upload,
         calls (uploadPatch this requests (i, patches) created)
         = [Git_getDiffFiles path (Some contents); Fetch upload]
         ∧ RawRequest.url upload = SecureLink.url link
         ∧ RawRequest.method upload = SecureLink.method link
         ∧ RawRequest.body upload = Some contents
         ∧ ∀ key, RawRequest.headers upload !! key
                  = match SecureLink.headers link !! key with
                    | Some v => Some v
                    | None => if decide ("Content-Type" = key) then Some "text/plain" else None
                    end).
Proof.
  split.
  - intros link. unfold getPatchContentsCore. rewrite defined_bind, calls_bind.
    eexists. eexists. split; [reflexivity|]. repeat split. intros key. apply link_headers.
  - intros requests i patches created request diffFiles contents path link Hrequest Hfiles.
    unfold uploadPatch. rewrite Hrequest. fold contents. fold path.
    rewrite (calls_await_bind _ _ _ _ Hfiles), calls_bind.
    eexists. split.
    + unfold await at 1, calls at 1. simpl snd.
      destruct (outcome _); simpl; reflexivity.
    + repeat split. intros key. apply link_headers.
Qed.

Lemma storage_requests_witness :
  ∃ upload,
    calls (uploadPatch Sample.service [Fixture.patchRequest] (0, [])
             (Sample.patchCreated (CreateDraftPatchRequestFromChange.patch Fixture.patchRequest)))
    = [Git_getDiffFiles "/work/repo" (Some "diff a..b"); Fetch upload]
    ∧ RawRequest.body upload = Some "diff a..b"
    ∧ RawRequest.headers upload !! "Content-Type" = Some "text/plain".
Proof.
  destruct (storage_requests Sample.service) as [_ Hupload].
  destruct (Hupload [Fixture.patchRequest] 0 []
              (Sample.patchCreated
                 (CreateDraftPatchRequestFromChange.patch Fixture.patchRequest))
              Fixture.patchRequest (Some {| GitDiffFiles.files := [] |}) eq_refl eq_refl)
    as (upload & Hcalls & _ & _ & Hbody & Hheaders).
  exists upload. split; [exact Hcalls|]. split; [exact Hbody|].
  rewrite Hheaders. reflexivity.
Defined.

(** ** createDraft: a code suggestion needs a pull request and a provider *)

Lemma getProviderAuthFromRepository_local this repository :
  localCalls (calls (getProviderAuthFromRepository this repository)).
Proof. unfold getProviderAuthFromRepository. cbv zeta. local_calls. Qed.

Lemma createDraftFromPatchRequests_unlinked this type title options patchRequests user e :
  outcome (providerLinkage this type options patchRequests) = Rejected e →
  createDraftFromPatchRequests this type title options patchRequests user
  = (Rejected e, calls (providerLinkage this type options patchRequests)).
Proof.
  intros Hlinkage. unfold createDraftFromPatchRequests. cbv zeta.
  destruct (providerLinkage this type options patchRequests) as [[linked|e'] w]; simpl in *.
  - discriminate.
  - by simplify_eq.
Qed.

Lemma createDraft_unlinked this type title changes options e :
  let results := map outcome (map (getCreateDraftPatchRequestFromChange this) changes) in
  let linkage := providerLinkage this type options (filter nonEmpty (fulfilments results)) in
  changes ≠ [] →
  Forall (λ change,
            isRejected (outcome (getCreateDraftPatchRequestFromChange this change)) = false)
    changes →
  outcome linkage = Rejected e →
  localCalls (calls linkage) →
  outcome (createDraft this type title changes options) = Rejected e
  ∧ localCalls (calls (createDraft this type title changes options)).
Proof.
  intros results linkage Hsome Hvalid Hlinkage Hlocal.
  rewrite createDraft_unfold. fold results.
  assert (rejections results = []) as ->.
  { apply rejections_nil. subst results. by rewrite !Forall_map. }
  destruct changes as [|change changes]; [done|].
  rewrite (createDraftFromPatchRequests_unlinked _ _ _ _ _ _ _ Hlinkage). split; [done|].
  apply Forall_app. split; [apply attempts_local | exact Hlocal].
Qed.

(** X24. A draft of type [suggested_pr_change] is tied to a pull request
    and to a provider before anything is sent.  When every change resolves,
    [createDraft] fails with "No pull request info provided" if the options
    name no pull request; with a pull request named, it fails with "No
    provider integration found" if the repository of the first change whose
    diff is not empty has no provider authentication, and with a
    [TypeError] if every diff is empty.  In each case no call has reached
    the remote service. *)
Theorem createDraft_suggestion_gate this title changes options :
  let run := createDraft this "suggested_pr_change" title changes options in
  changes ≠ [] →
  Forall (λ change,
            isRejected (outcome (getCreateDraftPatchRequestFromChange this change)) = false)
    changes →
  (opt options CreateDraftOptions.prEntityId = None →
   outcome run = Rejected (Error "No pull request info provided") ∧ localCalls (calls run))
  ∧ (is_Some (opt options CreateDraftOptions.prEntityId) →
     match filter (λ change, resolvesNonEmpty this change) changes with
     | change :: _ =>
         outcome (getProviderAuthFromRepository this (CreateDraftChange.repository change))
           = Fulfilled None →
         outcome run = Rejected (Error "No provider integration found")
         ∧ localCalls (calls run)
     | [] =>
         outcome run
           = Rejected (TypeError "Cannot read properties of undefined (reading 'repository')")
         ∧ localCalls (calls run)
     end).
Proof.
  intros run Hsome Hvalid. split.
  - intros Hpr. apply createDraft_unlinked; [done | done | |];
      unfold providerLinkage; simpl; rewrite Hpr; [reflexivity | constructor].
  - intros [prEntityId Hpr].
    pose proof (patchRequests_changes this changes) as Hrequests.
    destruct (filter (λ change, resolvesNonEmpty this change) changes) as [|change rest].
    + apply Forall2_nil_inv_r in Hrequests.
      apply createDraft_unlinked; [done | done | |];
        unfold providerLinkage; simpl; rewrite Hpr, Hrequests; [reflexivity | constructor].
    + apply Forall2_cons_inv_r in Hrequests
        as (first & requests & [Hfirst _] & _ & Hrequests).
      intros Hauth.
      apply getCreateDraftPatchRequestFromChange_repository in Hfirst.
      apply createDraft_unlinked; [done | done | |];
        unfold providerLinkage; rewrite String.eqb_refl, Hpr, Hrequests;
        change ((first :: requests) !! 0) with (Some first);
        rewrite defined_bind, Hfirst.
      * by rewrite outcome_bind, Hauth.
      * apply localCalls_bind; [apply getProviderAuthFromRepository_local|].
        intros [auth|]; constructor.
Qed.

Lemma createDraft_suggestion_gate_witness :
  outcome (createDraft Sample.service "suggested_pr_change" "Fixes" [Sample.change "b" "a"] None)
  = Rejected (Error "No pull request info provided")
  ∧ outcome (createDraft Sample.service "suggested_pr_change" "Fixes" [Sample.change "b" "a"]
               (Some {| CreateDraftOptions.description := None;
                        CreateDraftOptions.visibility := None;
                        CreateDraftOptions.prEntityId := Some "pr" |}))
    = Rejected (Error "No provider integration found")
  ∧ outcome (createDraft Sample.service "suggested_pr_change" "Fixes" [Sample.change "c" "c"]
               (Some {| CreateDraftOptions.description := None;
                        CreateDraftOptions.visibility := None;
                        CreateDraftOptions.prEntityId := Some "pr" |}))
    = Rejected (TypeError "Cannot read properties of undefined (reading 'repository')").
Proof.
  split; [|split].
  - apply (createDraft_suggestion_gate Sample.service "Fixes" [Sample.change "b" "a"] None);
      [discriminate | repeat constructor | reflexivity].
  - destruct (createDraft_suggestion_gate Sample.service "Fixes" [Sample.change "b" "a"]
                (Some {| CreateDraftOptions.description := None;
                         CreateDraftOptions.visibility := None;
                         CreateDraftOptions.prEntityId := Some "pr" |}))
      as [_ Hnamed]; [discriminate | repeat constructor |].
    apply (Hnamed (ex_intro _ "pr" eq_refl)). reflexivity.
  - destruct (createDraft_suggestion_gate Sample.service "Fixes" [Sample.change "c" "c"]
                (Some {| CreateDraftOptions.description := None;
                         CreateDraftOptions.visibility := None;
                         CreateDraftOptions.prEntityId := Some "pr" |}))
      as [_ Hnamed]; [discriminate | repeat constructor |].
    apply (Hnamed (ex_intro _ "pr" eq_refl)).
Defined.

(** ** createDraft: past the two gates *)

Lemma createDraft_resolved this type title changes options :
  let attempts := map (getCreateDraftPatchRequestFromChange this) changes in
  let results := map outcome attempts in
  let rest :=
    createDraftFromPatchRequests this type title options
      (filter nonEmpty (fulfilments results)) (Collected.user (collectResults results)) in
  changes ≠ [] →
  Forall (λ change,
            isRejected (outcome (getCreateDraftPatchRequestFromChange this change)) = false)
    changes →
  outcome (createDraft this type title changes options) = outcome rest
  ∧ filter (λ e, isRemoteCall e) (calls (createDraft this type title changes options))
    = filter (λ e, isRemoteCall e) (calls rest).
Proof.
  intros attempts results rest Hsome Hvalid.
  rewrite createDraft_unfold. fold attempts. fold results.
  assert (rejections results = []) as ->.
  { apply rejections_nil. subst results attempts. by rewrite !Forall_map. }
  destruct changes as [|change changes]; [done|]. split; [reflexivity|].
  unfold calls at 1. cbn [snd]. rewrite filter_app.
  by rewrite (localCalls_filter (concat (map calls attempts))
               (attempts_local this (change :: changes))).
Qed.

Lemma createDraftFromPatchRequests_unfold this type title options patchRequests user :
  type ≠ "suggested_pr_change" →
  let connection := DraftService.connection this in
  let create := {| Request.path := "v1/drafts";
                   Request.method := "POST";
                   Request.body :=
                     Some (Body_createDraft type title
                             (opt options CreateDraftOptions.description)
                             (default "public" (opt options CreateDraftOptions.visibility)));
                   Request.headers := None;
                   Request.query := None |} in
  ∃ continue,
    createDraftFromPatchRequests this type title options patchRequests user
    = (await (FetchGkDevApi create)
         (ServerConnection.fetchGkDevApi connection AsCreateDraftResponse create)
       ≫= λ rsp, checkOk "Unable to create draft" rsp
       ≫= λ _, readData rsp
       ≫= λ data, defined "id" data
       ≫= λ created,
         let changeset :=
           {| Request.path := "v1/drafts/" +:+ CreateDraftResponse.id created +:+ "/changesets";
              Request.method := "POST";
              Request.body :=
                Some (Body_createChangeset
                        (user ≫= GitUser.name) (user ≫= GitUser.email)
                        (map CreateDraftPatchRequestFromChange.patch patchRequests));
              Request.headers := None;
              Request.query := None |} in
         await (FetchGkDevApi changeset)
           (ServerConnection.fetchGkDevApi connection AsDraftChangesetCreateResponse changeset)
         ≫= λ rsp, checkOk ("Unable to create changeset for draft '"
                             +:+ CreateDraftResponse.id created +:+ "'") rsp
         ≫= λ _, continue created rsp).
Proof.
  intros Htype connection create. eexists. unfold createDraftFromPatchRequests. cbv zeta.
  rewrite (providerLinkage_other _ _ _ _ Htype), bind_unfold.
  cbn [outcome calls fst snd app]. rewrite <- async_eta.
  reflexivity.
Qed.

Lemma checkOk_refused {A B} message (rsp : Response.t A) (f : unit → Async B) :
  Response.ok rsp = false →
  ∃ detail,
    checkOk message rsp ≫= f
    = (Rejected (Error (message +:+ ": (" +:+ pretty (Response.status rsp) +:+ ") " +:+ detail)),
       [Response_json]).
Proof.
  intros Hok. unfold checkOk. rewrite Hok. cbn [negb].
  destruct (handleBadDraftResponse_throws (B := unit) message rsp) as [detail ->].
  exists detail. by rewrite bind_unfold.
Qed.

Lemma checkOk_bind {A B} message (rsp : Response.t A) (f : unit → Async B) :
  Response.ok rsp = true → checkOk message rsp ≫= f = f ().
Proof.
  intros Hok. rewrite (checkOk_good _ _ Hok), bind_unfold. simpl. by destruct (f ()).
Qed.

Lemma readData_bind {A B} (rsp : Response.t A) (f : option A → Async B) payload :
  Response.json rsp = Fulfilled payload →
  readData rsp ≫= f
  = (outcome (f (Payload.data payload)), Response_json :: calls (f (Payload.data payload))).
Proof.
  intros Hjson. unfold readData, await. rewrite Hjson.
  rewrite (bind_unfold (Fulfilled payload, [Response_json])). cbn [outcome calls fst snd mret Async_ret app].
  by rewrite bind_unfold.
Qed.

(** ** createDraft: the requests of a successful run *)

Lemma sent_remote e w :
  isRemoteCall e = true →
  filter (λ e, isRemoteCall e) (e :: w) = e :: filter (λ e, isRemoteCall e) w.
Proof. intros He. rewrite filter_cons, decide_True; [done | by rewrite He]. Qed.

Lemma sent_local e w :
  isRemoteCall e = false →
  filter (λ e, isRemoteCall e) (e :: w) = filter (λ e, isRemoteCall e) w.
Proof. intros He. rewrite filter_cons, decide_False; [done|]. rewrite He. intros []. Qed.

Lemma providerLinkage_local this type options patchRequests :
  localCalls (calls (providerLinkage this type options patchRequests)).
Proof.
  unfold providerLinkage. destruct (String.eqb _ _); [|constructor].
  destruct (opt options CreateDraftOptions.prEntityId); [|constructor].
  destruct (patchRequests !! 0) as [first|]; [|constructor].
  rewrite defined_bind. apply localCalls_bind; [apply getProviderAuthFromRepository_local|].
  intros [auth|]; constructor.
Qed.

Lemma uploadPatch_sent this requests i request patches created :
  Healthy.t this →
  requests !! i = Some request →
  ∃ p diff upload,
    uploadPatch this requests (i, patches) created
    = (Fulfilled (S i, patches ++ [p]), [diff; Fetch upload])
    ∧ isRemoteCall diff = false
    ∧ RawRequest.url upload
      = SecureLink.url (DraftPatchCreateResponse.secureUploadData created)
    ∧ RawRequest.body upload = Some (CreateDraftPatchRequestFromChange.contents request).
Proof.
  intros Hhealthy Hrequest. unfold uploadPatch. rewrite Hrequest.
  destruct (Healthy.diffFilesSettle _ Hhealthy
              (Repository.path (CreateDraftPatchRequestFromChange.repository request))
              (Some (CreateDraftPatchRequestFromChange.contents request)))
    as [diffFiles HdiffFiles].
  rewrite (await_bind _ _ _ _ HdiffFiles).
  match goal with
  | |- context [ServerConnection.fetch _ ?upload] =>
      destruct (Healthy.uploadSettles _ Hhealthy upload) as [rsp Hrsp];
      rewrite (await_bind _ _ _ _ Hrsp)
  end.
  do 3 eexists. split; [reflexivity|]. repeat split.
Qed.

(** The uploads of the loop, against collaborators that answer: one per
    listed patch, in order, each to the link of its patch and with the
    contents of the patch request at the same position as its body. *)
Lemma uploadPatches_sent this requests :
  Healthy.t this →
  ∀ created i patches,
    (i + length created ≤ length requests)%nat →
    ∃ out uploads,
      outcome (forOf (uploadPatch this requests) created (i, patches)) = Fulfilled out
      ∧ filter (λ e, isRemoteCall e)
          (calls (forOf (uploadPatch this requests) created (i, patches)))
        = map Fetch uploads
      ∧ map RawRequest.url uploads
        = map (λ c, SecureLink.url (DraftPatchCreateResponse.secureUploadData c)) created
      ∧ map RawRequest.body uploads
        = map (λ r, Some (CreateDraftPatchRequestFromChange.contents r))
            (take (length created) (drop i requests)).
Proof.
  intros Hhealthy. induction created as [|c created IH]; intros i patches Hle;
    cbn [forOf length].
  - exists (i, patches), []. repeat split.
  - cbn [length] in Hle.
    destruct (lookup_lt_is_Some_2 requests i) as [request Hrequest]; [lia|].
    rewrite (drop_S _ _ _ Hrequest). cbn [take map].
    destruct (uploadPatch_sent this requests i request patches c Hhealthy Hrequest)
      as (p & diff & upload & -> & Hdiff & Hurl & Hbody).
    rewrite bind_unfold. cbn [outcome calls fst snd app].
    destruct (IH (S i) (patches ++ [p])) as (out & uploads & Hout & Hsent & Hurls & Hbodies);
      [lia|].
    rewrite (sent_local _ _ Hdiff), sent_remote by reflexivity.
    exists out, (upload :: uploads). split; [exact Hout|]. split; [by rewrite Hsent|].
    cbn [map]. by rewrite Hurl, Hurls, Hbody, Hbodies.
Qed.

(** The requests of the remote protocol, for given patch requests, against
    collaborators that answer. *)
Lemma createDraftFromPatchRequests_sent this type title options patchRequests user
    headers body :
  let connection := DraftService.connection this in
  let create := {| Request.path := "v1/drafts";
                   Request.method := "POST";
                   Request.body :=
                     Some (Body_createDraft type title
                             (opt options CreateDraftOptions.description)
                             (default "public" (opt options CreateDraftOptions.visibility)));
                   Request.headers := None;
                   Request.query := None |} in
  Healthy.t this →
  outcome (providerLinkage this type options patchRequests) = Fulfilled (headers, body) →
  ∃ rsp payload created uploads,
    ServerConnection.fetchGkDevApi connection AsCreateDraftResponse create = Fulfilled rsp
    ∧ Response.json rsp = Fulfilled payload
    ∧ Payload.data payload = Some created
    ∧ filter (λ e, isRemoteCall e)
        (calls (createDraftFromPatchRequests this type title options patchRequests user))
      = FetchGkDevApi create
        :: FetchGkDevApi
             {| Request.path := "v1/drafts/" +:+ CreateDraftResponse.id created +:+ "/changesets";
                Request.method := "POST";
                Request.body :=
                  Some (Body_createChangeset (user ≫= GitUser.name) (user ≫= GitUser.email)
                          (map CreateDraftPatchRequestFromChange.patch patchRequests));
                Request.headers := headers;
                Request.query := None |}
        :: map Fetch uploads
        ++ [FetchGkDevApi
              {| Request.path := "v1/drafts/" +:+ CreateDraftResponse.id created +:+ "/publish";
                 Request.method := "POST";
                 Request.body := body;
                 Request.headers := headers;
                 Request.query := None |};
            FetchGkDevApi
              {| Request.path := "v1/drafts/" +:+ CreateDraftResponse.id created;
                 Request.method := "GET";
                 Request.body := None;
                 Request.headers := headers;
                 Request.query := None |}]
    ∧ map RawRequest.body uploads
      = map (λ r, Some (CreateDraftPatchRequestFromChange.contents r)) patchRequests.
Proof.
  intros connection create Hhealthy Hlinkage.
  unfold createDraftFromPatchRequests. cbv zeta.
  rewrite (bind_of_fulfilled _ _ _ Hlinkage). cbn [calls snd].
  rewrite filter_app, (localCalls_filter _ (providerLinkage_local _ _ _ _)), app_nil_l.
  fold connection. fold create.
  destruct (Healthy.createDraftOk _ Hhealthy create)
    as (rsp1 & payload1 & created & Hrsp1 & Hok1 & Hjson1 & Hdata1).
  exists rsp1, payload1, created.
  cbn [dataOf] in *. fold connection in Hrsp1.
  rewrite (await_bind _ _ _ _ Hrsp1), (checkOk_bind _ _ _ Hok1),
    (readData_bind _ _ _ Hjson1), Hdata1, defined_bind.
  cbn [calls snd].
  match goal with
  | |- context [ServerConnection.fetchGkDevApi _ AsDraftChangesetCreateResponse ?request] =>
      destruct (Healthy.createChangesetOk _ Hhealthy request)
        as (rsp2 & payload2 & data2 & Hrsp2 & Hok2 & Hjson2 & Hdata2 & Hcount);
      specialize (Hcount _ _ _ eq_refl)
  end.
  cbn [dataOf] in *. fold connection in Hrsp2. rewrite length_map in Hcount.
  rewrite (await_bind _ _ _ _ Hrsp2), (checkOk_bind _ _ _ Hok2),
    (readData_bind _ _ _ Hjson2), Hdata2, defined_bind.
  cbn [calls snd].
  destruct (uploadPatches_sent this patchRequests Hhealthy
              (DraftChangesetCreateResponse.patches data2) 0 [])
    as (out & uploads & Hout & Hsent & _ & Hbodies); [simpl; lia|].
  rewrite Hcount, drop_0, firstn_all in Hbodies.
  exists uploads. split; [done|]. split; [done|]. split; [done|]. split; [|exact Hbodies].
  rewrite (bind_of_fulfilled _ _ _ Hout). cbn [calls snd]. destruct out as [i patches].
  match goal with
  | |- context [ServerConnection.fetchGkDevApi _ AsNothing ?request] =>
      destruct (Healthy.publishOk _ Hhealthy request) as (rsp3 & Hrsp3 & Hok3)
  end.
  cbn [dataOf] in *. fold connection in Hrsp3.
  rewrite (await_bind _ _ _ _ Hrsp3), (checkOk_bind _ _ _ Hok3).
  cbn [calls snd].
  match goal with
  | |- context [ServerConnection.fetchGkDevApi _ AsDraftResponse ?request] =>
      destruct (Healthy.getDraftOk _ Hhealthy request)
        as (rsp4 & payload4 & data4 & Hrsp4 & Hok4 & Hjson4 & Hdata4)
  end.
  cbn [dataOf] in *. fold connection in Hrsp4.
  rewrite (await_bind _ _ _ _ Hrsp4), (checkOk_bind _ _ _ Hok4),
    (readData_bind _ _ _ Hjson4), Hdata4.
  cbn [calls snd].
  destruct (Healthy.subscriptionSettles _ Hhealthy) as [subscription Hsubscription].
  rewrite (await_bind _ _ _ _ Hsubscription), defined_bind.
  cbn [calls snd mret Async_ret].
  rewrite sent_remote, (sent_local Response_json), sent_remote, (sent_local Response_json)
    by reflexivity.
  rewrite filter_app, Hsent.
  rewrite sent_remote, sent_remote, (sent_local Response_json), sent_local by reflexivity.
  reflexivity.
Qed.

(** X26. The requests of a successful [createDraft], in the order they are
    sent, when every change resolves, the provider linkage succeeds and the
    collaborators answer: the draft is created (this request never carries
    the provider header); the changeset is created under the id the server
    has given the draft, with the git user and the patch requests that are
    not empty; one upload per patch request, in order, with the contents of
    the patch request as body; the draft is published, the pull request of
    the linkage as body; and the draft is read back.  Nothing else is sent,
    and the header of the linkage is on the three last requests to the
    service. *)
Theorem createDraft_requests this type title changes options headers body :
  let connection := DraftService.connection this in
  let results := map outcome (map (getCreateDraftPatchRequestFromChange this) changes) in
  let patchRequests := filter nonEmpty (fulfilments results) in
  let user := Collected.user (collectResults results) in
  let create := {| Request.path := "v1/drafts";
                   Request.method := "POST";
                   Request.body :=
                     Some (Body_createDraft type title
                             (opt options CreateDraftOptions.description)
                             (default "public" (opt options CreateDraftOptions.visibility)));
                   Request.headers := None;
                   Request.query := None |} in
  changes ≠ [] →
  Forall (λ change,
            isRejected (outcome (getCreateDraftPatchRequestFromChange this change)) = false)
    changes →
  Healthy.t this →
  outcome (providerLinkage this type options patchRequests) = Fulfilled (headers, body) →
  ∃ rsp payload created uploads,
    ServerConnection.fetchGkDevApi connection AsCreateDraftResponse create = Fulfilled rsp
    ∧ Response.json rsp = Fulfilled payload
    ∧ Payload.data payload = Some created
    ∧ filter (λ e, isRemoteCall e) (calls (createDraft this type title changes options))
      = FetchGkDevApi create
        :: FetchGkDevApi
             {| Request.path := "v1/drafts/" +:+ CreateDraftResponse.id created +:+ "/changesets";
                Request.method := "POST";
                Request.body :=
                  Some (Body_createChangeset (user ≫= GitUser.name) (user ≫= GitUser.email)
                          (map CreateDraftPatchRequestFromChange.patch patchRequests));
                Request.headers := headers;
                Request.query := None |}
        :: map Fetch uploads
        ++ [FetchGkDevApi
              {| Request.path := "v1/drafts/" +:+ CreateDraftResponse.id created +:+ "/publish";
                 Request.method := "POST";
                 Request.body := body;
                 Request.headers := headers;
                 Request.query := None |};
            FetchGkDevApi
              {| Request.path := "v1/drafts/" +:+ CreateDraftResponse.id created;
                 Request.method := "GET";
                 Request.body := None;
                 Request.headers := headers;
                 Request.query := None |}]
    ∧ map RawRequest.body uploads
      = map (λ r, Some (CreateDraftPatchRequestFromChange.contents r)) patchRequests.
Proof.
  intros connection results patchRequests user create Hsome Hvalid Hhealthy Hlinkage.
  destruct (createDraft_resolved this type title changes options Hsome Hvalid) as [_ ->].
  fold results. fold patchRequests. fold user.
  exact (createDraftFromPatchRequests_sent this type title options patchRequests user
           headers body Hhealthy Hlinkage).
Qed.

Lemma Fixture_healthy : Healthy.t Fixture.service.
Proof.
  constructor.
  - intros request. do 3 eexists. repeat split; reflexivity.
  - intros request. do 3 eexists. split; [reflexivity|]. repeat split; try reflexivity.
    intros name email patches Hbody. simpl.
    unfold Sample.requestedPatches. rewrite Hbody. apply length_map.
  - intros request. eexists. split; reflexivity.
  - intros request. do 3 eexists. repeat split; reflexivity.
  - intros request. eexists. reflexivity.
  - intros path contents. eexists. reflexivity.
  - eexists. reflexivity.
Qed.

Lemma createDraft_requests_witness :
  let auth :=
    Some (providerAuthHeaders Sample.imports
            {| ProviderAuth.provider := "github"; ProviderAuth.token := "token" |}) in
  ∃ created uploads,
    map RawRequest.body uploads = [Some "diff a..b"]
    ∧ filter (λ e, isRemoteCall e)
        (calls (createDraft Fixture.service "suggested_pr_change" "Fixes"
                  [Sample.change "b" "a"]
                  (Some {| CreateDraftOptions.description := None;
                           CreateDraftOptions.visibility := Some "private";
                           CreateDraftOptions.prEntityId := Some "pr" |})))
      = FetchGkDevApi
          (Request.mk "v1/drafts" "POST"
             (Some (Body_createDraft "suggested_pr_change" "Fixes" None "private")) None None)
        :: FetchGkDevApi created
        :: map Fetch uploads
        ++ [FetchGkDevApi
              (Request.mk "v1/drafts/draft-1/publish" "POST" (Some (Body_prEntityId "pr"))
                 auth None);
            FetchGkDevApi (Request.mk "v1/drafts/draft-1" "GET" None auth None)].
Proof.
  intros auth.
  destruct (createDraft_requests Fixture.service "suggested_pr_change" "Fixes"
              [Sample.change "b" "a"]
              (Some {| CreateDraftOptions.description := None;
                       CreateDraftOptions.visibility := Some "private";
                       CreateDraftOptions.prEntityId := Some "pr" |})
              auth (Some (Body_prEntityId "pr")))
    as (rsp & payload & created & uploads & Hrsp & Hjson & Hdata & Hsent & Hbodies).
  - discriminate.
  - repeat constructor.
  - exact Fixture_healthy.
  - reflexivity.
  - injection Hrsp as <-. injection Hjson as <-. injection Hdata as <-.
    eexists. exists uploads. split; [exact Hbodies | exact Hsent].
Defined.

(** ** createDraft: what a refusal stops *)

Lemma Fixture_refusing_healthy : Healthy.t Fixture.serviceRefusingStorage.
Proof.
  constructor.
  - intros request. do 3 eexists. repeat split; reflexivity.
  - intros request. do 3 eexists. split; [reflexivity|]. repeat split; try reflexivity.
    intros name email patches Hbody. simpl.
    unfold Sample.requestedPatches. rewrite Hbody. apply length_map.
  - intros request. eexists. split; reflexivity.
  - intros request. do 3 eexists. repeat split; reflexivity.
  - intros request. eexists. reflexivity.
  - intros path contents. eexists. reflexivity.
  - eexists. reflexivity.
Qed.

Ltac protocol_unfold Htype :=
  match goal with
  | |- context [createDraftFromPatchRequests ?this ?type ?title ?options ?requests ?user] =>
      let continue := fresh "continue" in
      destruct (createDraftFromPatchRequests_unfold this type title options requests user
                  Htype) as [continue ->]
  end.

(** X25. [createDraft] stops when the service refuses to create the draft
    or its changeset; it does not stop when the blob storage refuses an
    upload.  For a draft that needs no provider and changes that all
    resolve: if the request that creates the draft fails, or is answered
    with a status that is not 2xx, that request is the only one sent, and
    the error is the failure itself, or "Unable to create draft" with the
    status; if the draft is created and the service refuses its changeset,
    the two creation requests are the only ones sent -- nothing is uploaded
    or published -- and the error names the draft the service has created.
    The answer to an upload is never looked at: when the service and git
    answer and the storage answers every upload, with whatever status, 2xx
    or not, [createDraft] makes one upload per change whose diff is not
    empty, then publishes the draft, reads it back and returns it. *)
Theorem createDraft_refused this type title changes options :
  let connection := DraftService.connection this in
  let run := createDraft this type title changes options in
  let sent := filter (λ e, isRemoteCall e) (calls run) in
  let create := {| Request.path := "v1/drafts";
                   Request.method := "POST";
                   Request.body :=
                     Some (Body_createDraft type title
                             (opt options CreateDraftOptions.description)
                             (default "public" (opt options CreateDraftOptions.visibility)));
                   Request.headers := None;
                   Request.query := None |} in
  let answer := ServerConnection.fetchGkDevApi connection AsCreateDraftResponse create in
  changes ≠ [] →
  Forall (λ change,
            isRejected (outcome (getCreateDraftPatchRequestFromChange this change)) = false)
    changes →
  type ≠ "suggested_pr_change" →
  (∀ e, answer = Rejected e → outcome run = Rejected e ∧ sent = [FetchGkDevApi create])
  ∧ (∀ rsp,
       answer = Fulfilled rsp →
       Response.ok rsp = false →
       sent = [FetchGkDevApi create]
       ∧ ∃ detail,
           outcome run
           = Rejected (Error ("Unable to create draft: (" +:+ pretty (Response.status rsp)
                              +:+ ") " +:+ detail)))
  ∧ (∀ rsp payload created,
       answer = Fulfilled rsp →
       Response.ok rsp = true →
       Response.json rsp = Fulfilled payload →
       Payload.data payload = Some created →
       (∀ request, ∃ refusal,
          ServerConnection.fetchGkDevApi connection AsDraftChangesetCreateResponse request
            = Fulfilled refusal
          ∧ Response.ok refusal = false) →
       ∃ changeset refusal detail,
         sent = [FetchGkDevApi create; FetchGkDevApi changeset]
         ∧ Request.path changeset
           = "v1/drafts/" +:+ CreateDraftResponse.id created +:+ "/changesets"
         ∧ Request.method changeset = "POST"
         ∧ ServerConnection.fetchGkDevApi connection AsDraftChangesetCreateResponse changeset
           = Fulfilled refusal
         ∧ outcome run
           = Rejected (Error (("Unable to create changeset for draft '"
                               +:+ CreateDraftResponse.id created +:+ "'")
                              +:+ ": (" +:+ pretty (Response.status refusal) +:+ ") "
                              +:+ detail)))
  ∧ (Healthy.t this →
     ∃ draft changeset uploads id,
       outcome run = Fulfilled draft
       ∧ length uploads = length (filter (λ change, resolvesNonEmpty this change) changes)
       ∧ sent
         = [FetchGkDevApi create; FetchGkDevApi changeset]
           ++ map Fetch uploads
           ++ [FetchGkDevApi
                 (Request.mk ("v1/drafts/" +:+ id +:+ "/publish") "POST" None None None);
               FetchGkDevApi (Request.mk ("v1/drafts/" +:+ id) "GET" None None None)]).
Proof.
  intros connection run sent create answer Hsome Hvalid Htype.
  destruct (createDraft_resolved this type title changes options Hsome Hvalid)
    as [Houtcome Hsent].
  assert (outcome (providerLinkage this type options
                     (filter nonEmpty
                        (fulfilments
                           (map outcome
                              (map (getCreateDraftPatchRequestFromChange this) changes)))))
          = Fulfilled (None, None)) as Hlinkage
    by (by rewrite (providerLinkage_other _ _ _ _ Htype)).
  pose proof (patchRequests_changes this changes) as Hkept.
  apply Forall2_length in Hkept.
  subst sent run. rewrite Houtcome, Hsent. clear Houtcome Hsent.
  split; [|split; [|split]].
  4: { intros Hhealthy.
       match goal with
       | |- context [createDraftFromPatchRequests this type title options ?requests ?user] =>
           destruct (createDraftFromPatchRequests_healthy this type title options requests
                       user None None Hhealthy Hlinkage) as (draft & _ & Hdraft & _);
           destruct (createDraftFromPatchRequests_sent this type title options requests
                       user None None Hhealthy Hlinkage)
             as (rsp & payload & created & uploads & _ & _ & _ & Hrequests & Hbodies)
       end.
       exists draft. eexists. exists uploads, (CreateDraftResponse.id created).
       split; [exact Hdraft|]. split; [|exact Hrequests].
       rewrite <- Hkept. apply (f_equal length) in Hbodies.
       by rewrite !length_map in Hbodies. }
  - protocol_unfold Htype. fold connection. fold create. fold answer. cbn [dataOf] in *.
    intros e Hanswer. by rewrite (await_bind_rejected _ _ _ _ Hanswer).
  - protocol_unfold Htype. fold connection. fold create. fold answer. cbn [dataOf] in *.
    intros rsp Hanswer Hok. rewrite (await_bind _ _ _ _ Hanswer).
    match goal with
    | |- context [checkOk ?message rsp ≫= ?f] =>
        destruct (checkOk_refused message rsp f Hok) as [detail Hrefused]
    end.
    rewrite Hrefused. split; [reflexivity | by exists detail].
  - protocol_unfold Htype. fold connection. fold create. fold answer. cbn [dataOf] in *.
    intros rsp payload created Hanswer Hok Hjson Hdata Hrefuses.
    rewrite (await_bind _ _ _ _ Hanswer), (checkOk_bind _ _ _ Hok),
      (readData_bind _ _ _ Hjson), Hdata, defined_bind.
    cbv zeta. cbn [outcome calls fst snd].
    match goal with
    | |- context [ServerConnection.fetchGkDevApi connection AsDraftChangesetCreateResponse
                    ?request] =>
        destruct (Hrefuses request) as (refusal & Hrefusal & Hbad);
        exists request, refusal
    end.
    cbn [dataOf] in *. rewrite (await_bind _ _ _ _ Hrefusal).
    match goal with
    | |- context [checkOk ?message refusal ≫= ?f] =>
        destruct (checkOk_refused message refusal f Hbad) as [detail Hrefused]
    end.
    rewrite Hrefused. exists detail. cbn [outcome calls fst snd].
    split; [reflexivity|]. split; [reflexivity|]. split; [reflexivity|].
    split; [exact Hrefusal | reflexivity].
Qed.

Lemma createDraft_refused_witness :
  filter (λ e, isRemoteCall e)
    (calls (createDraft Fixture.serviceNoCreate "patch" "Fixes" [Sample.change "b" "a"] None))
  = [FetchGkDevApi
       (Request.mk "v1/drafts" "POST"
          (Some (Body_createDraft "patch" "Fixes" None "public")) None None)]
  ∧ (∃ changeset,
       filter (λ e, isRemoteCall e)
         (calls (createDraft Fixture.serviceNoChangesetCreate "patch" "Fixes"
                   [Sample.change "b" "a"] None))
       = [FetchGkDevApi
            (Request.mk "v1/drafts" "POST"
               (Some (Body_createDraft "patch" "Fixes" None "public")) None None);
          FetchGkDevApi changeset]
       ∧ Request.path changeset = "v1/drafts/draft-1/changesets")
  ∧ ∃ draft changeset upload id,
      ServerConnection.fetch Fixture.refusingStorage upload = Fulfilled Sample.notFound
      ∧ outcome (createDraft Fixture.serviceRefusingStorage "patch" "Fixes"
                   [Sample.change "b" "a"; Sample.change "c" "c"] None)
        = Fulfilled draft
      ∧ filter (λ e, isRemoteCall e)
          (calls (createDraft Fixture.serviceRefusingStorage "patch" "Fixes"
                    [Sample.change "b" "a"; Sample.change "c" "c"] None))
        = [FetchGkDevApi
             (Request.mk "v1/drafts" "POST"
                (Some (Body_createDraft "patch" "Fixes" None "public")) None None);
           FetchGkDevApi changeset;
           Fetch upload;
           FetchGkDevApi
             (Request.mk ("v1/drafts/" +:+ id +:+ "/publish") "POST" None None None);
           FetchGkDevApi (Request.mk ("v1/drafts/" +:+ id) "GET" None None None)].
Proof.
  split; [|split].
  - destruct (createDraft_refused Fixture.serviceNoCreate "patch" "Fixes"
                [Sample.change "b" "a"] None) as (_ & Hrefused & _);
      [discriminate | repeat constructor | discriminate |].
    exact (proj1 (Hrefused Sample.notFound eq_refl eq_refl)).
  - destruct (createDraft_refused Fixture.serviceNoChangesetCreate "patch" "Fixes"
                [Sample.change "b" "a"] None) as (_ & _ & Hchangeset & _);
      [discriminate | repeat constructor | discriminate |].
    destruct (Hchangeset (Sample.ok (Some {| CreateDraftResponse.id := "draft-1" |}) "")
                {| Payload.data := Some {| CreateDraftResponse.id := "draft-1" |};
                   Payload.error := None |}
                {| CreateDraftResponse.id := "draft-1" |} eq_refl eq_refl eq_refl eq_refl)
      as (changeset & _ & _ & Hsent & Hpath & _).
    + intros request. exists Sample.notFound. split; reflexivity.
    + exists changeset. split; [exact Hsent | exact Hpath].
  - destruct (createDraft_refused Fixture.serviceRefusingStorage "patch" "Fixes"
                [Sample.change "b" "a"; Sample.change "c" "c"] None)
      as (_ & _ & _ & Hstorage);
      [discriminate | repeat constructor | discriminate |].
    destruct (Hstorage Fixture_refusing_healthy)
      as (draft & changeset & uploads & id & Hdraft & Hlength & Hsent).
    destruct uploads as [|upload [|second uploads]];
      [discriminate Hlength | | discriminate Hlength].
    exists draft, changeset, upload, id. split; [reflexivity|].
    split; [exact Hdraft | exact Hsent].
Defined.

(** ** createDraft: the patches the server lists and the patch requests *)

Section UploadLoop.

Variable this : DraftService.t.
Variable requests : list CreateDraftPatchRequestFromChange.t.

Hypothesis diffFilesSettle : ∀ path contents, ∃ files,
  Git.getDiffFiles (Container.git (DraftService.container this)) path contents
    = Fulfilled files.
Hypothesis uploadSettles : ∀ request, ∃ rsp,
  ServerConnection.fetch (DraftService.connection this) request = Fulfilled rsp.

Lemma uploadPatch_step i request patches created :
  requests !! i = Some request →
  ∃ p diff upload,
    uploadPatch this requests (i, patches) created
    = (Fulfilled (S i, patches ++ [p]), [diff; Fetch upload])
    ∧ isRemoteCall diff = false
    ∧ hydratedFrom p request
    ∧ RawRequest.body upload = Some (CreateDraftPatchRequestFromChange.contents request).
Proof.
  intros Hrequest. unfold uploadPatch. rewrite Hrequest.
  destruct (diffFilesSettle
              (Repository.path (CreateDraftPatchRequestFromChange.repository request))
              (Some (CreateDraftPatchRequestFromChange.contents request)))
    as [diffFiles HdiffFiles].
  rewrite (await_bind _ _ _ _ HdiffFiles).
  match goal with
  | |- context [ServerConnection.fetch _ ?upload] =>
      destruct (uploadSettles upload) as [rsp Hrsp];
      rewrite (await_bind _ _ _ _ Hrsp)
  end.
  do 3 eexists. split; [reflexivity|]. repeat split. simpl. by eexists.
Qed.

Lemma uploadPatches_run created :
  ∀ i patches,
    (i ≤ length requests)%nat →
    let loop := forOf (uploadPatch this requests) created (i, patches) in
    let paired := take (length created) (drop i requests) in
    ∃ new uploads,
      filter (λ e, isRemoteCall e) (calls loop) = map Fetch uploads
      ∧ map RawRequest.body uploads
        = map (λ r, Some (CreateDraftPatchRequestFromChange.contents r)) paired
      ∧ Forall2 hydratedFrom new paired
      ∧ ((i + length created ≤ length requests)%nat →
         outcome loop = Fulfilled ((i + length created)%nat, patches ++ new))
      ∧ ((length requests < i + length created)%nat →
         ∃ message, outcome loop = Rejected (TypeError message)).
Proof.
  induction created as [|c created IH]; intros i patches Hi; cbn [forOf length].
  - exists [], []. rewrite app_nil_r, Nat.add_0_r. cbn [take].
    split; [reflexivity|]. split; [reflexivity|]. split; [constructor|].
    split; [reflexivity | lia].
  - destruct (requests !! i) as [request|] eqn:Hrequest.
    + rewrite (drop_S _ _ _ Hrequest). cbn [take map].
      destruct (uploadPatch_step i request patches c Hrequest)
        as (p & diff & upload & -> & Hdiff & Hhydrated & Hbody).
      rewrite bind_unfold. cbn [outcome calls fst snd app].
      destruct (IH (S i) (patches ++ [p]))
        as (new & uploads & Hsent & Hbodies & Hnew & Hfits & Hshort);
        [by apply lookup_lt_Some in Hrequest|].
      rewrite (sent_local _ _ Hdiff), sent_remote by reflexivity.
      exists (p :: new), (upload :: uploads). split; [by rewrite Hsent|].
      split; [cbn [map]; by rewrite Hbody, Hbodies|]. split; [by constructor|]. split.
      * intros Hle. rewrite Hfits by lia. f_equal. f_equal; [lia | by rewrite <- app_assoc].
      * intros Hlt. apply Hshort. lia.
    + apply lookup_ge_None in Hrequest. rewrite drop_ge by lia. rewrite take_nil.
      unfold uploadPatch. rewrite (proj2 (lookup_ge_None requests i) Hrequest).
      exists [], []. split; [reflexivity|]. split; [reflexivity|]. split; [constructor|].
      split; [lia | intros _; by eexists].
Qed.

End UploadLoop.

(** X27. After the changeset is created, [createDraft] pairs the patches
    the server lists with its patch requests by position, and trusts the
    count.  When git and the blob storage answer, the loop uploads the
    contents of the patch requests up to the number of listed patches, in
    order, and nothing else.  If the server lists no more patches than were
    requested, the loop ends with one hydrated patch per listed patch, and
    the patch requests past the listing are dropped without an error; if it
    lists more, every patch request is uploaded and the loop then fails
    with a [TypeError]. *)
Theorem upload_loop_positions this requests created :
  let loop := forOf (uploadPatch this requests) created (0, []) in
  let paired := take (length created) requests in
  (∀ path contents, ∃ files,
     Git.getDiffFiles (Container.git (DraftService.container this)) path contents
       = Fulfilled files) →
  (∀ request, ∃ rsp,
     ServerConnection.fetch (DraftService.connection this) request = Fulfilled rsp) →
  ∃ patches uploads,
    filter (λ e, isRemoteCall e) (calls loop) = map Fetch uploads
    ∧ map RawRequest.body uploads
      = map (λ r, Some (CreateDraftPatchRequestFromChange.contents r)) paired
    ∧ Forall2 hydratedFrom patches paired
    ∧ ((length created ≤ length requests)%nat →
       outcome loop = Fulfilled (length created, patches))
    ∧ ((length requests < length created)%nat →
       ∃ message, outcome loop = Rejected (TypeError message)).
Proof.
  intros loop paired Hgit Hstorage.
  destruct (uploadPatches_run this requests Hgit Hstorage created 0 [])
    as (new & uploads & Hsent & Hbodies & Hnew & Hfits & Hshort); [lia|].
  rewrite drop_0 in Hbodies, Hnew. exists new, uploads.
  split; [exact Hsent|]. split; [exact Hbodies|]. split; [exact Hnew|]. split.
  - intros Hle. exact (Hfits Hle).
  - intros Hlt. exact (Hshort Hlt).
Qed.

Lemma upload_loop_positions_witness :
  let listed :=
    Sample.patchCreated (CreateDraftPatchRequestFromChange.patch Fixture.patchRequest) in
  (∃ message,
     outcome (forOf (uploadPatch Sample.service [Fixture.patchRequest]) [listed; listed] (0, []))
     = Rejected (TypeError message))
  ∧ ∃ patches,
      outcome (forOf (uploadPatch Sample.service [Fixture.patchRequest; Fixture.patchRequest])
                 [listed] (0, []))
      = Fulfilled (1%nat, patches)
      ∧ length patches = 1%nat.
Proof.
  intros listed. split.
  - destruct (upload_loop_positions Sample.service [Fixture.patchRequest] [listed; listed])
      as (patches & uploads & _ & _ & _ & _ & Hmore).
    + intros path contents. eexists. reflexivity.
    + intros request. eexists. reflexivity.
    + apply Hmore. simpl. lia.
  - destruct (upload_loop_positions Sample.service
                [Fixture.patchRequest; Fixture.patchRequest] [listed])
      as (patches & uploads & _ & _ & Hpatches & Hfewer & _).
    + intros path contents. eexists. reflexivity.
    + intros request. eexists. reflexivity.
    + exists patches. split; [apply Hfewer; simpl; lia|].
      by apply Forall2_length in Hpatches.
Defined.

(** ** Code suggestions of a pull request *)

Lemma getProviderAuthForIntegration_local {Item} this (suggestions : SuggestionImports.t Item)
    integrationId :
  localCalls (calls (getProviderAuthForIntegration this suggestions integrationId)).
Proof. unfold getProviderAuthForIntegration. cbv zeta. local_calls. Qed.

Lemma orElse_spec {A} (m : Async A) (fallback : A) :
  orElse m fallback
  = (Fulfilled match outcome m with Fulfilled a => a | Rejected _ => fallback end, calls m).
Proof. by destruct m as [[a|e] w]. Qed.

Lemma checkOk_local {A} message (rsp : Response.t A) :
  localCalls (calls (checkOk message rsp)).
Proof.
  unfold checkOk. destruct (Response.ok rsp); cbn [negb]; [constructor|].
  destruct (handleBadDraftResponse_throws (B := unit) message rsp) as [text ->].
  by repeat constructor.
Qed.

Lemma readData_local {A} (rsp : Response.t A) : localCalls (calls (readData rsp)).
Proof. unfold readData. local_calls. Qed.

Lemma defined_local {A} what (x : option A) : localCalls (calls (defined what x)).
Proof. destruct x; constructor. Qed.

(** With a pull request and provider auth, [getDraftsCore] sends one
    request, whatever the answer. *)
Lemma getDraftsCore_sent this prEntityId auth archived :
  let imports := DraftService.imports this in
  filter (λ e, isRemoteCall e)
    (calls (getDraftsCore this
              (Some {| GetDraftsOptions.prEntityId := Some prEntityId;
                       GetDraftsOptions.providerAuth := Some auth;
                       GetDraftsOptions.isArchived := Some archived |})))
  = [FetchGkDevApi
       {| Request.path := "/v1/drafts";
          Request.method := "GET";
          Request.body := None;
          Request.headers := Some (providerAuthHeaders imports auth);
          Request.query :=
            let asked := "prEntityId=" +:+ Imports.encodeURIComponent imports prEntityId in
            Some (if archived then asked +:+ "&archived=true" else asked) |}].
Proof.
  intros imports. unfold getDraftsCore. cbv zeta. unfold opt, flag.
  cbn [GetDraftsOptions.prEntityId GetDraftsOptions.providerAuth GetDraftsOptions.isArchived
       default].
  rewrite ret_bind. cbv beta iota zeta. rewrite calls_bind. cbn [calls await snd app].
  rewrite sent_remote by reflexivity. f_equal.
  - by destruct archived.
  - apply localCalls_filter.
    destruct (outcome _) as [rsp|e]; [|constructor].
    apply localCalls_bind; [apply checkOk_local | intros _].
    apply localCalls_bind; [apply readData_local | intros data].
    apply localCalls_bind; [by apply localCalls_await | intros subscription].
    apply localCalls_bind; [apply defined_local | intros drafts]. constructor.
Qed.

(** X28. [getCodeSuggestions] asks for the drafts of a pull request and
    swallows the failure of that one request only.  An item whose entity
    identifier cannot be encoded, or a provider lookup that fails, makes it
    throw.  Once the lookup has settled it never throws: without provider
    auth it returns the empty list and nothing has been sent; with provider
    auth it sends exactly one request, [GET /v1/drafts] with the
    [Provider-Auth] header and the encoded pull request, asking for archived
    drafts too unless [includeArchived] is [false], and it returns the
    drafts of [getDraftsCore], or the empty list if that threw. *)
Theorem getCodeSuggestions_swallows {Item} this (suggestions : SuggestionImports.t Item)
    item target options :
  let imports := DraftService.imports this in
  let run := getCodeSuggestions this suggestions item target options in
  let lookup :=
    match target with
    | inl repository => getProviderAuthFromRepository this repository
    | inr integrationId => getProviderAuthForIntegration this suggestions integrationId
    end in
  let archived := default true (opt options CodeSuggestionOptions.includeArchived) in
  (∀ e, SuggestionImports.encodeEntityIdentifier suggestions item = Rejected e →
        run = (Rejected e, []))
  ∧ ∀ prEntityId,
      SuggestionImports.encodeEntityIdentifier suggestions item = Fulfilled prEntityId →
      (∀ e, outcome lookup = Rejected e → run = (Rejected e, calls lookup))
      ∧ (outcome lookup = Fulfilled None →
         run = (Fulfilled [], calls lookup) ∧ localCalls (calls run))
      ∧ ∀ auth,
          outcome lookup = Fulfilled (Some auth) →
          let core :=
            getDraftsCore this
              (Some {| GetDraftsOptions.prEntityId := Some prEntityId;
                       GetDraftsOptions.providerAuth := Some auth;
                       GetDraftsOptions.isArchived := Some archived |}) in
          let asked := "prEntityId=" +:+ Imports.encodeURIComponent imports prEntityId in
          outcome run
          = Fulfilled match outcome core with Fulfilled drafts => drafts | Rejected _ => [] end
          ∧ filter (λ e, isRemoteCall e) (calls run)
            = [FetchGkDevApi
                 {| Request.path := "/v1/drafts";
                    Request.method := "GET";
                    Request.body := None;
                    Request.headers := Some (providerAuthHeaders imports auth);
                    Request.query :=
                      Some (if archived then asked +:+ "&archived=true" else asked) |}].
Proof.
  intros imports run lookup archived.
  assert (localCalls (calls lookup)) as Hlocal.
  { subst lookup. destruct target;
      [apply getProviderAuthFromRepository_local | apply getProviderAuthForIntegration_local]. }
  subst run. unfold getCodeSuggestions. fold lookup. fold archived. split.
  - intros e ->. reflexivity.
  - intros prEntityId ->. rewrite bind_unfold. cbn [outcome calls fst snd app].
    rewrite <- async_eta. split; [|split].
    + intros e Hlookup. by rewrite (bind_of_rejected _ _ _ Hlookup).
    + intros Hlookup. rewrite (bind_of_fulfilled _ _ _ Hlookup), orElse_spec.
      cbn [outcome calls fst snd]. rewrite app_nil_r. split; [reflexivity | exact Hlocal].
    + intros auth Hlookup. cbv zeta.
      rewrite (bind_of_fulfilled _ _ _ Hlookup), orElse_spec.
      cbn [outcome calls fst snd]. split; [reflexivity|].
      rewrite filter_app, (localCalls_filter _ Hlocal), app_nil_l.
      apply getDraftsCore_sent.
Qed.

Lemma getCodeSuggestions_swallows_witness :
  getCodeSuggestions Sample.service Fixture.suggestions "12" (inr "github") None
  = (Fulfilled [], [IntegrationAuthentication_getSession "github" "github.com"])
  ∧ getCodeSuggestions Sample.service Fixture.suggestions "" (inr "github") None
    = (Rejected (Error "Unsupported provider"), []).
Proof.
  destruct (getCodeSuggestions_swallows Sample.service Fixture.suggestions "12"
              (inr "github") None) as [_ Hencoded].
  destruct (Hencoded "pr:12" eq_refl) as (_ & Hnone & _).
  split.
  - exact (proj1 (Hnone eq_refl)).
  - apply (getCodeSuggestions_swallows Sample.service Fixture.suggestions ""
             (inr "github") None).
    reflexivity.
Defined.

(** ** The repository of an issue: serialization and failures *)

Lemma getRepositoryIdentityForIssue_serialized issue :
  getRepositoryIdentityForIssue (serializeIssue issue) = getRepositoryIdentityForIssue issue.
Proof.
  unfold getRepositoryIdentityForIssue, serializeIssue. cbn.
  by destruct (IssueShape.repository issue).
Qed.

Lemma getVirtualUriForIssue_serialized imports issue :
  getVirtualUriForIssue imports (serializeIssue issue) = getVirtualUriForIssue imports issue.
Proof.
  unfold getVirtualUriForIssue, serializeIssue. cbn.
  by destruct (IssueShape.repository issue).
Qed.

(** X29. The repository of an issue is resolved from its provider, its url
    and the owner, name and url of its repository only, all of which
    [serializeIssue] keeps: the identity, the virtual uri and the whole run
    of [getOrOpenIssueRepository] are the same for an issue and for its
    serialized form.  For an issue without a repository the three functions
    throw "Missing repository", and [getOrOpenIssueRepository] has asked
    nothing.  When the first lookup fails, the failure is the result and
    neither the virtual view nor the prompting lookup is tried. *)
Theorem issue_repository_resolution imports container issue options :
  let run := getOrOpenIssueRepository imports container issue in
  (getRepositoryIdentityForIssue (serializeIssue issue) = getRepositoryIdentityForIssue issue
   ∧ getVirtualUriForIssue imports (serializeIssue issue) = getVirtualUriForIssue imports issue
   ∧ getOrOpenIssueRepository imports container (serializeIssue issue) options = run options)
  ∧ (IssueShape.repository issue = None →
     outcome (getRepositoryIdentityForIssue issue) = Rejected (Error "Missing repository")
     ∧ outcome (getVirtualUriForIssue imports issue) = Rejected (Error "Missing repository")
     ∧ run options = (Rejected (Error "Missing repository"), []))
  ∧ (∀ identity e,
       outcome (getRepositoryIdentityForIssue issue) = Fulfilled identity →
       Container.repositoryIdentity_getRepository container identity (lookupOptions false)
         = Rejected e →
       run options
       = (Rejected e, [RepositoryIdentity_getRepository identity (lookupOptions false)])).
Proof.
  intros run. split; [|split].
  - split; [apply getRepositoryIdentityForIssue_serialized|].
    split; [apply getVirtualUriForIssue_serialized|].
    subst run. unfold getOrOpenIssueRepository.
    by rewrite getRepositoryIdentityForIssue_serialized, getVirtualUriForIssue_serialized.
  - intros Hmissing. subst run.
    unfold getOrOpenIssueRepository, getRepositoryIdentityForIssue, getVirtualUriForIssue.
    by rewrite Hmissing.
  - intros identity e Hidentity Hlookup. subst run. unfold getOrOpenIssueRepository.
    destruct (getRepositoryIdentityForIssue issue) as [[identity'|e'] w] eqn:Hrun;
      cbn in Hidentity; [|discriminate].
    injection Hidentity as ->.
    assert (w = []) as ->.
    { unfold getRepositoryIdentityForIssue in Hrun.
      destruct (IssueShape.repository issue); by inversion Hrun. }
    change (Fulfilled identity, []) with (mret identity : Async _).
    rewrite ret_bind. by rewrite (await_bind_rejected _ _ _ _ Hlookup).
Qed.

Lemma issue_repository_resolution_witness :
  getOrOpenIssueRepository Sample.imports Sample.container Fixture.orphanIssue None
  = (Rejected (Error "Missing repository"), [])
  ∧ getOrOpenIssueRepository Sample.imports Sample.container
      (serializeIssue (Sample.issue "github")) None
    = getOrOpenIssueRepository Sample.imports Sample.container (Sample.issue "github") None.
Proof.
  split.
  - destruct (issue_repository_resolution Sample.imports Sample.container
                Fixture.orphanIssue None) as (_ & Hmissing & _).
    exact (proj2 (proj2 (Hmissing eq_refl))).
  - destruct (issue_repository_resolution Sample.imports Sample.container
                (Sample.issue "github") None) as ((_ & _ & Hserialized) & _).
    exact Hserialized.
Defined.

(** ** The drafts of the account *)

(** X30. [getDrafts] sends exactly one request, whatever the answer: [GET
    /v1/drafts] without a [Provider-Auth] header, with the query
    [archived=true] when called with [true] and with no query at all
    otherwise.  Called with [false] it does what it does without an
    argument: there is no request for the drafts that are not archived
    only. *)
Theorem getDrafts_request this isArchived :
  getDrafts this (Some false) = getDrafts this None
  ∧ filter (λ e, isRemoteCall e) (calls (getDrafts this isArchived))
    = [FetchGkDevApi
         {| Request.path := "/v1/drafts";
            Request.method := "GET";
            Request.body := None;
            Request.headers := None;
            Request.query := if default false isArchived then Some "archived=true" else None |}].
Proof.
  split; [reflexivity|].
  assert (∀ (rsp : Response.t (list DraftResponse.t)) fromPrEntityId,
            localCalls
              (calls (checkOk "Unable to open drafts" rsp ≫= λ _,
                      readData rsp ≫= λ data,
                      await Subscription_getSubscription
                        (Container.subscription_getSubscription (DraftService.container this))
                      ≫= λ subscription,
                      defined "map" data ≫= λ drafts,
                      mret (map (λ d, formatDraft d
                                        (Some {| FormatDraftOptions.account :=
                                                   Subscription.account subscription;
                                                 FormatDraftOptions.fallbackAuthorName :=
                                                   Some "Unknown";
                                                 FormatDraftOptions.fromPrEntityId :=
                                                   Some fromPrEntityId |}))
                              drafts)))) as Hrest.
  { intros rsp fromPrEntityId.
    apply localCalls_bind; [apply checkOk_local | intros _].
    apply localCalls_bind; [apply readData_local | intros data].
    apply localCalls_bind; [by apply localCalls_await | intros subscription].
    apply localCalls_bind; [apply defined_local | intros drafts]. constructor. }
  unfold getDrafts, getDraftsCore. cbv zeta.
  destruct isArchived as [[|]|]; cbn [default from_option id]; unfold opt, flag;
    cbn [GetDraftsOptions.prEntityId GetDraftsOptions.providerAuth
         GetDraftsOptions.isArchived default from_option id];
    rewrite ret_bind; cbv beta iota zeta; rewrite calls_bind; cbn [calls await snd app];
    rewrite sent_remote by reflexivity; (apply (f_equal2 cons); [reflexivity|]);
    apply localCalls_filter; (destruct (outcome _) as [rsp|e]; [apply Hrest | constructor]).
Qed.
